(** * OOP_chess: a shallow embedding of the board-game rule engine

    The development follows [src/OOP_chess.py].  Python objects live in an
    explicit store: figures are objects addressed by reference, the rows of a
    grid are list objects addressed by location, so that the sharing created
    by [save_state] and [undo_move] is visible.  Python exceptions are the
    [Raise] results of an error monad. *)

From Stdlib Require Import ZArith Bool List Lia.
From stdpp Require Import base tactics option list list_numbers.

Local Open Scope Z_scope.

(** ** Exceptions and results *)

Inductive exn : Type :=
| IndexError       (* list index out of range *)
| TypeError        (* subscripting None *)
| AttributeError   (* attribute access on None *)
| DanglingRef      (* a reference outside the store: never built by the program *)
| OutOfFuel.       (* a loop bound of the model was too small: shown unreachable *)

Inductive result (A : Type) : Type :=
| Ok (a : A)
| Raise (e : exn).
Arguments Ok {A} a.
Arguments Raise {A} e.

#[global] Instance result_ret : MRet result := fun A a => Ok a.
#[global] Instance result_bind : MBind result := fun A B f r =>
  match r with
  | Ok a => f a
  | Raise e => Raise e
  end.

(** ** Python lists: indexing with negative wrap-around, ranges, [remove] *)

Definition py_norm (n : nat) (i : Z) : option nat :=
  if bool_decide (0 <= i < Z.of_nat n) then Some (Z.to_nat i)
  else if bool_decide (- Z.of_nat n <= i < 0) then Some (Z.to_nat (i + Z.of_nat n))
  else None.

Definition py_getitem {A} (l : list A) (i : Z) : result A :=
  match py_norm (length l) i with
  | Some k => match l !! k with Some x => Ok x | None => Raise IndexError end
  | None => Raise IndexError
  end.

Definition py_setitem {A} (l : list A) (i : Z) (x : A) : result (list A) :=
  match py_norm (length l) i with
  | Some k => Ok (<[k:=x]> l)
  | None => Raise IndexError
  end.

(** [range(lo, hi)] *)
Definition py_range (lo hi : Z) : list Z := seqZ lo (hi - lo).

(** [range(lo, hi, -1)] *)
Definition py_range_down (lo hi : Z) : list Z :=
  (fun k => lo - k) <$> seqZ 0 (lo - hi).

Definition cell : Type := Z * Z.

(** [l.remove(m)]: drops the first element equal to [m]. *)
Fixpoint list_remove_first (m : cell) (l : list cell) : list cell :=
  match l with
  | [] => []
  | x :: r => if bool_decide (x = m) then r else x :: list_remove_first m r
  end.

(** [m in l] *)
Definition py_in (m : cell) (l : list cell) : bool := bool_decide (m ∈ l).

(** ** Figures *)

Inductive Color : Type := white | black.

Inductive Class : Type :=
| CheckersFigure | Ghost | Pawn | Rook | Knight | Bishop | Queen | King | Snake.

#[global] Instance Color_eq_dec : EqDecision Color.
Proof. solve_decision. Defined.
#[global] Instance Class_eq_dec : EqDecision Class.
Proof. solve_decision. Defined.

(** An instance of a subclass of the Python class [Figure]. *)
Record Figure : Type := mkFigure {
  cls : Class;
  color : Color;
  position : cell;
  kill : bool
}.

(** The class hierarchy: every class derives from [Figure] directly, except
    [Snake], which derives from [King]. *)
Definition subclass (c d : Class) : bool :=
  bool_decide (c = d) || (bool_decide (c = Snake) && bool_decide (d = King)).

(** [isinstance(obj, (C1, ..., Cn))]; [None] is an instance of none. *)
Definition isinstance (obj : option Figure) (cs : list Class) : bool :=
  match obj with
  | Some f => existsb (subclass (cls f)) cs
  | None => false
  end.

Definition chess_classes : list Class :=
  [Pawn; Rook; Bishop; Knight; King; Queen; Ghost; Snake].

Definition opposite (c : Color) : Color :=
  match c with white => black | black => white end.

Definition in_bounds (p : cell) : bool :=
  (0 <=? p.1) && (p.1 <? 8) && (0 <=? p.2) && (p.2 <? 8).

(** ** Movement geometry: the [get_possible_moves] methods *)

Module CheckersFigure.
Definition get_possible_moves (self : Figure) : list cell :=
  let '(x, y) := position self in
  match color self with
  | white => [(x - 1, y + 1); (x - 1, y - 1)]
  | black => [(x + 1, y + 1); (x + 1, y - 1)]
  end.
End CheckersFigure.

Module Ghost.
(** The inner [for i in range(1, 8)] loop with its [break]. *)
Fixpoint walk (x y dx dy : Z) (steps : list Z) : list cell :=
  match steps with
  | [] => []
  | i :: rest =>
      let p := (x + dx * i, y + dy * i) in
      if in_bounds p then p :: walk x y dx dy rest else []
  end.

Definition get_possible_moves (self : Figure) : list cell :=
  let '(x, y) := position self in
  flat_map (fun d : Z * Z => walk x y d.1 d.2 (py_range 1 8))
           [(1, 0); (-1, 0); (0, 1); (0, -1)].
End Ghost.

Module Pawn.
Definition off_board (m : cell) : bool :=
  (m.1 <? 0) || (8 <=? m.1) || (m.2 <? 0) || (8 <=? m.2).

(** [for move in possible_moves: if ...: possible_moves.remove(move)]:
    the iterator is an index into the list that is being shortened. *)
Fixpoint filter_in_place (fuel : nat) (i : nat) (l : list cell) : list cell :=
  match fuel with
  | O => l
  | S fuel' =>
      match l !! i with
      | None => l
      | Some m =>
          if off_board m
          then filter_in_place fuel' (S i) (list_remove_first m l)
          else filter_in_place fuel' (S i) l
      end
  end.

Definition get_possible_moves (self : Figure) : list cell :=
  let '(x, y) := position self in
  let first :=
    match color self with white => [(x - 1, y)] | black => [(x + 1, y)] end in
  let second :=
    if bool_decide (x = 6) && bool_decide (color self = white) then [(x - 2, y)]
    else if bool_decide (x = 1) && bool_decide (color self = black) then [(x + 2, y)]
    else [] in
  let possible_moves := first ++ second in
  filter_in_place (length possible_moves) 0 possible_moves.
End Pawn.

Module Rook.
Definition lines (x y : Z) : list cell :=
  flat_map (fun i : Z =>
              (if bool_decide (i ≠ x) then [(i, y)] else []) ++
              (if bool_decide (i ≠ y) then [(x, i)] else []))
           (py_range 0 8).

Definition get_possible_moves (self : Figure) : list cell :=
  let '(x, y) := position self in lines x y.
End Rook.

Module Knight.
Definition get_possible_moves (self : Figure) : list cell :=
  let '(x, y) := position self in
  [(x + 1, y + 2); (x + 2, y + 1); (x + 1, y - 2); (x + 2, y - 1);
   (x - 1, y + 2); (x - 2, y + 1); (x - 2, y - 1); (x - 1, y - 2)].
End Knight.

Module Bishop.
(** The [while True] loop of one direction; it stops at the first cell
    off the board, which comes after at most nine steps. *)
Fixpoint slide (fuel : nat) (x y dx dy step : Z) : list cell :=
  match fuel with
  | O => []
  | S fuel' =>
      let p := (x + dx * step, y + dy * step) in
      if in_bounds p then p :: slide fuel' x y dx dy (step + 1) else []
  end.

Definition directions : list (Z * Z) := [(-1, -1); (-1, 1); (1, -1); (1, 1)].

Definition diagonals (x y : Z) : list cell :=
  flat_map (fun d : Z * Z => slide 9 x y d.1 d.2 1) directions.

Definition get_possible_moves (self : Figure) : list cell :=
  let '(x, y) := position self in diagonals x y.
End Bishop.

Module Queen.
Definition get_possible_moves (self : Figure) : list cell :=
  let '(x, y) := position self in
  Rook.lines x y ++ Bishop.diagonals x y.
End Queen.

Module King.
Definition get_possible_moves (self : Figure) : list cell :=
  let '(x, y) := position self in
  [(x + 1, y); (x - 1, y); (x, y + 1); (x, y - 1);
   (x + 1, y + 1); (x - 1, y - 1); (x + 1, y - 1); (x - 1, y + 1)].
End King.

(** Dynamic dispatch of [figure.get_possible_moves()]; [Snake] inherits the
    method of [King]. *)
Definition get_possible_moves (self : Figure) : list cell :=
  match cls self with
  | CheckersFigure => CheckersFigure.get_possible_moves self
  | Ghost => Ghost.get_possible_moves self
  | Pawn => Pawn.get_possible_moves self
  | Rook => Rook.get_possible_moves self
  | Knight => Knight.get_possible_moves self
  | Bishop => Bishop.get_possible_moves self
  | Queen => Queen.get_possible_moves self
  | King | Snake => King.get_possible_moves self
  end.

(** ** The store: figure objects, row objects, and what was printed *)

Inductive Msg : Type :=
| MsgUndone                  (* "Ход откатан." *)
| MsgNothingToUndo           (* "Нет ходов для отката." *)
| MsgCapture                 (* "Игрок бьет фигуру противника" *)
| MsgCheck (c : Color)       (* "Король ..., берегись!! (Шах)" *)
| MsgPromoted (c : Color)    (* "Фигура ... стала дамкой!" *)
| MsgGameOver (c : Color)    (* "Конец игры!! Игрок ... проиграл :(" *)
| MsgContinues (c : Color)   (* "Игрок ... продолжает ходить" *)
| MsgInvalidMove.            (* "Неверный ход, попробуйте снова." *)

Record Store : Type := mkStore {
  figs : list Figure;                  (* figure objects, by reference *)
  rows : list (list (option nat));     (* row lists, by location *)
  stdout : list Msg
}.

Definition empty_store : Store := mkStore [] [] [].

Inductive Variant : Type := ChessBoard | CheckersBoard | ExtendedBoard.

(** A board object.  [field] and every element of [history] is an outer list
    of eight row locations; the program never updates an outer list in
    place (every write is [self.field[a][b] = v], which updates a row), so an
    outer list is kept by value and the rows it names carry the sharing. *)
Record Board : Type := mkBoard {
  variant : Variant;
  field : list nat;
  history : list (list nat)
}.

(** State and error monad of the methods that write. *)
Definition M (A : Type) : Type := Store -> result (A * Store).

#[global] Instance M_ret : MRet M := fun A a s => Ok (a, s).
#[global] Instance M_bind : MBind M := fun A B f m s =>
  match m s with
  | Ok (a, s') => f a s'
  | Raise e => Raise e
  end.

Definition lift {A} (r : Store -> result A) : M A := fun s =>
  match r s with
  | Ok a => Ok (a, s)
  | Raise e => Raise e
  end.

Definition throw {A} (e : exn) : M A := fun _ => Raise e.

Definition print (m : Msg) : M unit := fun s =>
  Ok (tt, mkStore (figs s) (rows s) (stdout s ++ [m])).

Fixpoint forM {A} (l : list A) (f : A -> M unit) : M unit :=
  match l with
  | [] => mret tt
  | x :: rest => f x ≫= fun _ => forM rest f
  end.

Fixpoint mapM {A B} (f : A -> M B) (l : list A) : M (list B) :=
  match l with
  | [] => mret []
  | x :: rest => y ← f x; ys ← mapM f rest; mret (y :: ys)
  end.

Fixpoint foldM {A B} (f : B -> A -> result B) (l : list A) (b : B) : result B :=
  match l with
  | [] => Ok b
  | x :: rest => b' ← f b x; foldM f rest b'
  end.

(** *** Reading *)

Definition deref (s : Store) (r : nat) : result Figure :=
  match figs s !! r with
  | Some f => Ok f
  | None => Raise DanglingRef
  end.

Definition deref_opt (s : Store) (o : option nat) : result (option Figure) :=
  match o with
  | None => Ok None
  | Some r => f ← deref s r; Ok (Some f)
  end.

Definition row_at (s : Store) (l : nat) : result (list (option nat)) :=
  match rows s !! l with
  | Some row => Ok row
  | None => Raise DanglingRef
  end.

(** [grid[a][b]] for an outer list [grid] *)
Definition grid_get (s : Store) (grid : list nat) (p : cell) : result (option nat) :=
  l ← py_getitem grid p.1;
  row ← row_at s l;
  py_getitem row p.2.

(** [self.field[a][b]] *)
Definition get_cell (s : Store) (self : Board) (p : cell) : result (option nat) :=
  grid_get s (field self) p.

(** The object in a cell, if any. *)
Definition figure_at (s : Store) (self : Board) (p : cell) : result (option Figure) :=
  c ← get_cell s self p; deref_opt s c.

(** *** Writing *)

(** [self.field[a][b] = v] *)
Definition set_cell (self : Board) (p : cell) (v : option nat) : M unit := fun s =>
  l ← py_getitem (field self) p.1;
  row ← row_at s l;
  row' ← py_setitem row p.2 v;
  Ok (tt, mkStore (figs s) (<[l := row']> (rows s)) (stdout s)).

Definition alloc_fig (f : Figure) : M nat := fun s =>
  Ok (length (figs s), mkStore (figs s ++ [f]) (rows s) (stdout s)).

Definition alloc_row (row : list (option nat)) : M nat := fun s =>
  Ok (length (rows s), mkStore (figs s) (rows s ++ [row]) (stdout s)).

Definition update_fig (o : option nat) (g : Figure -> Figure) : M unit :=
  match o with
  | None => throw AttributeError
  | Some r => fun s =>
      match figs s !! r with
      | Some f => Ok (tt, mkStore (<[r := g f]> (figs s)) (rows s) (stdout s))
      | None => Raise DanglingRef
      end
  end.

(** [figure.position = p] *)
Definition set_position (o : option nat) (p : cell) : M unit :=
  update_fig o (fun f => mkFigure (cls f) (color f) p (kill f)).

(** [figure.kill = k] *)
Definition set_kill (o : option nat) (k : bool) : M unit :=
  update_fig o (fun f => mkFigure (cls f) (color f) (position f) k).

(** [self.field[a][b] = C(color, pos)] *)
Definition place (self : Board) (p : cell) (c : Class) (col : Color) (pos : cell) : M unit :=
  r ← alloc_fig (mkFigure c col pos false);
  set_cell self p (Some r).

Definition truthy (v : option bool) : bool :=
  match v with Some true => true | _ => false end.

Definition all_cells : list cell :=
  flat_map (fun row => (fun col => (row, col)) <$> py_range 0 8) (py_range 0 8).

(** ** class Board *)

Module Board.

(** The [for] loops of [is_path_clear]: the first occupied cell answers
    [False]. *)
Fixpoint scan (s : Store) (self : Board) (cells : list cell) : result bool :=
  match cells with
  | [] => Ok true
  | p :: rest =>
      c ← get_cell s self p;
      match c with
      | Some _ => Ok false
      | None => scan s self rest
      end
  end.

(** The [while row != a2 or col != b2] loop of the diagonal case. *)
Fixpoint diag_loop (fuel : nat) (s : Store) (self : Board)
    (a2 b2 row_step col_step row col : Z) : result bool :=
  match fuel with
  | O => Raise OutOfFuel
  | S fuel' =>
      if bool_decide (row ≠ a2) || bool_decide (col ≠ b2) then
        c ← get_cell s self (row, col);
        match c with
        | Some _ => Ok false
        | None =>
            diag_loop fuel' s self a2 b2 row_step col_step
                      (row + row_step) (col + col_step)
        end
      else Ok true
  end.

(** Returns [Some b] for the Python booleans and [None] when the method
    falls off its end (neither a line nor a diagonal). *)
Definition is_path_clear (s : Store) (self : Board) (a1 b1 a2 b2 : Z)
    : result (option bool) :=
  if bool_decide (a1 = a2) then
    r ← scan s self ((fun col => (a1, col)) <$> py_range (Z.min b1 b2 + 1) (Z.max b1 b2));
    Ok (Some r)
  else if bool_decide (b1 = b2) then
    r ← scan s self ((fun row => (row, b1)) <$> py_range (Z.min a1 a2 + 1) (Z.max a1 a2));
    Ok (Some r)
  else if bool_decide (Z.abs (a1 - a2) = Z.abs (b1 - b2)) then
    let row_step := if bool_decide (a2 > a1) then 1 else -1 in
    let col_step := if bool_decide (b2 > b1) then 1 else -1 in
    r ← diag_loop (Z.to_nat (Z.abs (a1 - a2))) s self a2 b2 row_step col_step
                  (a1 + row_step) (b1 + col_step);
    Ok (Some r)
  else Ok None.

(** The two cells a pawn of colour [c] standing on [(a1, b1)] captures on. *)
Definition pawn_capture_cells (c : Color) (a1 b1 : Z) : list cell :=
  match c with
  | white => [(a1 - 1, b1 + 1); (a1 - 1, b1 - 1)]
  | black => [(a1 + 1, b1 + 1); (a1 + 1, b1 - 1)]
  end.

(** [possible_moves] as [check_move] has it before the membership test:
    the geometry of the figure, replaced for a pawn whose destination holds
    a chess figure of the other colour. *)
Definition targets (s : Store) (figure : Figure) (enemy : option nat) (a1 b1 : Z)
    : result (list cell) :=
  if isinstance (Some figure) [Pawn] then
    e ← deref_opt s enemy;
    if isinstance e chess_classes
       && match e with
          | Some ef => bool_decide (color figure ≠ color ef)
          | None => false
          end
    then Ok (pawn_capture_cells (color figure) a1 b1)
    else Ok (get_possible_moves figure)
  else Ok (get_possible_moves figure).

Definition check_move (s : Store) (self : Board) (step1 step2 : cell) : result bool :=
  let '(a1, b1) := step1 in
  let '(a2, b2) := step2 in
  figure ← get_cell s self (a1, b1);
  enemy ← get_cell s self (a2, b2);
  match figure with
  | None => Ok false
  | Some r =>
      fig ← deref s r;
      if isinstance (Some fig) chess_classes then
        possible_moves ← targets s fig enemy a1 b1;
        if py_in (a2, b2) possible_moves then
          if isinstance (Some fig) [Knight; Ghost] then Ok true
          else
            clear ← is_path_clear s self a1 b1 a2 b2;
            if truthy clear then Ok true else Ok false
        else Ok false
      else Ok false
  end.

(** The condition shared by the two branches of [if_rock_possible], for
    the home row [row] the branch names. *)
Definition rock_condition (s : Store) (self : Board) (pl_color : Color) (row : Z)
    : result bool :=
  k ← figure_at s self (row, 4);
  if isinstance k [King]
     && match k with Some kf => bool_decide (color kf = pl_color) | None => false end
  then
    r ← figure_at s self (row, 7);
    if isinstance r [Rook]
       && match r with Some rf => bool_decide (color rf = pl_color) | None => false end
    then
      clear ← is_path_clear s self row 4 row 7;
      Ok (truthy clear)
    else Ok false
  else Ok false.

Definition if_rock_possible (s : Store) (self : Board) (pl_color : Color) : result bool :=
  match pl_color with
  | white => rock_condition s self pl_color 0
  | black => rock_condition s self pl_color 7
  end.

Definition rock (self : Board) (pl_color : Color) : M unit :=
  let row := match pl_color with white => 0 | black => 7 end in
  k ← lift (fun s => get_cell s self (row, 4));
  set_cell self (row, 6) k;;
  set_cell self (row, 4) None;;
  r ← lift (fun s => get_cell s self (row, 7));
  set_cell self (row, 5) r;;
  set_cell self (row, 7) None.

Definition save_state (self : Board) : M Board :=
  board_copy ← mapM (fun l => row ← lift (fun s => row_at s l); alloc_row row)
                    (field self);
  mret (mkBoard (variant self) (field self) (history self ++ [board_copy])).

Definition undo_move (self : Board) : M Board :=
  if bool_decide (1 < length (history self))%nat then
    let history' := removelast (history self) in
    field' ← lift (fun _ => py_getitem history' (-1));
    print MsgUndone;;
    mret (mkBoard (variant self) field' history')
  else
    print MsgNothingToUndo;;
    mret self.

Definition back_row : list Class :=
  [Rook; Knight; Bishop; Queen; King; Bishop; Knight; Rook].

Definition setup_board (self : Board) : M unit :=
  forM (py_range 0 8) (fun col =>
    place self (1, col) Pawn black (1, col);;
    place self (6, col) Pawn white (6, col));;
  forM (zip (py_range 0 8) back_row) (fun '(col, piece_class) =>
    place self (0, col) piece_class black (0, col);;
    place self (7, col) piece_class white (7, col)).

Definition make_move (self : Board) (step1 step2 : cell) : M Board :=
  let '(a1, b1) := step1 in
  let '(a2, b2) := step2 in
  figure ← lift (fun s => get_cell s self (a1, b1));
  target ← lift (fun s => figure_at s self (a2, b2));
  (if isinstance target (chess_classes ++ [CheckersFigure]) then
     print MsgCapture;;
     fig ← lift (fun s => deref_opt s figure);
     if isinstance fig [Snake] then set_kill figure true else mret tt
   else mret tt);;
  set_cell self (a2, b2) figure;;
  set_position figure (a2, b2);;
  set_cell self (a1, b1) None;;
  save_state self.

(** First pass: the cell of the last black and of the last white instance
    of [King] in row-major order ([None] when there is none). *)
Definition locate_kings (s : Store) (self : Board)
    : result (option cell * option cell) :=
  foldM (fun (acc : option cell * option cell) (p : cell) =>
           piece ← figure_at s self p;
           if isinstance piece [King] then
             match piece with
             | Some f =>
                 match color f with
                 | black => Ok (Some p, acc.2)
                 | white => Ok (acc.1, Some p)
                 end
             | None => Ok acc
             end
           else Ok acc)
        all_cells (None, None).

(** [king_position[0], king_position[1]] *)
Definition subscript (king_position : option cell) : result cell :=
  match king_position with
  | Some p => Ok p
  | None => Raise TypeError
  end.

(** Second pass: the two lists of threatened squares, black's first. *)
Definition collect_risks (s : Store) (self : Board)
    (black_king_position white_king_position : option cell)
    : result (list cell * list cell) :=
  foldM (fun (acc : list cell * list cell) (p : cell) =>
           piece ← figure_at s self p;
           if isinstance piece [Pawn; Rook; Bishop; Knight; King; Queen] then
             match piece with
             | Some f =>
                 match color f with
                 | white =>
                     k ← subscript black_king_position;
                     clear ← is_path_clear s self p.1 p.2 k.1 k.2;
                     if truthy clear
                     then Ok (acc.1 ++ get_possible_moves f, acc.2)
                     else Ok acc
                 | black =>
                     k ← subscript white_king_position;
                     clear ← is_path_clear s self p.1 p.2 k.1 k.2;
                     if truthy clear
                     then Ok (acc.1, acc.2 ++ get_possible_moves f)
                     else Ok acc
                 end
             | None => Ok acc
             end
           else Ok acc)
        all_cells ([], []).

(** [king = self.field[...]; all(move in risks for move in king.get_possible_moves())] *)
Definition king_is_boxed (s : Store) (self : Board) (p : cell) (risks : list cell)
    : result bool :=
  k ← figure_at s self p;
  match k with
  | Some kf => Ok (forallb (fun move => py_in move risks) (get_possible_moves kf))
  | None => Raise AttributeError
  end.

(** [king_position and king_position in risks] *)
Definition in_check (king_position : option cell) (risks : list cell) : option cell :=
  match king_position with
  | Some p => if py_in p risks then Some p else None
  | None => None
  end.

Definition is_game_over (self : Board) : M bool :=
  kings ← lift (fun s => locate_kings s self);
  let black_king_position := kings.1 in
  let white_king_position := kings.2 in
  risks ← lift (fun s => collect_risks s self black_king_position white_king_position);
  let potential_risks_for_black := risks.1 in
  let potential_risks_for_white := risks.2 in
  match in_check black_king_position potential_risks_for_black with
  | Some bk =>
      print (MsgCheck black);;
      lift (fun s => king_is_boxed s self bk potential_risks_for_black)
  | None =>
      match in_check white_king_position potential_risks_for_white with
      | Some wk =>
          print (MsgCheck white);;
          lift (fun s => king_is_boxed s self wk potential_risks_for_white)
      | None => mret false
      end
  end.

End Board.

(** ** class CheckersBoard(Board) *)

Module CheckersBoard.

Definition setup_board (self : Board) : M unit :=
  forM (py_range 0 8) (fun col =>
    if bool_decide (col `mod` 2 ≠ 0) then
      place self (0, col) CheckersFigure black (0, col);;
      place self (2, col) CheckersFigure black (2, col);;
      place self (6, col) CheckersFigure white (6, col)
    else
      place self (7, col) CheckersFigure white (6, col);;
      place self (1, col) CheckersFigure black (1, col);;
      place self (5, col) CheckersFigure white (5, col)).

(** [abs(a2 - a1) == 2 and abs(b2 - b1) == 2 and not self.is_path_clear(...)] *)
Definition is_jump (s : Store) (self : Board) (a1 b1 a2 b2 : Z) : result bool :=
  if bool_decide (Z.abs (a2 - a1) = 2) && bool_decide (Z.abs (b2 - b1) = 2) then
    clear ← Board.is_path_clear s self a1 b1 a2 b2;
    Ok (negb (truthy clear))
  else Ok false.

Definition check_move (s : Store) (self : Board) (step1 step2 : cell) : result bool :=
  let '(a1, b1) := step1 in
  let '(a2, b2) := step2 in
  figure ← figure_at s self (a1, b1);
  match figure with
  | None => Ok false
  | Some fig =>
      if negb (isinstance figure [CheckersFigure; Bishop]) then Ok false
      else
        let possible_moves := get_possible_moves fig in
        if isinstance figure [Bishop] then
          Ok (py_in (a2, b2) possible_moves)
        else
          jump ← is_jump s self a1 b1 a2 b2;
          if (jump : bool) then Ok true
          else if py_in (a2, b2) possible_moves then
            clear ← Board.is_path_clear s self a1 b1 a2 b2;
            Ok (truthy clear)
          else Ok false
  end.

(** One of the [for row in ...: self.field[row][b1 ± 1 * col] = None;
    col += 1] loops of the promoted figure's capture. *)
Definition sweep (self : Board) (row_range : list Z) (column : Z -> Z) : M unit :=
  forM (zip row_range (seqZ 1 (Z.of_nat (length row_range)))) (fun '(row, col) =>
    set_cell self (row, column col) None).

Definition make_move (self : Board) (step1 step2 : cell) : M unit :=
  let '(a1, b1) := step1 in
  let '(a2, b2) := step2 in
  figure ← lift (fun s => get_cell s self (a1, b1));
  fig ← lift (fun s => deref_opt s figure);
  clear ← lift (fun s => Board.is_path_clear s self a1 b1 a2 b2);
  (if negb (truthy clear) then
     if isinstance fig [CheckersFigure] then
       let mid_x := (a1 + a2) `div` 2 in
       let mid_y := (b1 + b2) `div` 2 in
       print MsgCapture;;
       set_kill figure true;;
       set_cell self (mid_x, mid_y) None
     else if isinstance fig [Bishop] then
       (if bool_decide (a1 < a2) && bool_decide (b1 < b2) then
          sweep self (py_range (a1 + 1) a2) (fun col => b1 + 1 * col)
        else if bool_decide (a1 > a2) && bool_decide (b1 < b2) then
          sweep self (py_range (a1 + 1) a2) (fun col => b1 - 1 * col)
        else if bool_decide (a1 < a2) && bool_decide (b1 > b2) then
          sweep self (py_range_down (a1 + 1) a2) (fun col => b1 + 1 * col)
        else if bool_decide (a1 < a2) && bool_decide (b1 < b2) then
          sweep self (py_range_down (a1 + 1) a2) (fun col => b1 - 1 * col)
        else mret tt);;
       print MsgCapture;;
       set_kill figure true
     else mret tt
   else mret tt);;
  set_cell self (a2, b2) figure;;
  set_position figure (a2, b2);;
  set_cell self (a1, b1) None;;
  moved ← lift (fun s => deref_opt s figure);
  match moved with
  | None => throw AttributeError
  | Some f =>
      if (bool_decide (color f = white) && bool_decide (a2 = 0))
         || (bool_decide (color f = black) && bool_decide (a2 = 7))
      then
        place self (a2, b2) Bishop (color f) (a2, b2);;
        print (MsgPromoted (color f))
      else mret tt
  end.

(** The inner [for move in figure.get_possible_moves()] loop: does
    [check_move] accept one of them? *)
Fixpoint some_move (s : Store) (self : Board) (p : cell) (moves : list cell)
    : result bool :=
  match moves with
  | [] => Ok false
  | move :: rest =>
      ok ← check_move s self p move;
      if (ok : bool) then Ok true else some_move s self p rest
  end.

(** The scan over the cells, with the two flags it maintains. *)
Fixpoint scan_board (s : Store) (self : Board) (cells : list cell)
    (black_seen white_seen : bool) : result bool :=
  match cells with
  | [] => Ok (negb (black_seen && white_seen))
  | p :: rest =>
      figure ← figure_at s self p;
      match figure with
      | Some f =>
          if isinstance figure [CheckersFigure] then
            let white_seen' := if bool_decide (color f = white) then true else white_seen in
            let black_seen' := if bool_decide (color f = white) then black_seen else true in
            found ← some_move s self p (get_possible_moves f);
            if (found : bool) then Ok false
            else scan_board s self rest black_seen' white_seen'
          else scan_board s self rest black_seen white_seen
      | None => scan_board s self rest black_seen white_seen
      end
  end.

Definition is_game_over (s : Store) (self : Board) : result bool :=
  scan_board s self all_cells false false.

End CheckersBoard.

(** ** class ExtendedBoard(Board) *)

Module ExtendedBoard.

Definition setup_board (self : Board) : M unit :=
  Board.setup_board self;;
  place self (5, 2) CheckersFigure white (5, 2);;
  place self (5, 5) CheckersFigure white (5, 5);;
  place self (2, 2) CheckersFigure black (2, 2);;
  place self (2, 5) CheckersFigure black (2, 5);;
  place self (5, 1) Ghost white (5, 1);;
  place self (5, 6) Ghost white (5, 6);;
  place self (2, 1) Ghost black (2, 1);;
  place self (2, 6) Ghost black (2, 6);;
  place self (5, 0) Snake white (5, 0);;
  place self (5, 7) Snake white (5, 7);;
  place self (2, 0) Snake black (2, 0);;
  place self (2, 7) Snake black (2, 7).

End ExtendedBoard.

(** ** Method dispatch on the class of the board object *)

Definition setup_board (self : Board) : M unit :=
  match variant self with
  | ChessBoard => Board.setup_board self
  | CheckersBoard => CheckersBoard.setup_board self
  | ExtendedBoard => ExtendedBoard.setup_board self
  end.

Definition check_move (s : Store) (self : Board) (step1 step2 : cell) : result bool :=
  match variant self with
  | CheckersBoard => CheckersBoard.check_move s self step1 step2
  | ChessBoard | ExtendedBoard => Board.check_move s self step1 step2
  end.

Definition make_move (self : Board) (step1 step2 : cell) : M Board :=
  match variant self with
  | CheckersBoard => CheckersBoard.make_move self step1 step2;; mret self
  | ChessBoard | ExtendedBoard => Board.make_move self step1 step2
  end.

Definition is_game_over (self : Board) : M bool :=
  match variant self with
  | CheckersBoard => lift (fun s => CheckersBoard.is_game_over s self)
  | ChessBoard | ExtendedBoard => Board.is_game_over self
  end.

(** [[[None] * 8 for _ in range(8)]] *)
Definition fresh_field : M (list nat) :=
  mapM (fun _ : Z => alloc_row (replicate 8 None)) (py_range 0 8).

(** [Board.__init__], which the two subclasses reach through
    [super().__init__()]: eight fresh rows of eight [None], the set-up of the
    class of [self], and the first snapshot. *)
Definition Board_init (v : Variant) : M Board :=
  fresh ← fresh_field;
  let self := mkBoard v fresh [] in
  setup_board self;;
  Board.save_state self.

(** ** class Game and its subclasses *)

Record Game : Type := mkGame {
  board : Board;
  current_player : Color;
  game_over : bool;
  moves : list cell;
  is_rock : bool;
  is_chess : bool
}.

(** What one pass of the loop of [play] reads from the player.  The answers
    are the outcome of the comparison with the word for yes; [steps] are the
    cells that lines 885-896 append to [self.moves] (the parsing of the typed
    line is outside this development). *)
Record Input : Type := mkInput {
  castle_answer : bool;
  undo_answer : bool;
  steps : list cell
}.

Module Game.

Definition init (is_chess : bool) : M Game :=
  b ← Board_init ChessBoard;
  mret (mkGame b white false [] false is_chess).

Definition set_board (self : Game) (b : Board) : Game :=
  mkGame b (current_player self) (game_over self) (moves self) (is_rock self)
         (is_chess self).

(** Lines 897-908 of [play]: the request in [self.moves] is checked and,
    when accepted, applied. *)
Definition move_request (self : Game) : M Game :=
  m0 ← lift (fun _ => py_getitem (moves self) 0);
  m1 ← lift (fun _ => py_getitem (moves self) 1);
  ok ← lift (fun s => check_move s (board self) m0 m1);
  if (ok : bool) then
    b' ← make_move (board self) m0 m1;
    moved ← lift (fun s => get_cell s b' m1);
    f ← lift (fun s => deref_opt s moved);
    match f with
    | None => throw AttributeError
    | Some fig =>
        if negb (kill fig) then
          set_kill moved false;;
          mret (mkGame b' (opposite (current_player self)) (game_over self) []
                       (is_rock self) (is_chess self))
        else
          print (MsgContinues (current_player self));;
          set_kill moved false;;
          mret (mkGame b' (current_player self) (game_over self) []
                       (is_rock self) (is_chess self))
    end
  else
    print MsgInvalidMove;;
    mret (mkGame (board self) (current_player self) (game_over self) []
                 (is_rock self) (is_chess self)).

(** One pass of the [while not self.game_over] loop.  The call of
    [display_current_board] that opens it only reads the grid and prints the
    picture; it is left out. *)
Definition play_step (inp : Input) (self : Game) : M Game :=
  over ← is_game_over (board self);
  if (over : bool) then
    print (MsgGameOver (current_player self));;
    mret (mkGame (board self) (current_player self) true (moves self) false
                 (is_chess self))
  else
    can ← lift (fun s => Board.if_rock_possible s (board self) (current_player self));
    self1 ← (if (can : bool) && castle_answer inp then
               Board.rock (board self) (current_player self);;
               mret (mkGame (board self) (opposite (current_player self))
                            (game_over self) [] true (is_chess self))
             else mret self);
    if negb (is_rock self1) then
      if is_chess self1 && undo_answer inp then
        b' ← Board.undo_move (board self1);
        mret (mkGame b' (opposite (current_player self1)) (game_over self1)
                     (moves self1) (is_rock self1) (is_chess self1))
      else
        self2 ← move_request
                  (mkGame (board self1) (current_player self1) (game_over self1)
                          (moves self1 ++ steps inp) (is_rock self1) (is_chess self1));
        mret (mkGame (board self2) (current_player self2) (game_over self2)
                     (moves self2) false (is_chess self2))
    else
      mret (mkGame (board self1) (current_player self1) (game_over self1)
                   (moves self1) false (is_chess self1)).

(** [play] on a finite script of inputs; it stops when the game is over
    or the script is used up. *)
Fixpoint play (script : list Input) (self : Game) : M Game :=
  match script with
  | [] => mret self
  | inp :: rest =>
      if game_over self then mret self
      else self' ← play_step inp self; play rest self'
  end.

End Game.

Module CheckersGame.
Definition init (is_chess : bool) : M Game :=
  self ← Game.init is_chess;
  b ← Board_init CheckersBoard;
  mret (Game.set_board self b).
End CheckersGame.

Module ExtendedGame.
Definition init (is_chess : bool) : M Game :=
  self ← Game.init is_chess;
  b ← Board_init ExtendedBoard;
  mret (Game.set_board self b).
End ExtendedGame.

(** ** Concrete positions and scripts for the examples *)

(** A board of class [v] that holds exactly the listed figures, each created
    on the cell it is listed with; no snapshot is taken. *)
Definition board_with (v : Variant) (pieces : list (cell * Class * Color)) : M Board :=
  fresh ← fresh_field;
  let self := mkBoard v fresh [] in
  forM pieces (fun '(p, c, col) => place self p c col p);;
  mret self.

(** The board and store a construction ends with, from the empty store. *)
Definition built (m : M Board) : Board * Store :=
  match m empty_store with
  | Ok p => p
  | Raise _ => (mkBoard ChessBoard [] [], empty_store)
  end.

(** The three boards as their constructors leave them, in evaluated form. *)
Definition chess_start : Board * Store :=
  Eval vm_compute in built (Board_init ChessBoard).
Definition checkers_start : Board * Store :=
  Eval vm_compute in built (Board_init CheckersBoard).
Definition extended_start : Board * Store :=
  Eval vm_compute in built (Board_init ExtendedBoard).

(** A player who declines castling and undo and asks for one move. *)
Definition request (step1 step2 : cell) : Input := mkInput false false [step1; step2].

(** A player who declines castling and accepts the undo. *)
Definition undo_request : Input := mkInput false true [].

(** Every cell of the live grid holds a figure whose stored position is that
    cell. *)
Definition positions_agree (s : Store) (self : Board) : result bool :=
  foldM (fun (acc : bool) (p : cell) =>
           f ← figure_at s self p;
           match f with
           | Some fig => Ok (acc && bool_decide (position fig = p))
           | None => Ok acc
           end)
        all_cells true.

(** The number of checkers men of one colour on the live grid. *)
Definition count_men (s : Store) (self : Board) (c : Color) : result nat :=
  foldM (fun (acc : nat) (p : cell) =>
           f ← figure_at s self p;
           if isinstance f [CheckersFigure]
              && match f with Some fig => bool_decide (color fig = c) | None => false end
           then Ok (S acc) else Ok acc)
        all_cells 0%nat.

(** What a run from the empty store returns, without the final store. *)
Definition outcome {A} (m : M A) : result A :=
  match m empty_store with
  | Ok (a, _) => Ok a
  | Raise e => Raise e
  end.

(** A chess game: white moves a pawn, the move is undone, white moves another
    pawn, and that move is undone too.  The run reports whether the one
    snapshot left after the first undo is still the first entry of the
    history after the second move, what that snapshot holds on (6, 3) and
    (5, 3) before and after the second move, and what the live grid holds on
    those two cells after the second undo. *)
Definition undo_scenario
    : M (bool * (option nat * option nat) * (option nat * option nat)
         * (option nat * option nat)) :=
  g0 ← Game.init true;
  g1 ← Game.play [request (6, 4) (4, 4); undo_request] g0;
  snap ← lift (fun _ => py_getitem (history (board g1)) 0);
  before1 ← lift (fun s => grid_get s snap (6, 3));
  before2 ← lift (fun s => grid_get s snap (5, 3));
  g2 ← Game.play [request (6, 3) (5, 3)] g1;
  snap' ← lift (fun _ => py_getitem (history (board g2)) 0);
  after1 ← lift (fun s => grid_get s snap (6, 3));
  after2 ← lift (fun s => grid_get s snap (5, 3));
  g3 ← Game.play [undo_request] g2;
  live1 ← lift (fun s => get_cell s (board g3) (6, 3));
  live2 ← lift (fun s => get_cell s (board g3) (5, 3));
  mret (bool_decide (snap = snap'), (before1, before2), (after1, after2), (live1, live2)).

(** A chess game in which the white knight of (7, 1) takes the black king in
    four moves, black answering with a rook pawn. *)
Definition king_hunt : list Input :=
  [request (7, 1) (5, 2); request (1, 0) (2, 0);
   request (5, 2) (3, 3); request (2, 0) (3, 0);
   request (3, 3) (1, 2); request (3, 0) (4, 0);
   request (1, 2) (0, 4)].

Definition after_king_hunt : M Game :=
  g0 ← Game.init true; Game.play king_hunt g0.

(** An extended game in which a white pawn walks up to (3, 3), next to the
    black man of (2, 2). *)
Definition pawn_meets_man : M Game :=
  g0 ← ExtendedGame.init true;
  Game.play [request (6, 3) (4, 3); request (1, 3) (2, 3); request (4, 3) (3, 3)] g0.

(** Positions of the examples. *)
Definition lone_white_man : Board * Store :=
  Eval vm_compute in built (board_with CheckersBoard [((5, 2), CheckersFigure, white)]).

Definition pawn_and_men : Board * Store :=
  Eval vm_compute in built (board_with ExtendedBoard
           [((6, 4), Pawn, white); ((5, 3), CheckersFigure, black);
            ((5, 4), CheckersFigure, black)]).

Definition pawn_and_knights : Board * Store :=
  Eval vm_compute in built (board_with ChessBoard
           [((6, 4), Pawn, white); ((5, 3), Knight, black); ((5, 4), Knight, black)]).

Definition castling_position : Board * Store :=
  Eval vm_compute in built (board_with ChessBoard [((0, 4), King, white); ((0, 7), Rook, white)]).

Definition jump_position : Board * Store :=
  Eval vm_compute in built (board_with CheckersBoard
           [((2, 3), CheckersFigure, white); ((3, 4), CheckersFigure, black)]).

(** ** Well-formed grids *)

(** An outer list of eight distinct row locations, each naming a row of
    eight cells: what [Board.__init__] and [save_state] build. *)
Definition wf_grid (s : Store) (grid : list nat) : bool :=
  bool_decide (length grid = 8%nat)
  && bool_decide (NoDup grid)
  && forallb (fun l => match rows s !! l with
                       | Some row => bool_decide (length row = 8%nat)
                       | None => false
                       end) grid.

(** Two outer lists that share no row. *)
Definition disjoint_grids (g1 g2 : list nat) : bool :=
  forallb (fun l => bool_decide (l ∉ g2)) g1.

(** [True] when the cell reads as empty. *)
Definition is_empty (s : Store) (self : Board) (p : cell) : bool :=
  match get_cell s self p with
  | Ok None => true
  | _ => false
  end.

(** The two boards hold the same reference in every cell of the board. *)
Definition same_cells (s1 : Store) (g1 : list nat) (s2 : Store) (g2 : list nat) : bool :=
  forallb (fun p => match grid_get s1 g1 p, grid_get s2 g2 p with
                    | Ok c1, Ok c2 => bool_decide (c1 = c2)
                    | _, _ => false
                    end) all_cells.

(** Stores that only grew: every row that existed is still there. *)
Definition rows_kept (s s' : Store) : Prop :=
  forall l row, rows s !! l = Some row -> rows s' !! l = Some row.

(** ** What a position holds *)

(** Every cell of the board can be read and, when it is not empty, names a
    figure object of the store. *)
Definition figures_readable (s : Store) (self : Board) : bool :=
  forallb (fun p => match figure_at s self p with Ok _ => true | Raise _ => false end)
          all_cells.

(** The cell holds a checkers man. *)
Definition man_at (s : Store) (self : Board) (p : cell) : bool :=
  match figure_at s self p with
  | Ok o => isinstance o [CheckersFigure]
  | Raise _ => false
  end.

(** Every checkers man on the board stores the cell it stands on. *)
Definition men_in_place (s : Store) (self : Board) : bool :=
  forallb (fun p => match figure_at s self p with
                    | Ok (Some f) =>
                        negb (isinstance (Some f) [CheckersFigure])
                        || bool_decide (position f = p)
                    | _ => true
                    end) all_cells.

(** The cell holds an instance of [King] of the colour. *)
Definition king_at (s : Store) (self : Board) (c : Color) (p : cell) : bool :=
  match figure_at s self p with
  | Ok (Some f) => isinstance (Some f) [King] && bool_decide (color f = c)
  | _ => false
  end.

(** The cell holds a figure of the colour that [Board.is_game_over] collects
    the moves of. *)
Definition attacker_at (s : Store) (self : Board) (c : Color) (p : cell) : bool :=
  match figure_at s self p with
  | Ok (Some f) =>
      isinstance (Some f) [Pawn; Rook; Bishop; Knight; King; Queen]
      && bool_decide (color f = c)
  | _ => false
  end.

(** The test that ends [CheckersBoard.make_move]: the figure has reached the
    far row of its colour. *)
Definition promotes (f : Figure) (a2 : Z) : bool :=
  (bool_decide (color f = white) && bool_decide (a2 = 0))
  || (bool_decide (color f = black) && bool_decide (a2 = 7)).

(** The last snapshot of the history is a grid of its own that mirrors
    the live grid: what [save_state] leaves behind. *)
Definition snapshot_ok (s : Store) (self : Board) : bool :=
  match last (history self) with
  | Some snap =>
      wf_grid s snap && disjoint_grids snap (field self)
      && same_cells s snap s (field self)
  | None => false
  end.

(** More positions of the examples. *)
Definition flying_position : Board * Store :=
  Eval vm_compute in built (board_with CheckersBoard
           [((2, 2), Bishop, white); ((3, 3), CheckersFigure, black)]).

Definition black_castling_position : Board * Store :=
  Eval vm_compute in built (board_with ExtendedBoard
           [((7, 4), Snake, black); ((7, 7), Rook, black)]).

Definition lone_white_king : Board * Store :=
  Eval vm_compute in built (board_with ChessBoard [((7, 4), King, white)]).

(** A chess game at its start with a request for the king's pawn, and a
    checkers game on the position of the jump with a request for it. *)
Definition opening_request : Game :=
  mkGame chess_start.1 white false [(6, 4); (4, 4)] false true.

Definition jump_request : Game :=
  mkGame jump_position.1 white false [(2, 3); (4, 5)] false false.

(** * Properties *)

Ltac rsimpl := cbn [mbind result_bind mret result_ret fst snd].

Ltac zdiv := Z.to_euclidean_division_equations; lia.

(** ** Basic facts about results and Python indexing *)

Lemma bind_Ok_inv {A B} (f : A -> result B) (r : result A) (b : B) :
  (r ≫= f) = Ok b -> exists a, r = Ok a /\ f a = Ok b.
Proof. destruct r as [a|e]; [eauto | discriminate]. Qed.

Lemma py_norm_Some n i k : py_norm n i = Some k -> (k < n)%nat.
Proof.
  unfold py_norm. repeat case_bool_decide; intros [= <-]; lia.
Qed.

Lemma py_norm_nonneg n i k : 0 <= i -> py_norm n i = Some k -> k = Z.to_nat i.
Proof.
  unfold py_norm. intros Hi. repeat case_bool_decide; intros [= <-]; lia.
Qed.

Lemma py_getitem_norm {A} (l : list A) i x :
  py_getitem l i = Ok x -> exists k, py_norm (length l) i = Some k /\ l !! k = Some x.
Proof.
  unfold py_getitem. destruct (py_norm _ _) as [k|]; [|discriminate].
  destruct (l !! k) eqn:E; [|discriminate]. intros [= <-]. eauto.
Qed.

Lemma py_getitem_of_norm {A} (l : list A) i k x :
  py_norm (length l) i = Some k -> l !! k = Some x -> py_getitem l i = Ok x.
Proof. unfold py_getitem. intros -> ->. reflexivity. Qed.

(** ** What a write to a cell does to later reads *)

Section cell_writes.

Context (self : Board).

Lemma set_cell_inv p v s s' :
  set_cell self p v s = Ok (tt, s') ->
  exists l row k,
    py_getitem (field self) p.1 = Ok l /\ rows s !! l = Some row /\
    py_norm (length row) p.2 = Some k /\
    s' = mkStore (figs s) (<[l := <[k := v]> row]> (rows s)) (stdout s).
Proof.
  unfold set_cell, row_at, py_setitem. intros H.
  apply bind_Ok_inv in H as (l & Hl & H).
  destruct (rows s !! l) as [row|] eqn:Hrow; [|discriminate]. simpl in H.
  destruct (py_norm (length row) p.2) as [k|] eqn:Hk; [|discriminate].
  simpl in H. injection H as <-. eauto 10.
Qed.

Lemma get_cell_inv s p c :
  get_cell s self p = Ok c ->
  exists l row k,
    py_getitem (field self) p.1 = Ok l /\ rows s !! l = Some row /\
    py_norm (length row) p.2 = Some k /\ row !! k = Some c.
Proof.
  unfold get_cell, grid_get, row_at. intros H.
  apply bind_Ok_inv in H as (l & Hl & H).
  destruct (rows s !! l) as [row|] eqn:Hrow; [|discriminate]. simpl in H.
  apply py_getitem_norm in H as (k & Hk & Hc). eauto 10.
Qed.

Lemma set_cell_Ok p v s c :
  get_cell s self p = Ok c -> exists s', set_cell self p v s = Ok (tt, s').
Proof.
  intros (l & row & k & Hl & Hrow & Hk & _)%get_cell_inv.
  unfold set_cell, row_at, py_setitem. rewrite Hl. simpl. rewrite Hrow. simpl.
  rewrite Hk. simpl. eauto.
Qed.

Lemma get_set_cell_same p v s s' :
  set_cell self p v s = Ok (tt, s') -> get_cell s' self p = Ok v.
Proof.
  intros (l & row & k & Hl & Hrow & Hk & ->)%set_cell_inv.
  unfold get_cell, grid_get, row_at. rewrite Hl. simpl.
  rewrite list_lookup_insert_eq by (eapply lookup_lt_Some; eauto). simpl.
  apply py_getitem_of_norm with k.
  - rewrite length_insert. exact Hk.
  - apply list_lookup_insert_eq. eapply py_norm_Some; eauto.
Qed.

Lemma get_set_cell_other p q v s s' :
  set_cell self p v s = Ok (tt, s') ->
  0 <= p.2 -> 0 <= q.2 -> p.2 ≠ q.2 ->
  get_cell s' self q = get_cell s self q.
Proof.
  intros (l & row & k & Hl & Hrow & Hk & ->)%set_cell_inv Hp Hq Hne.
  unfold get_cell, grid_get, row_at.
  destruct (py_getitem (field self) q.1) as [l'|e]; [|reflexivity]. simpl.
  destruct (decide (l = l')) as [<-|Hll].
  - rewrite list_lookup_insert_eq by (eapply lookup_lt_Some; eauto).
    rewrite Hrow. simpl. unfold py_getitem. rewrite length_insert.
    destruct (py_norm (length row) q.2) as [k'|] eqn:Hk'; [|reflexivity].
    rewrite list_lookup_insert_ne; [reflexivity|].
    apply py_norm_nonneg in Hk, Hk'; lia.
  - rewrite list_lookup_insert_ne by done. reflexivity.
Qed.

Lemma set_cell_figs p v s s' :
  set_cell self p v s = Ok (tt, s') -> figs s' = figs s.
Proof. intros (l & row & k & _ & _ & _ & ->)%set_cell_inv. reflexivity. Qed.

End cell_writes.

(** ** The loop bounds of the model are large enough *)

Lemma list_remove_first_length m l :
  (length (list_remove_first m l) <= length l)%nat.
Proof.
  induction l as [|x l IH]; simpl; [lia|].
  case_bool_decide; simpl; lia.
Qed.

(** Once the index has passed the end of the list, more iterations of the
    pawn's filtering loop change nothing: [length l] iterations are all the
    loop can make. *)
Lemma filter_in_place_fuel fuel extra i l :
  (length l <= fuel + i)%nat ->
  Pawn.filter_in_place (fuel + extra) i l = Pawn.filter_in_place fuel i l.
Proof.
  revert i l. induction fuel as [|fuel IH]; intros i l Hlen.
  - simpl. destruct extra as [|extra]; [reflexivity|]. simpl.
    rewrite lookup_ge_None_2 by lia. reflexivity.
  - simpl. destruct (l !! i) as [m|]; [|reflexivity].
    destruct (Pawn.off_board m).
    + apply IH. pose proof (list_remove_first_length m l). lia.
    + apply IH. lia.
Qed.

(** A diagonal ray leaves the board within nine steps, so the nine
    iterations given to [slide] are as good as any larger number. *)
Lemma slide_fuel fuel extra x y dx dy step :
  (dx = 1 \/ dx = -1) ->
  1 <= step ->
  (1 < step -> 0 <= x + dx < 8) ->
  10 <= Z.of_nat fuel + step ->
  Bishop.slide (fuel + extra) x y dx dy step = Bishop.slide fuel x y dx dy step.
Proof.
  intros Hdx. revert step. induction fuel as [|fuel IH]; intros step Hs Hfirst Hfuel.
  - simpl. destruct extra as [|extra]; [reflexivity|]. simpl.
    unfold in_bounds. simpl.
    replace ((0 <=? x + dx * step) && (x + dx * step <? 8)) with false; [reflexivity|].
    symmetry. apply andb_false_iff. rewrite Z.leb_gt, Z.ltb_ge. nia.
  - simpl. destruct (in_bounds (x + dx * step, y + dy * step)) eqn:Hin; [|reflexivity].
    f_equal. apply IH; [lia| |lia].
    intros _. unfold in_bounds in Hin. simpl in Hin.
    destruct (decide (step = 1)) as [->|]; [|apply Hfirst; lia].
    apply andb_prop in Hin as [Hin _]. apply andb_prop in Hin as [Hin _].
    apply andb_prop in Hin as [H1 H2]. apply Z.leb_le in H1. apply Z.ltb_lt in H2. lia.
Qed.

Lemma diagonals_fuel extra x y :
  flat_map (fun d : Z * Z => Bishop.slide (9 + extra) x y d.1 d.2 1) Bishop.directions
  = Bishop.diagonals x y.
Proof.
  unfold Bishop.diagonals, Bishop.directions. cbn [flat_map fst snd].
  rewrite !(slide_fuel 9 extra) by (simpl; lia). reflexivity.
Qed.

Lemma get_cell_not_out_of_fuel s self p : get_cell s self p ≠ Raise OutOfFuel.
Proof.
  unfold get_cell, grid_get, row_at, py_getitem.
  repeat (case_match; rsimpl; try discriminate).
Qed.

Lemma diag_loop_terminates fuel s self a2 b2 rs cs row col :
  a2 - row = rs * (Z.of_nat fuel - 1) ->
  b2 - col = cs * (Z.of_nat fuel - 1) ->
  (1 <= fuel)%nat ->
  Board.diag_loop fuel s self a2 b2 rs cs row col ≠ Raise OutOfFuel.
Proof.
  revert row col. induction fuel as [|fuel IH]; intros row col Hr Hc Hf; [lia|].
  simpl. destruct fuel as [|fuel].
  - rewrite !bool_decide_eq_false_2 by lia. discriminate.
  - destruct (_ || _); [|discriminate].
    pose proof (get_cell_not_out_of_fuel s self (row, col)) as Hg.
    destruct (get_cell s self (row, col)) as [[?|]|e]; rsimpl;
      [discriminate| |congruence].
    apply IH; lia.
Qed.

Lemma scan_not_out_of_fuel s self cells : Board.scan s self cells ≠ Raise OutOfFuel.
Proof.
  induction cells as [|p cells IH]; simpl; [discriminate|].
  pose proof (get_cell_not_out_of_fuel s self p) as Hg.
  destruct (get_cell s self p) as [[?|]|e]; rsimpl; [discriminate|exact IH|congruence].
Qed.

(** [is_path_clear] always comes back: its loops are never cut short. *)
Lemma is_path_clear_terminates s self a1 b1 a2 b2 :
  Board.is_path_clear s self a1 b1 a2 b2 ≠ Raise OutOfFuel.
Proof.
  unfold Board.is_path_clear.
  repeat case_bool_decide; try discriminate.
  - pose proof (scan_not_out_of_fuel s self
      ((λ col, (a1, col)) <$> py_range (Z.min b1 b2 + 1) (Z.max b1 b2))) as H'.
    destruct (Board.scan _ _ _); rsimpl; [discriminate|congruence].
  - pose proof (scan_not_out_of_fuel s self
      ((λ row, (row, b1)) <$> py_range (Z.min a1 a2 + 1) (Z.max a1 a2))) as H'.
    destruct (Board.scan _ _ _); rsimpl; [discriminate|congruence].
  - match goal with |- context [Board.diag_loop ?f ?s ?b ?x ?y ?rs ?cs ?r ?c] =>
      pose proof (diag_loop_terminates f s b x y rs cs r c) as H';
      destruct (Board.diag_loop f s b x y rs cs r c) end;
      rsimpl; [discriminate|].
    intros [= ->]. apply H'; [| |lia|reflexivity]; lia.
  - pose proof (diag_loop_terminates
      (Z.to_nat (Z.abs (a1 - a2))) s self a2 b2 1 (-1) (a1 + 1) (b1 + -1)) as H'.
    destruct (Board.diag_loop _ _ _ _ _ _ _ _ _); rsimpl; [discriminate|].
    intros [= ->]. apply H'; [| |lia|reflexivity]; lia.
  - pose proof (diag_loop_terminates
      (Z.to_nat (Z.abs (a1 - a2))) s self a2 b2 (-1) 1 (a1 + -1) (b1 + 1)) as H'.
    destruct (Board.diag_loop _ _ _ _ _ _ _ _ _); rsimpl; [discriminate|].
    intros [= ->]. apply H'; [| |lia|reflexivity]; lia.
  - pose proof (diag_loop_terminates
      (Z.to_nat (Z.abs (a1 - a2))) s self a2 b2 (-1) (-1) (a1 + -1) (b1 + -1)) as H'.
    destruct (Board.diag_loop _ _ _ _ _ _ _ _ _); rsimpl; [discriminate|].
    intros [= ->]. apply H'; [| |lia|reflexivity]; lia.
Qed.

Lemma isinstance_chess_classes fig :
  isinstance (Some fig) chess_classes = negb (bool_decide (cls fig = CheckersFigure)).
Proof. unfold isinstance. destruct (cls fig); reflexivity. Qed.

Lemma isinstance_leaper fig :
  isinstance (Some fig) [Knight; Ghost]
  = bool_decide (cls fig = Knight ∨ cls fig = Ghost).
Proof.
  unfold isinstance. destruct (cls fig); reflexivity.
Qed.

Lemma is_path_clear_adjacent s self a1 b1 a2 b2 :
  Z.abs (a2 - a1) = 1 -> Z.abs (b2 - b1) = 1 ->
  Board.is_path_clear s self a1 b1 a2 b2 = Ok (Some true).
Proof.
  intros Ha Hb. unfold Board.is_path_clear.
  rewrite !bool_decide_eq_false_2 by lia.
  rewrite (bool_decide_eq_true_2 (Z.abs (a1 - a2) = Z.abs (b1 - b2))) by lia.
  replace (Z.to_nat (Z.abs (a1 - a2))) with 1%nat by lia.
  simpl. repeat case_bool_decide; simpl; try reflexivity; lia.
Qed.

(** C1.  On every board, for a source cell that holds a figure and a
    destination that is a cell of the grid: when the figure is a Knight or a
    Ghost, [check_move] answers exactly whether the destination is in the
    geometry of the figure, whatever the other cells hold; when it is of any
    other class and [check_move] answers [True], the destination is in the
    target set (the geometry, or the capture cells of a pawn) and
    [is_path_clear] answers [True]. *)
Theorem leapers_ignore_path_others_need_it s self from to r fig enemy :
  get_cell s self from = Ok (Some r) ->
  deref s r = Ok fig ->
  get_cell s self to = Ok enemy ->
  (cls fig = Knight ∨ cls fig = Ghost ->
     Board.check_move s self from to = Ok (py_in to (get_possible_moves fig)))
  /\ (¬ (cls fig = Knight ∨ cls fig = Ghost) ->
      Board.check_move s self from to = Ok true ->
      exists target_set,
        Board.targets s fig enemy from.1 from.2 = Ok target_set
        /\ to ∈ target_set
        /\ Board.is_path_clear s self from.1 from.2 to.1 to.2 = Ok (Some true)).
Proof.
  destruct from as [a1 b1], to as [a2 b2]. intros Hfrom Hfig Hto.
  unfold Board.check_move. rewrite Hfrom, Hto. rsimpl. rewrite Hfig. rsimpl.
  rewrite isinstance_chess_classes, isinstance_leaper. split.
  - intros Hk. rewrite (bool_decide_eq_true_2 _ Hk).
    assert (Hp : isinstance (Some fig) [Pawn] = false)
      by (unfold isinstance; destruct Hk as [-> | ->]; reflexivity).
    unfold Board.targets. rewrite Hp.
    rewrite bool_decide_eq_false_2 by (destruct Hk as [-> | ->]; discriminate).
    simpl. destruct (py_in _ _); reflexivity.
  - intros Hk. rewrite (bool_decide_eq_false_2 _ Hk).
    destruct (negb _); [|discriminate].
    destruct (Board.targets s fig enemy a1 b1) as [ts|e]; [|discriminate]. simpl.
    unfold py_in. case_bool_decide as Hin; [|discriminate].
    destruct (Board.is_path_clear s self a1 b1 a2 b2) as [[[|]|]|e];
      simpl; try discriminate.
    eauto.
Qed.

(** C2, as amended.  On every board with a Pawn on the source cell: when the
    destination holds a figure of the other colour that is not a checkers
    man, [check_move] accepts exactly the two forward-diagonal cells of the
    source (row - 1 for white, row + 1 for black); so a white Pawn on (6, 4)
    takes such a figure on (5, 3) and does not step onto one on (5, 4). *)
Theorem pawn_capture_of_chess_figure s self a1 b1 a2 b2 r fig e efig :
  get_cell s self (a1, b1) = Ok (Some r) ->
  deref s r = Ok fig ->
  cls fig = Pawn ->
  get_cell s self (a2, b2) = Ok (Some e) ->
  deref s e = Ok efig ->
  cls efig ≠ CheckersFigure ->
  color efig ≠ color fig ->
  Board.check_move s self (a1, b1) (a2, b2)
    = Ok (py_in (a2, b2) (Board.pawn_capture_cells (color fig) a1 b1))
  /\ (color fig = white -> (a1, b1) = (6, 4) -> (a2, b2) = (5, 3) ->
      Board.check_move s self (a1, b1) (a2, b2) = Ok true)
  /\ (color fig = white -> (a1, b1) = (6, 4) -> (a2, b2) = (5, 4) ->
      Board.check_move s self (a1, b1) (a2, b2) = Ok false).
Proof.
  intros Hfrom Hfig Hpawn Hto Hefig Hchess Hcol.
  assert (Hgen : Board.check_move s self (a1, b1) (a2, b2)
    = Ok (py_in (a2, b2) (Board.pawn_capture_cells (color fig) a1 b1))).
  { unfold Board.check_move. rewrite Hfrom, Hto. rsimpl. rewrite Hfig. rsimpl.
    rewrite isinstance_chess_classes, isinstance_leaper.
    rewrite bool_decide_eq_false_2 by (rewrite Hpawn; discriminate).
    rewrite bool_decide_eq_false_2 by (rewrite Hpawn; intros [?|?]; discriminate).
    cbn [negb]. unfold Board.targets.
    replace (isinstance (Some fig) [Pawn]) with true
      by (unfold isinstance; rewrite Hpawn; reflexivity).
    unfold deref_opt. rewrite Hefig. rsimpl. rewrite isinstance_chess_classes.
    rewrite (bool_decide_eq_false_2 _ Hchess).
    rewrite bool_decide_eq_true_2 by congruence. cbn [negb andb]. rsimpl.
    unfold py_in. case_bool_decide as Hin; [|reflexivity].
    rewrite is_path_clear_adjacent; [reflexivity| |];
      unfold Board.pawn_capture_cells in Hin; destruct (color fig);
      apply list_elem_of_In in Hin; simpl in Hin;
      destruct Hin as [[= <- <-] | [[= <- <-] | []]]; lia. }
  split; [exact Hgen|]. split.
  - intros Hw [= -> ->] [= -> ->]. rewrite Hgen, Hw. reflexivity.
  - intros Hw [= -> ->] [= -> ->]. rewrite Hgen, Hw. reflexivity.
Qed.

(** C10.  On every board, [Board.check_move] answers [False] for a source
    cell that holds a checkers man, whatever cell of the grid the destination
    is; on an extended board, whose legality check is [Board.check_move], no
    move of a checkers man is therefore ever accepted. *)
Theorem checkers_man_never_moves_on_chess_boards s self from to r fig enemy :
  get_cell s self from = Ok (Some r) ->
  deref s r = Ok fig ->
  cls fig = CheckersFigure ->
  get_cell s self to = Ok enemy ->
  Board.check_move s self from to = Ok false
  /\ (variant self = ExtendedBoard -> check_move s self from to = Ok false).
Proof.
  destruct from as [a1 b1], to as [a2 b2]. intros Hfrom Hfig Hman Hto.
  assert (H : Board.check_move s self (a1, b1) (a2, b2) = Ok false).
  { unfold Board.check_move. rewrite Hfrom, Hto. rsimpl. rewrite Hfig. rsimpl.
    rewrite isinstance_chess_classes, Hman. reflexivity. }
  split; [exact H|]. intros Hv. unfold check_move. rewrite Hv. exact H.
Qed.

Lemma bindM_Ok {A B} (m : M A) (f : A -> M B) s a s' :
  m s = Ok (a, s') -> (m ≫= f) s = f a s'.
Proof. intros H. unfold mbind, M_bind. rewrite H. reflexivity. Qed.

Lemma lift_Ok {A} (r : Store -> result A) s a : r s = Ok a -> lift r s = Ok (a, s).
Proof. intros H. unfold lift. rewrite H. reflexivity. Qed.

Lemma get_cell_rows s s' self p : rows s' = rows s -> get_cell s' self p = get_cell s self p.
Proof. intros H. unfold get_cell, grid_get, row_at. rewrite H. reflexivity. Qed.

(** C8.  On every board with a white King on (0, 4), a white Rook on (0, 7)
    and nothing on (0, 5) and (0, 6), [if_rock_possible('white')] answers
    [True], and [rock('white')] leaves the King on (0, 6), the Rook on (0, 5)
    and nothing on (0, 4) and (0, 7). *)
Theorem kingside_castling_white s self k kf r rf :
  get_cell s self (0, 4) = Ok (Some k) -> deref s k = Ok kf ->
  cls kf = King -> color kf = white ->
  get_cell s self (0, 7) = Ok (Some r) -> deref s r = Ok rf ->
  cls rf = Rook -> color rf = white ->
  get_cell s self (0, 5) = Ok None ->
  get_cell s self (0, 6) = Ok None ->
  Board.if_rock_possible s self white = Ok true
  /\ exists s',
       Board.rock self white s = Ok (tt, s')
       /\ get_cell s' self (0, 6) = Ok (Some k)
       /\ get_cell s' self (0, 5) = Ok (Some r)
       /\ get_cell s' self (0, 4) = Ok None
       /\ get_cell s' self (0, 7) = Ok None
       /\ figs s' = figs s.
Proof.
  intros Hk Hkf Hking Hkw Hr Hrf Hrook Hrw H5 H6. split.
  - unfold Board.if_rock_possible, Board.rock_condition, figure_at, deref_opt.
    rewrite Hk. rsimpl. rewrite Hkf. rsimpl.
    unfold isinstance at 1. rewrite Hking, Hkw. cbn [existsb subclass].
    rewrite Hr. rsimpl. rewrite Hrf. rsimpl.
    unfold isinstance. rewrite Hrook, Hrw.
    unfold Board.is_path_clear.
    change (py_range (Z.min 4 7 + 1) (Z.max 4 7)) with [5; 6].
    cbn. rewrite H5. rsimpl. rewrite H6. reflexivity.
  - destruct (set_cell_Ok self (0, 6) (Some k) s _ H6) as [s1 E1].
    assert (G1 : forall q, 0 <= q.2 -> q.2 ≠ 6 -> get_cell s1 self q = get_cell s self q).
    { intros q ? ?. eapply get_set_cell_other; [exact E1| | |]; simpl; lia. }
    assert (Hk1 : get_cell s1 self (0, 4) = Ok (Some k)) by (rewrite G1; simpl; [done|lia|lia]).
    destruct (set_cell_Ok self (0, 4) None s1 _ Hk1) as [s2 E2].
    assert (G2 : forall q, 0 <= q.2 -> q.2 ≠ 4 -> get_cell s2 self q = get_cell s1 self q).
    { intros q ? ?. eapply get_set_cell_other; [exact E2| | |]; simpl; lia. }
    assert (Hr2 : get_cell s2 self (0, 7) = Ok (Some r))
      by (rewrite G2, G1; simpl; [done|lia..]).
    assert (H52 : get_cell s2 self (0, 5) = Ok None)
      by (rewrite G2, G1; simpl; [done|lia..]).
    destruct (set_cell_Ok self (0, 5) (Some r) s2 _ H52) as [s3 E3].
    assert (G3 : forall q, 0 <= q.2 -> q.2 ≠ 5 -> get_cell s3 self q = get_cell s2 self q).
    { intros q ? ?. eapply get_set_cell_other; [exact E3| | |]; simpl; lia. }
    assert (Hr3 : get_cell s3 self (0, 7) = Ok (Some r)) by (rewrite G3; simpl; [done|lia..]).
    destruct (set_cell_Ok self (0, 7) None s3 _ Hr3) as [s4 E4].
    assert (G4 : forall q, 0 <= q.2 -> q.2 ≠ 7 -> get_cell s4 self q = get_cell s3 self q).
    { intros q ? ?. eapply get_set_cell_other; [exact E4| | |]; simpl; lia. }
    exists s4. split; [|repeat split].
    + unfold Board.rock.
      erewrite bindM_Ok by (apply lift_Ok; exact Hk).
      erewrite bindM_Ok by exact E1.
      erewrite bindM_Ok by exact E2.
      erewrite bindM_Ok by (apply lift_Ok; exact Hr2).
      erewrite bindM_Ok by exact E3.
      exact E4.
    + rewrite G4, G3, G2 by (simpl; lia). eapply get_set_cell_same, E1.
    + rewrite G4 by (simpl; lia). eapply get_set_cell_same, E3.
    + rewrite G4, G3 by (simpl; lia). eapply get_set_cell_same, E2.
    + eapply get_set_cell_same, E4.
    + rewrite (set_cell_figs _ _ _ _ _ E4), (set_cell_figs _ _ _ _ _ E3),
        (set_cell_figs _ _ _ _ _ E2), (set_cell_figs _ _ _ _ _ E1). reflexivity.
Qed.

Lemma is_path_clear_jump s self a1 b1 a2 b2 m :
  Z.abs (a2 - a1) = 2 -> Z.abs (b2 - b1) = 2 ->
  get_cell s self ((a1 + a2) `div` 2, (b1 + b2) `div` 2) = Ok (Some m) ->
  Board.is_path_clear s self a1 b1 a2 b2 = Ok (Some false).
Proof.
  intros Ha Hb Hmid. unfold Board.is_path_clear.
  rewrite !bool_decide_eq_false_2 by lia.
  rewrite (bool_decide_eq_true_2 (Z.abs (a1 - a2) = Z.abs (b1 - b2))) by lia.
  replace (Z.to_nat (Z.abs (a1 - a2))) with 2%nat by lia.
  cbn [Board.diag_loop].
  set (rs := if bool_decide (a2 > a1) then 1 else -1).
  set (cs := if bool_decide (b2 > b1) then 1 else -1).
  assert (Hr : a1 + rs = (a1 + a2) `div` 2) by (subst rs; case_bool_decide; zdiv).
  assert (Hc : b1 + cs = (b1 + b2) `div` 2) by (subst cs; case_bool_decide; zdiv).
  rewrite Hr, Hc.
  rewrite (bool_decide_eq_true_2 ((a1 + a2) `div` 2 ≠ a2)) by zdiv.
  cbn [orb]. rewrite Hmid. reflexivity.
Qed.

Lemma update_fig_Ok r g f s :
  figs s !! r = Some f ->
  update_fig (Some r) g s = Ok (tt, mkStore (<[r := g f]> (figs s)) (rows s) (stdout s)).
Proof. intros H. unfold update_fig. rewrite H. reflexivity. Qed.

Lemma deref_Some s r f : deref s r = Ok f <-> figs s !! r = Some f.
Proof.
  unfold deref. destruct (figs s !! r); split; intros [=]; subst; reflexivity.
Qed.

(** C6.  On every checkers board, a move of a checkers man by two rows and
    two columns over an occupied middle cell is accepted by [check_move], and
    [make_move] for it empties the middle cell and sets the [kill] flag of
    the man that moved.  The columns of the two cells are not negative, so
    that no index wraps around. *)
Theorem checkers_jump_capture s self a1 b1 a2 b2 r fig m target :
  0 <= b1 -> 0 <= b2 ->
  Z.abs (a2 - a1) = 2 -> Z.abs (b2 - b1) = 2 ->
  get_cell s self (a1, b1) = Ok (Some r) ->
  deref s r = Ok fig ->
  cls fig = CheckersFigure ->
  get_cell s self ((a1 + a2) `div` 2, (b1 + b2) `div` 2) = Ok (Some m) ->
  get_cell s self (a2, b2) = Ok target ->
  CheckersBoard.check_move s self (a1, b1) (a2, b2) = Ok true
  /\ exists s',
       CheckersBoard.make_move self (a1, b1) (a2, b2) s = Ok (tt, s')
       /\ get_cell s' self ((a1 + a2) `div` 2, (b1 + b2) `div` 2) = Ok None
       /\ exists fig', deref s' r = Ok fig' /\ kill fig' = true.
Proof.
  intros Hb1 Hb2 Ha Hb Hfrom Hfig Hman Hmid Hto.
  pose proof (is_path_clear_jump s self a1 b1 a2 b2 m Ha Hb Hmid) as Hclear.
  assert (Hinst : isinstance (Some fig) [CheckersFigure] = true)
    by (unfold isinstance; rewrite Hman; reflexivity).
  apply deref_Some in Hfig.
  split.
  - unfold CheckersBoard.check_move, figure_at, deref_opt, deref.
    rewrite Hfrom. rsimpl. rewrite Hfig. rsimpl.
    unfold isinstance. rewrite Hman. cbn [existsb subclass negb orb andb bool_decide decide_rel].
    unfold CheckersBoard.is_jump. rewrite Hclear.
    rewrite !bool_decide_eq_true_2 by assumption. reflexivity.
  - (* the store after [print] and [figure.kill = True] *)
    set (fk := mkFigure (cls fig) (color fig) (position fig) true).
    set (s2 := mkStore (<[r := fk]> (figs s)) (rows s) (stdout s ++ [MsgCapture])).
    assert (R2 : forall q, get_cell s2 self q = get_cell s self q)
      by (intros q; apply get_cell_rows; reflexivity).
    assert (Hmid2 : get_cell s2 self ((a1 + a2) `div` 2, (b1 + b2) `div` 2) = Ok (Some m))
      by (rewrite R2; exact Hmid).
    destruct (set_cell_Ok self _ None s2 _ Hmid2) as [s3 E3].
    assert (G3 : forall q, 0 <= q.2 -> q.2 ≠ (b1 + b2) `div` 2 ->
                           get_cell s3 self q = get_cell s self q).
    { intros q ? ?. rewrite <- R2. eapply get_set_cell_other; [exact E3| | |]; simpl; zdiv. }
    assert (Hto3 : get_cell s3 self (a2, b2) = Ok target) by (rewrite G3; simpl; [done|zdiv..]).
    destruct (set_cell_Ok self (a2, b2) (Some r) s3 _ Hto3) as [s4 E4].
    assert (G4 : forall q, 0 <= q.2 -> q.2 ≠ b2 -> get_cell s4 self q = get_cell s3 self q).
    { intros q ? ?. eapply get_set_cell_other; [exact E4| | |]; simpl; zdiv. }
    assert (F4 : figs s4 = <[r := fk]> (figs s)).
    { rewrite (set_cell_figs _ _ _ _ _ E4), (set_cell_figs _ _ _ _ _ E3). reflexivity. }
    assert (Hr : (r < length (figs s))%nat) by (eapply lookup_lt_Some; eauto).
    set (fp := mkFigure (cls fig) (color fig) (a2, b2) true).
    set (s5 := mkStore (<[r := fp]> (figs s4)) (rows s4) (stdout s4)).
    assert (E5 : set_position (Some r) (a2, b2) s4 = Ok (tt, s5)).
    { unfold set_position. rewrite (update_fig_Ok r _ fk); [reflexivity|].
      rewrite F4. apply list_lookup_insert_eq. exact Hr. }
    assert (R5 : forall q, get_cell s5 self q = get_cell s4 self q)
      by (intros q; apply get_cell_rows; reflexivity).
    assert (Hfrom5 : get_cell s5 self (a1, b1) = Ok (Some r)).
    { rewrite R5, G4, G3; simpl; [done|zdiv..]. }
    destruct (set_cell_Ok self (a1, b1) None s5 _ Hfrom5) as [s6 E6].
    assert (G6 : forall q, 0 <= q.2 -> q.2 ≠ b1 -> get_cell s6 self q = get_cell s5 self q).
    { intros q ? ?. eapply get_set_cell_other; [exact E6| | |]; simpl; zdiv. }
    assert (F6 : figs s6 !! r = Some fp).
    { rewrite (set_cell_figs _ _ _ _ _ E6). simpl.
      apply list_lookup_insert_eq. rewrite F4, length_insert. exact Hr. }
    assert (Hmid6 : get_cell s6 self ((a1 + a2) `div` 2, (b1 + b2) `div` 2) = Ok None).
    { rewrite G6, R5, G4 by (simpl; zdiv). eapply get_set_cell_same, E3. }
    assert (Hto6 : get_cell s6 self (a2, b2) = Ok (Some r)).
    { rewrite G6, R5 by (simpl; zdiv). eapply get_set_cell_same, E4. }
    (* the common prefix of the two outcomes *)
    assert (Hrun :
      CheckersBoard.make_move self (a1, b1) (a2, b2) s
      = (if (bool_decide (color fp = white) && bool_decide (a2 = 0))
            || (bool_decide (color fp = black) && bool_decide (a2 = 7))
         then place self (a2, b2) Bishop (color fp) (a2, b2);;
              print (MsgPromoted (color fp))
         else mret tt) s6).
    { unfold CheckersBoard.make_move.
      erewrite bindM_Ok by (apply lift_Ok; exact Hfrom).
      erewrite bindM_Ok by (apply lift_Ok; unfold deref_opt, deref; rewrite Hfig; reflexivity).
      erewrite bindM_Ok by (apply lift_Ok; exact Hclear).
      cbn [truthy negb]. rewrite Hinst.
      erewrite bindM_Ok; cycle 1.
      { erewrite bindM_Ok by reflexivity.
        erewrite bindM_Ok by (unfold set_kill; apply update_fig_Ok; exact Hfig).
        exact E3. }
      erewrite bindM_Ok by exact E4.
      erewrite bindM_Ok by exact E5.
      erewrite bindM_Ok by exact E6.
      erewrite bindM_Ok by (apply lift_Ok; unfold deref_opt, deref; rewrite F6; reflexivity).
      reflexivity. }
    rewrite Hrun. clear Hrun.
    destruct ((bool_decide (color fp = white) && bool_decide (a2 = 0))
              || (bool_decide (color fp = black) && bool_decide (a2 = 7))).
    + (* promotion: a fresh Bishop replaces the man on the destination *)
      set (s7 := mkStore (figs s6 ++ [mkFigure Bishop (color fp) (a2, b2) false])
                         (rows s6) (stdout s6)).
      assert (R7 : forall q, get_cell s7 self q = get_cell s6 self q)
        by (intros q; apply get_cell_rows; reflexivity).
      assert (Hto7 : get_cell s7 self (a2, b2) = Ok (Some r)) by (rewrite R7; exact Hto6).
      destruct (set_cell_Ok self (a2, b2) (Some (length (figs s6))) s7 _ Hto7) as [s8 E8].
      exists (mkStore (figs s8) (rows s8) (stdout s8 ++ [MsgPromoted (color fp)])).
      split; [|split].
      * erewrite bindM_Ok; cycle 1.
        { unfold place. erewrite bindM_Ok by reflexivity. exact E8. }
        reflexivity.
      * rewrite (get_cell_rows s8) by reflexivity.
        erewrite get_set_cell_other; [|exact E8|simpl; zdiv..].
        rewrite R7. exact Hmid6.
      * exists fp. split; [|reflexivity]. apply deref_Some. simpl.
        rewrite (set_cell_figs _ _ _ _ _ E8). simpl.
        apply lookup_app_l_Some. exact F6.
    + exists s6. split; [reflexivity|]. split; [exact Hmid6|].
      exists fp. split; [apply deref_Some; exact F6 | reflexivity].
Qed.

Lemma check_move_empty_source s self step1 step2 enemy :
  get_cell s self step1 = Ok None ->
  get_cell s self step2 = Ok enemy ->
  Board.check_move s self step1 step2 = Ok false
  /\ CheckersBoard.check_move s self step1 step2 = Ok false
  /\ check_move s self step1 step2 = Ok false.
Proof.
  destruct step1 as [a1 b1], step2 as [a2 b2]. intros H1 H2.
  assert (HB : Board.check_move s self (a1, b1) (a2, b2) = Ok false)
    by (unfold Board.check_move; rewrite H1, H2; reflexivity).
  assert (HC : CheckersBoard.check_move s self (a1, b1) (a2, b2) = Ok false)
    by (unfold CheckersBoard.check_move, figure_at; rewrite H1; reflexivity).
  repeat split; try assumption.
  unfold check_move. destruct (variant self); assumption.
Qed.

Lemma py_getitem_0 {A} (x : A) l : py_getitem (x :: l) 0 = Ok x.
Proof.
  apply py_getitem_of_norm with 0%nat; [|reflexivity].
  unfold py_norm. rewrite bool_decide_eq_true_2 by (simpl length; lia). reflexivity.
Qed.

Lemma py_getitem_1 {A} (x y : A) l : py_getitem (x :: y :: l) 1 = Ok y.
Proof.
  apply py_getitem_of_norm with 1%nat; [|reflexivity].
  unfold py_norm. rewrite bool_decide_eq_true_2 by (simpl length; lia). reflexivity.
Qed.

(** C9.  For a request whose first two cells are [m0] and [m1]:
    [check_move] answers [False], and does not fault, when [m0] is an empty
    cell and [m1] a cell of the grid; and whenever [check_move] answers
    [False], the controller prints the failure message and keeps the board,
    the figures, the rows, the player to move and the running flag as they
    were, forgetting only the request. *)
Theorem rejected_move_leaves_the_state g s m0 m1 rest :
  moves g = m0 :: m1 :: rest ->
  (forall enemy,
      get_cell s (board g) m0 = Ok None ->
      get_cell s (board g) m1 = Ok enemy ->
      check_move s (board g) m0 m1 = Ok false)
  /\ (check_move s (board g) m0 m1 = Ok false ->
      Game.move_request g s
      = Ok (mkGame (board g) (current_player g) (game_over g) [] (is_rock g) (is_chess g),
            mkStore (figs s) (rows s) (stdout s ++ [MsgInvalidMove]))).
Proof.
  intros Hmoves. split.
  - intros enemy H0 H1. eapply check_move_empty_source; eauto.
  - intros Hrej. unfold Game.move_request. rewrite Hmoves.
    erewrite bindM_Ok by (apply lift_Ok, py_getitem_0).
    erewrite bindM_Ok by (apply lift_Ok, py_getitem_1).
    erewrite bindM_Ok by (apply lift_Ok; exact Hrej).
    reflexivity.
Qed.

(** ** Why a lone colour does not end a checkers game *)

(** A man whose stored position is its cell always has a move that
    [check_move] accepts: the first of its two one-step diagonals, which
    [is_path_clear] has nothing to inspect for. *)
Lemma man_always_has_a_move s self p f :
  figure_at s self p = Ok (Some f) ->
  cls f = CheckersFigure ->
  position f = p ->
  CheckersBoard.some_move s self p (get_possible_moves f) = Ok true.
Proof.
  destruct p as [x y]. intros Hat Hman Hpos.
  unfold get_possible_moves, CheckersFigure.get_possible_moves.
  rewrite Hman, Hpos.
  assert (Hstep : forall a2 b2,
             Z.abs (a2 - x) = 1 -> Z.abs (b2 - y) = 1 ->
             py_in (a2, b2) (get_possible_moves f) = true ->
             CheckersBoard.check_move s self (x, y) (a2, b2) = Ok true).
  { intros a2 b2 Ha Hb Hin. unfold CheckersBoard.check_move. rewrite Hat. rsimpl.
    unfold isinstance. rewrite Hman. cbn [existsb subclass negb orb andb bool_decide decide_rel].
    unfold CheckersBoard.is_jump.
    rewrite (bool_decide_eq_false_2 (Z.abs (a2 - x) = 2)) by lia.
    cbn [andb]. rsimpl. rewrite Hin, is_path_clear_adjacent by assumption. reflexivity. }
  destruct (color f) eqn:Hc; cbn [CheckersBoard.some_move].
  - rewrite (Hstep (x - 1) (y + 1)); [reflexivity|lia|lia|].
    unfold get_possible_moves, CheckersFigure.get_possible_moves.
    rewrite Hman, Hpos, Hc. unfold py_in. apply bool_decide_eq_true_2. left.
  - rewrite (Hstep (x + 1) (y + 1)); [reflexivity|lia|lia|].
    unfold get_possible_moves, CheckersFigure.get_possible_moves.
    rewrite Hman, Hpos, Hc. unfold py_in. apply bool_decide_eq_true_2. left.
Qed.

(** The scan answers [False] at the first man it meets, whatever the two
    colour flags are by then. *)
Lemma scan_board_first_man s self pre p post f black_seen white_seen :
  Forall (fun q => exists o, figure_at s self q = Ok o
                             /\ isinstance o [CheckersFigure] = false) pre ->
  figure_at s self p = Ok (Some f) ->
  cls f = CheckersFigure ->
  position f = p ->
  CheckersBoard.scan_board s self (pre ++ p :: post) black_seen white_seen = Ok false.
Proof.
  intros Hpre Hat Hman Hpos. revert black_seen white_seen.
  induction Hpre as [|q pre (o & Hq & Ho) _ IH]; intros black_seen white_seen.
  - cbn [app CheckersBoard.scan_board]. rewrite Hat. rsimpl.
    unfold isinstance. rewrite Hman. cbn [existsb subclass orb andb bool_decide decide_rel].
    rewrite (man_always_has_a_move s self p f Hat Hman Hpos). reflexivity.
  - cbn [app CheckersBoard.scan_board]. rewrite Hq. rsimpl.
    destruct o as [g|]; [rewrite Ho|]; apply IH.
Qed.

(** So while any man whose position is right comes first in the scan, of
    whichever colour, the game is not over. *)
Lemma first_man_keeps_game_going s self pre p post f :
  all_cells = pre ++ p :: post ->
  Forall (fun q => exists o, figure_at s self q = Ok o
                             /\ isinstance o [CheckersFigure] = false) pre ->
  figure_at s self p = Ok (Some f) ->
  cls f = CheckersFigure ->
  position f = p ->
  CheckersBoard.is_game_over s self = Ok false.
Proof.
  intros Hcells. unfold CheckersBoard.is_game_over. rewrite Hcells.
  apply scan_board_first_man.
Qed.

(** ** The controller around a rejected request *)

Lemma is_game_over_only_prints self s over s' :
  is_game_over self s = Ok (over, s') -> figs s' = figs s /\ rows s' = rows s.
Proof.
  unfold is_game_over, Board.is_game_over, lift, print, mbind, M_bind, mret, M_ret.
  intros H. repeat case_match; simplify_eq; auto.
Qed.

(** One pass of the loop in which the player neither castles nor undoes and
    the request is rejected: the game goes on with the same player, board,
    figures and rows; only messages were printed. *)
Lemma play_step_after_rejection inp g s s1 can m0 m1 rest :
  is_game_over (board g) s = Ok (false, s1) ->
  Board.if_rock_possible s1 (board g) (current_player g) = Ok can ->
  can && castle_answer inp = false ->
  is_rock g = false ->
  is_chess g && undo_answer inp = false ->
  moves g ++ steps inp = m0 :: m1 :: rest ->
  check_move s1 (board g) m0 m1 = Ok false ->
  Game.play_step inp g s
  = Ok (mkGame (board g) (current_player g) (game_over g) [] false (is_chess g),
        mkStore (figs s) (rows s) (stdout s1 ++ [MsgInvalidMove])).
Proof.
  intros Hover Hcan Hcastle Hrock Hundo Hmoves Hrej.
  destruct (is_game_over_only_prints _ _ _ _ Hover) as [Hf Hr].
  unfold Game.play_step.
  erewrite bindM_Ok by exact Hover. cbv beta iota.
  erewrite bindM_Ok by (apply lift_Ok; exact Hcan).
  rewrite Hcastle.
  erewrite bindM_Ok by reflexivity.
  rewrite Hrock. cbn [negb]. rewrite Hundo. cbv beta iota.
  erewrite bindM_Ok; cycle 1.
  { unfold Game.move_request. cbn [moves board]. rewrite Hmoves.
    erewrite bindM_Ok by (apply lift_Ok, py_getitem_0).
    erewrite bindM_Ok by (apply lift_Ok, py_getitem_1).
    erewrite bindM_Ok by (apply lift_Ok; exact Hrej).
    reflexivity. }
  cbn. rewrite Hf, Hr. reflexivity.
Qed.

(** ** The positions of the examples are what the constructors build *)

Lemma starts_are_built :
  built (Board_init ChessBoard) = chess_start
  /\ built (Board_init CheckersBoard) = checkers_start
  /\ built (Board_init ExtendedBoard) = extended_start.
Proof. repeat split; vm_compute; reflexivity. Qed.

Lemma positions_are_built :
  built (board_with CheckersBoard [((5, 2), CheckersFigure, white)]) = lone_white_man
  /\ built (board_with ExtendedBoard
              [((6, 4), Pawn, white); ((5, 3), CheckersFigure, black);
               ((5, 4), CheckersFigure, black)]) = pawn_and_men
  /\ built (board_with ChessBoard
              [((6, 4), Pawn, white); ((5, 3), Knight, black); ((5, 4), Knight, black)])
     = pawn_and_knights
  /\ built (board_with ChessBoard [((0, 4), King, white); ((0, 7), Rook, white)])
     = castling_position
  /\ built (board_with CheckersBoard
              [((2, 3), CheckersFigure, white); ((3, 4), CheckersFigure, black)])
     = jump_position.
Proof. repeat split; vm_compute; reflexivity. Qed.

(** ** Claims settled on runs of the program *)

(** C3, evaluated on a run.  After a move and its undo the live grid is the
    very snapshot that stays in the history; the next move then rewrites
    that snapshot (its cell (6, 3) loses the pawn, its cell (5, 3) gains
    it), and undoing that move gives back the rewritten snapshot: the pawn
    stays on (5, 3). *)
Theorem move_after_undo_rewrites_snapshot :
  exists pawn,
    outcome undo_scenario
    = Ok (true, (Some pawn, None), (None, Some pawn), (None, Some pawn)).
Proof. exists 7%nat. vm_compute. reflexivity. Qed.

(** C4, evaluated on a run.  Right after the set-up of the checkers board the
    man on (7, 0) stores the position (6, 0), so stored positions and cells
    disagree; after the set-up of the chess board they agree. *)
Theorem checkers_setup_breaks_positions :
  outcome (g ← CheckersGame.init false;
           lift (fun s => figure_at s (board g) (7, 0)))
  = Ok (Some (mkFigure CheckersFigure white (6, 0) false))
  /\ outcome (g ← CheckersGame.init false;
              lift (fun s => positions_agree s (board g)))
     = Ok false
  /\ outcome (g ← Game.init true; lift (fun s => positions_agree s (board g))) = Ok true.
Proof. repeat split; vm_compute; reflexivity. Qed.

(** C5, evaluated on a run.  After seven accepted moves the black king is
    taken; the game is not flagged as over, and the next call of
    [is_game_over], hence the next pass of the loop of [play], raises
    [TypeError]. *)
Theorem is_game_over_faults_without_black_king :
  outcome (g ← after_king_hunt; lift (fun s => Board.locate_kings s (board g)))
  = Ok (None, Some (7, 4))
  /\ outcome (g ← after_king_hunt; mret (game_over g, current_player g)) = Ok (false, black)
  /\ outcome (g ← after_king_hunt; is_game_over (board g)) = Raise TypeError
  /\ outcome (g ← after_king_hunt; Game.play_step (request (1, 1) (2, 1)) g)
     = Raise TypeError.
Proof. repeat split; vm_compute; reflexivity. Qed.

(** C7, evaluated on a position.  With one white man and no black man on the
    board, [CheckersBoard.is_game_over] answers [False]. *)
Theorem lone_man_is_not_game_over :
  count_men lone_white_man.2 lone_white_man.1 black = Ok 0%nat
  /\ count_men lone_white_man.2 lone_white_man.1 white = Ok 1%nat
  /\ CheckersBoard.is_game_over lone_white_man.2 lone_white_man.1 = Ok false.
Proof. repeat split; vm_compute; reflexivity. Qed.

(** C2 as stated fails.  In an extended game a white Pawn reaches (3, 3)
    with a black checkers man on its forward diagonal (2, 2), and
    [check_move] rejects the capture; with the cells of the claim, a white
    Pawn on (6, 4) is refused the black man on (5, 3) and is allowed to step
    straight onto the black man on (5, 4). *)
Lemma pawn_override_skips_checkers_men :
  outcome (g ← pawn_meets_man;
           lift (fun s =>
                   f ← figure_at s (board g) (3, 3);
                   e ← figure_at s (board g) (2, 2);
                   ok ← check_move s (board g) (3, 3) (2, 2);
                   Ok (f, e, ok)))
  = Ok (Some (mkFigure Pawn white (3, 3) false),
        Some (mkFigure CheckersFigure black (2, 2) false),
        false)
  /\ py_in (2, 2) (Board.pawn_capture_cells white 3 3) = true
  /\ figure_at pawn_and_men.2 pawn_and_men.1 (6, 4) = Ok (Some (mkFigure Pawn white (6, 4) false))
  /\ figure_at pawn_and_men.2 pawn_and_men.1 (5, 3)
     = Ok (Some (mkFigure CheckersFigure black (5, 3) false))
  /\ figure_at pawn_and_men.2 pawn_and_men.1 (5, 4)
     = Ok (Some (mkFigure CheckersFigure black (5, 4) false))
  /\ Board.check_move pawn_and_men.2 pawn_and_men.1 (6, 4) (5, 3) = Ok false
  /\ Board.check_move pawn_and_men.2 pawn_and_men.1 (6, 4) (5, 4) = Ok true.
Proof. repeat split; vm_compute; reflexivity. Qed.

(** ** The general theorems at concrete positions *)

Lemma leapers_witness :
  get_cell extended_start.2 extended_start.1 (5, 2) = Ok (Some 32%nat)
  /\ Board.check_move extended_start.2 extended_start.1 (5, 1) (5, 4) = Ok true
  /\ exists target_set,
       Board.targets chess_start.2 (mkFigure Pawn white (6, 4) false) None 6 4
       = Ok target_set
       /\ (4, 4) ∈ target_set
       /\ Board.is_path_clear chess_start.2 chess_start.1 6 4 4 4 = Ok (Some true).
Proof.
  split; [vm_compute; reflexivity|]. split.
  - refine (proj1 (leapers_ignore_path_others_need_it
                     extended_start.2 extended_start.1 (5, 1) (5, 4) 36%nat
                     (mkFigure Ghost white (5, 1) false) None _ _ _) _).
    + vm_compute; reflexivity.
    + vm_compute; reflexivity.
    + vm_compute; reflexivity.
    + right; reflexivity.
  - refine (proj2 (leapers_ignore_path_others_need_it
                     chess_start.2 chess_start.1 (6, 4) (4, 4) 9%nat
                     (mkFigure Pawn white (6, 4) false) None _ _ _) _ _).
    + vm_compute; reflexivity.
    + vm_compute; reflexivity.
    + vm_compute; reflexivity.
    + simpl. intros [H | H]; discriminate H.
    + vm_compute; reflexivity.
Defined.

Lemma pawn_capture_witness :
  Board.check_move pawn_and_knights.2 pawn_and_knights.1 (6, 4) (5, 3) = Ok true
  /\ Board.check_move pawn_and_knights.2 pawn_and_knights.1 (6, 4) (5, 4) = Ok false.
Proof.
  split.
  - refine (proj1 (proj2 (pawn_capture_of_chess_figure
                     pawn_and_knights.2 pawn_and_knights.1 6 4 5 3 0%nat
                     (mkFigure Pawn white (6, 4) false) 1%nat
                     (mkFigure Knight black (5, 3) false) _ _ _ _ _ _ _)) _ _ _);
      try (vm_compute; reflexivity); simpl; discriminate.
  - refine (proj2 (proj2 (pawn_capture_of_chess_figure
                     pawn_and_knights.2 pawn_and_knights.1 6 4 5 4 0%nat
                     (mkFigure Pawn white (6, 4) false) 2%nat
                     (mkFigure Knight black (5, 4) false) _ _ _ _ _ _ _)) _ _ _);
      try (vm_compute; reflexivity); simpl; discriminate.
Defined.

Lemma checkers_jump_witness :
  figure_at jump_position.2 jump_position.1 (2, 3)
  = Ok (Some (mkFigure CheckersFigure white (2, 3) false))
  /\ figure_at jump_position.2 jump_position.1 (3, 4)
     = Ok (Some (mkFigure CheckersFigure black (3, 4) false))
  /\ get_cell jump_position.2 jump_position.1 (4, 5) = Ok None
  /\ CheckersBoard.check_move jump_position.2 jump_position.1 (2, 3) (4, 5) = Ok true
  /\ exists s',
       CheckersBoard.make_move jump_position.1 (2, 3) (4, 5) jump_position.2 = Ok (tt, s')
       /\ get_cell s' jump_position.1 (3, 4) = Ok None
       /\ exists fig', deref s' 0%nat = Ok fig' /\ kill fig' = true.
Proof.
  split; [vm_compute; reflexivity|]. split; [vm_compute; reflexivity|].
  split; [vm_compute; reflexivity|].
  refine (checkers_jump_capture jump_position.2 jump_position.1 2 3 4 5 0%nat
            (mkFigure CheckersFigure white (2, 3) false) 1%nat None _ _ _ _ _ _ _ _ _);
    try (vm_compute; reflexivity); lia.
Defined.

Lemma castling_witness :
  Board.if_rock_possible castling_position.2 castling_position.1 white = Ok true
  /\ exists s',
       Board.rock castling_position.1 white castling_position.2 = Ok (tt, s')
       /\ get_cell s' castling_position.1 (0, 6) = Ok (Some 0%nat)
       /\ get_cell s' castling_position.1 (0, 5) = Ok (Some 1%nat)
       /\ get_cell s' castling_position.1 (0, 4) = Ok None
       /\ get_cell s' castling_position.1 (0, 7) = Ok None
       /\ figs s' = figs castling_position.2.
Proof.
  refine (kingside_castling_white castling_position.2 castling_position.1
            0%nat (mkFigure King white (0, 4) false)
            1%nat (mkFigure Rook white (0, 7) false) _ _ _ _ _ _ _ _ _ _);
    vm_compute; reflexivity.
Defined.

Lemma rejected_move_witness :
  check_move chess_start.2 chess_start.1 (4, 4) (3, 4) = Ok false
  /\ Game.move_request (mkGame chess_start.1 white false [(4, 4); (3, 4)] false true)
                       chess_start.2
     = Ok (mkGame chess_start.1 white false [] false true,
           mkStore (figs chess_start.2) (rows chess_start.2)
                   (stdout chess_start.2 ++ [MsgInvalidMove])).
Proof.
  pose proof (rejected_move_leaves_the_state
                (mkGame chess_start.1 white false [(4, 4); (3, 4)] false true)
                chess_start.2 (4, 4) (3, 4) [] eq_refl) as [Hempty Hrej].
  assert (H : check_move chess_start.2 chess_start.1 (4, 4) (3, 4) = Ok false).
  { apply (Hempty None); vm_compute; reflexivity. }
  split; [exact H|]. apply Hrej. exact H.
Defined.

Lemma stuck_man_witness :
  figure_at extended_start.2 extended_start.1 (5, 2)
  = Ok (Some (mkFigure CheckersFigure white (5, 2) false))
  /\ py_in (4, 3) (get_possible_moves (mkFigure CheckersFigure white (5, 2) false)) = true
  /\ Board.check_move extended_start.2 extended_start.1 (5, 2) (4, 3) = Ok false
  /\ check_move extended_start.2 extended_start.1 (5, 2) (4, 3) = Ok false.
Proof.
  split; [vm_compute; reflexivity|]. split; [vm_compute; reflexivity|].
  pose proof (checkers_man_never_moves_on_chess_boards
                extended_start.2 extended_start.1 (5, 2) (4, 3) 32%nat
                (mkFigure CheckersFigure white (5, 2) false) None) as H.
  destruct H as [H1 H2]; try (vm_compute; reflexivity).
  split; [exact H1|]. apply H2. vm_compute; reflexivity.
Defined.

(** * Further properties *)

(** ** Cells of the board and well-formed grids *)

Lemma in_bounds_spec a b : in_bounds (a, b) = true <-> 0 <= a < 8 /\ 0 <= b < 8.
Proof.
  unfold in_bounds. cbn [fst snd].
  rewrite !andb_true_iff, !Z.leb_le, !Z.ltb_lt. lia.
Qed.

Lemma all_cells_spec p : p ∈ all_cells <-> in_bounds p = true.
Proof.
  destruct p as [a b]. rewrite in_bounds_spec. unfold all_cells, py_range.
  rewrite list_elem_of_In, in_flat_map. split.
  - intros (row & Hrow & Hin). apply list_elem_of_In in Hrow, Hin.
    apply list_elem_of_fmap in Hin as (col & [= -> ->] & Hcol).
    apply elem_of_seqZ in Hrow, Hcol. lia.
  - intros [Ha Hb]. exists a. split; apply list_elem_of_In.
    + apply elem_of_seqZ. lia.
    + apply list_elem_of_fmap. exists b. split; [reflexivity|]. apply elem_of_seqZ. lia.
Qed.

Lemma py_norm_in_range n i : 0 <= i < Z.of_nat n -> py_norm n i = Some (Z.to_nat i).
Proof. intros H. unfold py_norm. rewrite bool_decide_eq_true_2 by lia. reflexivity. Qed.

Lemma wf_grid_spec s grid :
  wf_grid s grid = true <->
  length grid = 8%nat /\ NoDup grid /\
  forall l, l ∈ grid -> exists row, rows s !! l = Some row /\ length row = 8%nat.
Proof.
  unfold wf_grid. rewrite !andb_true_iff, !bool_decide_eq_true, forallb_forall.
  split.
  - intros [[H1 H2] H3]. split; [exact H1|]. split; [exact H2|].
    intros l Hl. apply list_elem_of_In, H3 in Hl.
    destruct (rows s !! l) as [row|]; [|discriminate].
    apply bool_decide_eq_true in Hl. eauto.
  - intros (H1 & H2 & H3). split; [split; assumption|].
    intros l Hl. apply list_elem_of_In, H3 in Hl as (row & -> & Hlen).
    apply bool_decide_eq_true_2. exact Hlen.
Qed.

(** On a well-formed grid every cell of the board can be read. *)
Lemma grid_get_wf s grid a b :
  wf_grid s grid = true -> in_bounds (a, b) = true ->
  exists l row c,
    grid !! Z.to_nat a = Some l /\ rows s !! l = Some row /\ length row = 8%nat
    /\ row !! Z.to_nat b = Some c /\ grid_get s grid (a, b) = Ok c.
Proof.
  intros (Hlen & _ & Hrows)%wf_grid_spec [Ha Hb]%in_bounds_spec.
  destruct (lookup_lt_is_Some_2 grid (Z.to_nat a)) as [l Hl]; [lia|].
  destruct (Hrows l) as (row & Hrow & Hrl); [eapply list_elem_of_lookup_2; eauto|].
  destruct (lookup_lt_is_Some_2 row (Z.to_nat b)) as [c Hc]; [lia|].
  exists l, row, c. repeat split; try assumption.
  unfold grid_get, row_at, py_getitem. cbn [fst snd].
  rewrite py_norm_in_range by lia. rewrite Hl. rsimpl. rewrite Hrow. rsimpl.
  rewrite py_norm_in_range by lia. rewrite Hc. reflexivity.
Qed.

Lemma get_cell_wf s self p :
  wf_grid s (field self) = true -> in_bounds p = true ->
  exists c, get_cell s self p = Ok c.
Proof.
  destruct p as [a b]. intros Hwf Hp.
  destruct (grid_get_wf s (field self) a b Hwf Hp) as (l & row & c & _ & _ & _ & _ & H).
  exists c. exact H.
Qed.

(** What one write to a cell of a well-formed grid does: the cell reads
    the new value, every other cell of the board and every row outside the
    grid is as before. *)
Lemma set_cell_wf self p v s :
  wf_grid s (field self) = true -> in_bounds p = true ->
  exists s',
    set_cell self p v s = Ok (tt, s')
    /\ figs s' = figs s /\ stdout s' = stdout s
    /\ length (rows s') = length (rows s)
    /\ get_cell s' self p = Ok v
    /\ (forall q, in_bounds q = true -> q ≠ p -> get_cell s' self q = get_cell s self q)
    /\ (forall l, l ∉ field self -> rows s' !! l = rows s !! l)
    /\ (forall g, wf_grid s g = true -> wf_grid s' g = true).
Proof.
  destruct p as [a b]. intros Hwf Hp.
  destruct (grid_get_wf s (field self) a b Hwf Hp) as (l & row & c & Hl & Hrow & Hrl & Hc & Hget).
  pose proof Hwf as (Hlen & Hnd & Hrows)%wf_grid_spec.
  pose proof Hp as [Ha Hb]%in_bounds_spec.
  set (s' := mkStore (figs s) (<[l := <[Z.to_nat b := v]> row]> (rows s)) (stdout s)).
  assert (Hll : (l < length (rows s))%nat) by (eapply lookup_lt_Some; eauto).
  exists s'. split; [|split; [reflexivity|split; [reflexivity|split; [|split; [|split; [|split]]]]]].
  - unfold set_cell, row_at, py_getitem, py_setitem. cbn [fst snd].
    rewrite py_norm_in_range by lia. rewrite Hl. rsimpl. rewrite Hrow. rsimpl.
    rewrite py_norm_in_range by lia. reflexivity.
  - apply length_insert.
  - eapply get_set_cell_same with (s := s).
    unfold set_cell, row_at, py_getitem, py_setitem. cbn [fst snd].
    rewrite py_norm_in_range by lia. rewrite Hl. rsimpl. rewrite Hrow. rsimpl.
    rewrite py_norm_in_range by lia. reflexivity.
  - intros [qa qb] Hq Hne. pose proof Hq as [Hqa Hqb]%in_bounds_spec.
    unfold get_cell, grid_get, row_at, py_getitem. cbn [fst snd].
    rewrite py_norm_in_range by lia.
    destruct (field self !! Z.to_nat qa) as [l'|] eqn:Hl'; [|reflexivity]. rsimpl.
    subst s'. cbn [rows].
    destruct (decide (l = l')) as [<-|Hll'].
    + rewrite list_lookup_insert_eq by exact Hll. rewrite Hrow. rsimpl.
      rewrite length_insert, Hrl. rewrite py_norm_in_range by lia.
      assert (Z.to_nat a = Z.to_nat qa) by (eapply NoDup_lookup; eauto).
      rewrite list_lookup_insert_ne; [reflexivity|].
      intros Heq. apply Hne. f_equal; lia.
    + rewrite list_lookup_insert_ne by exact Hll'. reflexivity.
  - intros l' Hl'. subst s'. cbn [rows]. apply list_lookup_insert_ne.
    intros <-. apply Hl'. eapply list_elem_of_lookup_2; eauto.
  - intros g (Hg1 & Hg2 & Hg3)%wf_grid_spec. apply wf_grid_spec.
    split; [exact Hg1|]. split; [exact Hg2|].
    intros l' Hl'. destruct (Hg3 l' Hl') as (row' & Hrow' & Hlen').
    subst s'. cbn [rows]. destruct (decide (l = l')) as [<-|Hne].
    + rewrite list_lookup_insert_eq by exact Hll. eexists. split; [reflexivity|].
      rewrite length_insert. exact Hrl.
    + rewrite list_lookup_insert_ne by exact Hne. eauto.
Qed.

Lemma figures_readable_spec s self p :
  figures_readable s self = true -> in_bounds p = true ->
  exists o, figure_at s self p = Ok o.
Proof.
  unfold figures_readable. rewrite forallb_forall. intros H Hp.
  specialize (H p). rewrite <- list_elem_of_In, all_cells_spec in H. specialize (H Hp).
  destruct (figure_at s self p) as [o|]; [eauto|discriminate].
Qed.

(** ** The geometries *)

Lemma lines_elem x y a b :
  (a, b) ∈ Rook.lines x y <->
  (0 <= a < 8 /\ a ≠ x /\ b = y) \/ (a = x /\ 0 <= b < 8 /\ b ≠ y).
Proof.
  unfold Rook.lines, py_range. rewrite list_elem_of_In, in_flat_map. split.
  - intros (i & Hi%list_elem_of_In%elem_of_seqZ & Hin%list_elem_of_In).
    apply elem_of_app in Hin as [Hin|Hin]; case_bool_decide; try (inversion Hin; fail);
      apply list_elem_of_singleton in Hin; injection Hin as -> ->; lia.
  - intros [(Ha & Hx & ->)|(-> & Hb & Hy)].
    + exists a. split; [apply list_elem_of_In, elem_of_seqZ; lia|].
      apply list_elem_of_In, elem_of_app. left.
      rewrite bool_decide_eq_true_2 by exact Hx. left.
    + exists b. split; [apply list_elem_of_In, elem_of_seqZ; lia|].
      apply list_elem_of_In, elem_of_app. right.
      rewrite bool_decide_eq_true_2 by exact Hy. left.
Qed.

Lemma walk_elem x y dx dy steps p :
  p ∈ Ghost.walk x y dx dy steps ->
  exists i, i ∈ steps /\ p = (x + dx * i, y + dy * i) /\ in_bounds p = true.
Proof.
  induction steps as [|i steps IH]; cbn [Ghost.walk]; [intros H; inversion H|].
  destruct (in_bounds (x + dx * i, y + dy * i)) eqn:Hin; [|intros H; inversion H].
  intros [->|H]%elem_of_cons.
  - exists i. split; [left|]. split; [reflexivity|exact Hin].
  - destruct (IH H) as (j & Hj & Hp & Hb). exists j. split; [right; exact Hj|]. eauto.
Qed.

Lemma slide_elem fuel x y dx dy : forall step p,
  p ∈ Bishop.slide fuel x y dx dy step ->
  exists k, step <= k /\ p = (x + dx * k, y + dy * k) /\ in_bounds p = true.
Proof.
  induction fuel as [|fuel IH]; intros step p; cbn [Bishop.slide]; [intros H; inversion H|].
  destruct (in_bounds (x + dx * step, y + dy * step)) eqn:Hin; [|intros H; inversion H].
  intros [->|H]%elem_of_cons.
  - exists step. split; [lia|]. split; [reflexivity|exact Hin].
  - destruct (IH _ _ H) as (k & Hk & Hp & Hb). exists k. split; [lia|]. eauto.
Qed.

Lemma list_remove_first_elem m l p : p ∈ list_remove_first m l -> p ∈ l.
Proof.
  induction l as [|x l IH]; cbn [list_remove_first]; [trivial|].
  case_bool_decide; [intros Hp; right; exact Hp|].
  intros [->|Hp]%elem_of_cons; [left|right; apply IH, Hp].
Qed.

Lemma filter_in_place_elem fuel : forall i l p,
  p ∈ Pawn.filter_in_place fuel i l -> p ∈ l.
Proof.
  induction fuel as [|fuel IH]; intros i l p; cbn [Pawn.filter_in_place]; [trivial|].
  destruct (l !! i) as [m|]; [|trivial].
  destruct (Pawn.off_board m); intros H%IH; [eapply list_remove_first_elem; eauto|exact H].
Qed.

Lemma diagonals_elem x y p :
  p ∈ Bishop.diagonals x y ->
  exists k, 1 <= k /\ in_bounds p = true
            /\ (p.1 = x + k \/ p.1 = x - k) /\ (p.2 = y + k \/ p.2 = y - k).
Proof.
  unfold Bishop.diagonals, Bishop.directions. cbn [flat_map fst snd].
  rewrite !elem_of_app.
  intros [H|[H|[H|[H|H]]]]; try (inversion H; fail);
    apply slide_elem in H as (k & Hk & -> & Hb); exists k; cbn [fst snd];
    (split; [exact Hk|]); (split; [exact Hb|]); lia.
Qed.

Lemma lines_not_own x y : (x, y) ∉ Rook.lines x y.
Proof. rewrite lines_elem. lia. Qed.

(** No figure, wherever it thinks it stands, has its own position among its
    possible moves. *)
Lemma own_position_not_possible (f : Figure) : position f ∉ get_possible_moves f.
Proof.
  unfold get_possible_moves.
  destruct f as [c col [x y] kf]. cbn [cls position].
  destruct c; cbn [CheckersFigure.get_possible_moves Ghost.get_possible_moves
                   Pawn.get_possible_moves Rook.get_possible_moves
                   Knight.get_possible_moves Bishop.get_possible_moves
                   Queen.get_possible_moves King.get_possible_moves position color].
  - destruct col; intros H; apply list_elem_of_In in H; cbn in H;
      destruct H as [H|[H|[]]]; injection H; lia.
  - cbn [flat_map fst snd]. rewrite !elem_of_app.
    intros [H|[H|[H|[H|H]]]]; try (inversion H; fail);
      apply walk_elem in H as (i & Hi%elem_of_seqZ & Hp & _); injection Hp; lia.
  - intros H%filter_in_place_elem. apply elem_of_app in H as [H|H].
    + destruct col; apply list_elem_of_singleton in H; injection H; lia.
    + repeat case_match; try (inversion H; fail);
        apply list_elem_of_singleton in H; injection H; lia.
  - apply lines_not_own.
  - intros H; apply list_elem_of_In in H; cbn in H.
    repeat (destruct H as [H|H]; [injection H; lia|]). exact H.
  - intros (k & Hk & _ & H1 & H2)%diagonals_elem. cbn [fst snd] in *. lia.
  - rewrite elem_of_app. intros [H|H]; [exact (lines_not_own _ _ H)|].
    apply diagonals_elem in H as (k & Hk & _ & H1 & H2). cbn [fst snd] in *. lia.
  - intros H; apply list_elem_of_In in H; cbn in H.
    repeat (destruct H as [H|H]; [injection H; lia|]). exact H.
  - intros H; apply list_elem_of_In in H; cbn in H.
    repeat (destruct H as [H|H]; [injection H; lia|]). exact H.
Qed.

Lemma forallb_all_cells (P : cell -> bool) :
  forallb P all_cells = true -> forall p, in_bounds p = true -> P p = true.
Proof.
  rewrite forallb_forall. intros H p Hp. apply H, list_elem_of_In, all_cells_spec, Hp.
Qed.

Lemma diagonals_complete_on_board :
  forallb (fun p : cell =>
    forallb (fun q : cell =>
      implb (bool_decide (Z.abs (q.1 - p.1) = Z.abs (q.2 - p.2)) && negb (bool_decide (q.1 = p.1)))
            (py_in q (Bishop.diagonals p.1 p.2)))
      all_cells) all_cells = true.
Proof. vm_compute. reflexivity. Qed.

Lemma diagonals_on_board x y a b :
  in_bounds (x, y) = true ->
  ((a, b) ∈ Bishop.diagonals x y <->
   in_bounds (a, b) = true /\ Z.abs (a - x) = Z.abs (b - y) /\ a ≠ x).
Proof.
  intros Hxy. split.
  - intros (k & Hk & Hb & H1 & H2)%diagonals_elem. cbn [fst snd] in *.
    split; [exact Hb|]. lia.
  - intros (Hab & Hd & Hne).
    pose proof (forallb_all_cells _ diagonals_complete_on_board (x, y) Hxy) as H.
    pose proof (forallb_all_cells _ H (a, b) Hab) as H'. cbn [fst snd] in H'.
    rewrite (bool_decide_eq_true_2 _ Hd), (bool_decide_eq_false_2 _ Hne) in H'.
    apply bool_decide_eq_true in H'. exact H'.
Qed.

Lemma ghost_complete_on_board :
  forallb (fun p : cell =>
    forallb (fun q : cell =>
      implb (py_in q (Rook.lines p.1 p.2))
            (py_in q (Ghost.get_possible_moves (mkFigure Ghost white p false))))
      all_cells) all_cells = true.
Proof. vm_compute. reflexivity. Qed.

Lemma ghost_moves_like_rook (self : Figure) p :
  in_bounds (position self) = true ->
  (p ∈ Ghost.get_possible_moves self
   <-> p ∈ Rook.lines (position self).1 (position self).2).
Proof.
  destruct self as [c col [x y] kf]. cbn [position fst snd]. intros Hxy.
  pose proof Hxy as [Hx Hy]%in_bounds_spec. destruct p as [a b]. split.
  - unfold Ghost.get_possible_moves. cbn [position flat_map fst snd].
    rewrite !elem_of_app, lines_elem.
    intros [H|[H|[H|[H|H]]]]; try (inversion H; fail);
      apply walk_elem in H as (i & Hi%elem_of_seqZ & [= -> ->] & [Ha Hb]%in_bounds_spec); lia.
  - intros H. pose proof H as Hr. apply lines_elem in Hr.
    assert (Hab : in_bounds (a, b) = true) by (apply in_bounds_spec; lia).
    pose proof (forallb_all_cells _ ghost_complete_on_board (x, y) Hxy) as H1.
    pose proof (forallb_all_cells _ H1 (a, b) Hab) as H2. cbn [fst snd] in H2.
    unfold py_in in H2 at 1. rewrite (bool_decide_eq_true_2 _ H) in H2.
    apply bool_decide_eq_true in H2. exact H2.
Qed.

Lemma pawn_moves_on_board (self : Figure) :
  in_bounds (position self) = true ->
  Pawn.get_possible_moves self
  = let '(x, y) := position self in
    match color self with
    | white => if bool_decide (x = 0) then []
               else if bool_decide (x = 6) then [(5, y); (4, y)] else [(x - 1, y)]
    | black => if bool_decide (x = 7) then []
               else if bool_decide (x = 1) then [(2, y); (3, y)] else [(x + 1, y)]
    end.
Proof.
  destruct self as [c col [x y] kf]. cbn [position color]. intros [Hx Hy]%in_bounds_spec.
  unfold Pawn.get_possible_moves. cbn [position color].
  destruct col; repeat case_bool_decide; subst; try lia; try discriminate;
    cbn [andb app length Pawn.filter_in_place lookup list_lookup];
    unfold Pawn.off_board; cbn [fst snd];
    repeat match goal with
    | |- context [?a <? ?b] => 
        first [rewrite (proj2 (Z.ltb_lt a b)) by lia | rewrite (proj2 (Z.ltb_ge a b)) by lia]
    | |- context [?a <=? ?b] => 
        first [rewrite (proj2 (Z.leb_le a b)) by lia | rewrite (proj2 (Z.leb_gt a b)) by lia]
    end; cbn; try reflexivity; try congruence;
    rewrite bool_decide_eq_true_2 by reflexivity; reflexivity.
Qed.

(** X1.  The moves of a rook, wherever it stands: the other cells of the eight
    rows in its column and of the eight columns in its row. *)
Theorem rook_geometry (self : Figure) a b :
  cls self = Rook ->
  ((a, b) ∈ get_possible_moves self <->
   (0 <= a < 8 /\ a ≠ (position self).1 /\ b = (position self).2)
   \/ (a = (position self).1 /\ 0 <= b < 8 /\ b ≠ (position self).2)).
Proof.
  intros Hc. unfold get_possible_moves. rewrite Hc.
  unfold Rook.get_possible_moves. destruct (position self) as [x y]. apply lines_elem.
Qed.

(** X2.  From a cell of the board a bishop sees exactly the other cells of the
    board on its two diagonals. *)
Theorem bishop_geometry (self : Figure) a b :
  cls self = Bishop ->
  in_bounds (position self) = true ->
  ((a, b) ∈ get_possible_moves self <->
   in_bounds (a, b) = true
   /\ Z.abs (a - (position self).1) = Z.abs (b - (position self).2)
   /\ a ≠ (position self).1).
Proof.
  intros Hc. unfold get_possible_moves. rewrite Hc.
  unfold Bishop.get_possible_moves. destruct (position self) as [x y].
  apply diagonals_on_board.
Qed.

(** X3.  A ghost standing on the board has exactly the moves of a rook
    standing there: the other cells of its row and of its column. *)
Theorem ghost_geometry (self : Figure) a b :
  cls self = Ghost ->
  in_bounds (position self) = true ->
  ((a, b) ∈ get_possible_moves self <->
   in_bounds (a, b) = true
   /\ (a, b) ≠ position self
   /\ (a = (position self).1 \/ b = (position self).2)).
Proof.
  intros Hc Hp. unfold get_possible_moves. rewrite Hc.
  rewrite (ghost_moves_like_rook self (a, b) Hp), lines_elem.
  destruct (position self) as [x y]. cbn [fst snd].
  apply in_bounds_spec in Hp. rewrite in_bounds_spec. split.
  - intros H. split; [lia|]. split; [|lia]. intros [= -> ->]. lia.
  - intros (Hb & Hne & Hl).
    destruct (decide (a = x)) as [->|Hax].
    + right. split; [reflexivity|]. split; [lia|]. intros ->. apply Hne. reflexivity.
    + left. lia.
Qed.

(** X4.  On the board the pawn's filtering loop loses nothing and lets nothing
    through: the moves are the one step ahead if that is on the board, and
    also the two steps ahead from the start row. *)
Theorem pawn_geometry (self : Figure) :
  cls self = Pawn ->
  in_bounds (position self) = true ->
  get_possible_moves self
  = let '(x, y) := position self in
    match color self with
    | white => if bool_decide (x = 0) then []
               else if bool_decide (x = 6) then [(5, y); (4, y)] else [(x - 1, y)]
    | black => if bool_decide (x = 7) then []
               else if bool_decide (x = 1) then [(2, y); (3, y)] else [(x + 1, y)]
    end.
Proof.
  intros Hc Hp. unfold get_possible_moves. rewrite Hc. apply pawn_moves_on_board, Hp.
Qed.

(** ** What [is_path_clear] decides *)

Lemma scan_iff s self cells :
  (forall p, p ∈ cells -> exists c, get_cell s self p = Ok c) ->
  exists r, Board.scan s self cells = Ok r
            /\ (r = true <-> forall p, p ∈ cells -> get_cell s self p = Ok None).
Proof.
  induction cells as [|p cells IH]; intros Hread.
  - exists true. split; [reflexivity|]. split; [|reflexivity].
    intros _ p Hp. inversion Hp.
  - destruct (Hread p) as [c Hc]; [left|]. cbn [Board.scan]. rewrite Hc. rsimpl.
    destruct c as [x|].
    + exists false. split; [reflexivity|]. split; [discriminate|].
      intros H. specialize (H p ltac:(left)). congruence.
    + destruct IH as (r & Hr & Hiff); [intros q Hq; apply Hread; right; exact Hq|].
      exists r. split; [exact Hr|]. rewrite Hiff. split.
      * intros H q Hq. apply elem_of_cons in Hq as [->|Hq]; [exact Hc|apply H, Hq].
      * intros H q Hq. apply H. right. exact Hq.
Qed.

Lemma diag_loop_iff s self a2 b2 rs cs fuel : forall row col,
  a2 - row = rs * (Z.of_nat fuel - 1) ->
  b2 - col = cs * (Z.of_nat fuel - 1) ->
  (rs = 1 \/ rs = -1) ->
  (1 <= fuel)%nat ->
  (forall k, 0 <= k < Z.of_nat fuel - 1 ->
     exists c, get_cell s self (row + k * rs, col + k * cs) = Ok c) ->
  exists r,
    Board.diag_loop fuel s self a2 b2 rs cs row col = Ok r
    /\ (r = true <->
        forall k, 0 <= k < Z.of_nat fuel - 1 ->
          get_cell s self (row + k * rs, col + k * cs) = Ok None).
Proof.
  induction fuel as [|fuel IH]; intros row col Hr Hc Hrs Hf Hread; [lia|].
  cbn [Board.diag_loop]. destruct fuel as [|fuel].
  - rewrite !bool_decide_eq_false_2 by lia. exists true. split; [reflexivity|].
    split; [|reflexivity]. intros _ k Hk. lia.
  - rewrite (bool_decide_eq_true_2 (row ≠ a2)) by nia. cbn [orb].
    destruct (Hread 0) as [c Hc0]; [lia|].
    replace (row + 0 * rs) with row in Hc0 by lia.
    replace (col + 0 * cs) with col in Hc0 by lia.
    rewrite Hc0. rsimpl. destruct c as [x|].
    + exists false. split; [reflexivity|]. split; [discriminate|].
      intros H. specialize (H 0 ltac:(lia)).
      replace (row + 0 * rs) with row in H by lia.
      replace (col + 0 * cs) with col in H by lia. congruence.
    + destruct (IH (row + rs) (col + cs)) as (r & Hrun & Hiff); try lia.
      { intros k Hk. destruct (Hread (k + 1)) as [c Hc']; [lia|].
        exists c. rewrite <- Hc'. f_equal. f_equal; lia. }
      exists r. split; [exact Hrun|]. rewrite Hiff. split.
      * intros H k Hk. destruct (decide (k = 0)) as [->|Hk0].
        -- rewrite <- Hc0. f_equal. f_equal; lia.
        -- specialize (H (k - 1) ltac:(lia)). rewrite <- H. f_equal. f_equal; lia.
      * intros H k Hk. specialize (H (k + 1) ltac:(lia)). rewrite <- H.
        f_equal. f_equal; lia.
Qed.

Lemma is_path_clear_spec s self a1 b1 a2 b2 :
  wf_grid s (field self) = true ->
  in_bounds (a1, b1) = true -> in_bounds (a2, b2) = true ->
  a1 = a2 \/ b1 = b2 \/ Z.abs (a1 - a2) = Z.abs (b1 - b2) ->
  exists r,
    Board.is_path_clear s self a1 b1 a2 b2 = Ok (Some r)
    /\ (r = true <->
        forall k, 0 < k < Z.max (Z.abs (a2 - a1)) (Z.abs (b2 - b1)) ->
          get_cell s self (a1 + k * Z.sgn (a2 - a1), b1 + k * Z.sgn (b2 - b1)) = Ok None).
Proof.
  intros Hwf [Ha1 Hb1]%in_bounds_spec [Ha2 Hb2]%in_bounds_spec Hline.
  assert (Hread : forall a b, 0 <= a < 8 -> 0 <= b < 8 -> exists c, get_cell s self (a, b) = Ok c).
  { intros a b Ha Hb. apply get_cell_wf; [exact Hwf|]. apply in_bounds_spec. lia. }
  unfold Board.is_path_clear.
  destruct (decide (a1 = a2)) as [<-|Hna].
  - rewrite bool_decide_eq_true_2 by reflexivity.
    destruct (scan_iff s self
      ((fun col => (a1, col)) <$> py_range (Z.min b1 b2 + 1) (Z.max b1 b2))) as (r & Hr & Hiff).
    { intros p (col & -> & Hcol%elem_of_seqZ)%list_elem_of_fmap. apply Hread; lia. }
    exists r. rewrite Hr. split; [reflexivity|]. rewrite Hiff.
    replace (a1 - a1) with 0 by lia. cbn [Z.sgn Z.abs].
    split.
    + intros H k Hk.
      replace (a1 + k * 0) with a1 by lia. apply H.
      apply list_elem_of_fmap. eexists. split; [reflexivity|].
      unfold py_range. apply elem_of_seqZ. lia.
    + intros H p (col & -> & Hcol%elem_of_seqZ)%list_elem_of_fmap.
      destruct (Z.lt_trichotomy b1 b2) as [Hlt|[Heq|Hgt]]; [| lia |].
      * specialize (H (col - b1) ltac:(lia)).
        rewrite <- H. f_equal. f_equal; lia.
      * specialize (H (b1 - col) ltac:(lia)).
        rewrite <- H. f_equal. f_equal; lia.
  - rewrite (bool_decide_eq_false_2 (a1 = a2)) by exact Hna.
    destruct (decide (b1 = b2)) as [<-|Hnb].
    + rewrite bool_decide_eq_true_2 by reflexivity.
      destruct (scan_iff s self
        ((fun row => (row, b1)) <$> py_range (Z.min a1 a2 + 1) (Z.max a1 a2))) as (r & Hr & Hiff).
      { intros p (row & -> & Hrow%elem_of_seqZ)%list_elem_of_fmap. apply Hread; lia. }
      exists r. rewrite Hr. split; [reflexivity|]. rewrite Hiff.
      replace (b1 - b1) with 0 by lia. cbn [Z.sgn Z.abs].
      split.
      * intros H k Hk.
        replace (b1 + k * 0) with b1 by lia. apply H.
        apply list_elem_of_fmap. eexists. split; [reflexivity|].
        unfold py_range. apply elem_of_seqZ. lia.
      * intros H p (row & -> & Hrow%elem_of_seqZ)%list_elem_of_fmap.
        destruct (Z.lt_trichotomy a1 a2) as [Hlt|[Heq|Hgt]]; [| lia |].
        -- specialize (H (row - a1) ltac:(lia)).
           rewrite <- H. f_equal. f_equal; lia.
        -- specialize (H (a1 - row) ltac:(lia)).
           rewrite <- H. f_equal. f_equal; lia.
    + rewrite (bool_decide_eq_false_2 (b1 = b2)) by exact Hnb.
      assert (Hd : Z.abs (a1 - a2) = Z.abs (b1 - b2)) by lia.
      rewrite (bool_decide_eq_true_2 _ Hd).
      set (rs := if bool_decide (a2 > a1) then 1 else -1).
      set (cs := if bool_decide (b2 > b1) then 1 else -1).
      assert (Hrs : rs = Z.sgn (a2 - a1)) by (subst rs; case_bool_decide; lia).
      assert (Hcs : cs = Z.sgn (b2 - b1)) by (subst cs; case_bool_decide; lia).
      destruct (diag_loop_iff s self a2 b2 rs cs (Z.to_nat (Z.abs (a1 - a2)))
                  (a1 + rs) (b1 + cs)) as (r & Hr & Hiff); try lia.
      { intros k Hk. apply Hread; lia. }
      exists r. rewrite Hr. split; [reflexivity|]. rewrite Hiff.
      rewrite <- Hrs, <- Hcs. split.
      * intros H k Hk. specialize (H (k - 1) ltac:(lia)).
        rewrite <- H. f_equal. f_equal; lia.
      * intros H k Hk. specialize (H (k + 1) ltac:(lia)).
        rewrite <- H. f_equal. f_equal; lia.
Qed.

(** X5.  On a well-formed board, between two cells of one row, one column or
    one diagonal, [is_path_clear] answers a boolean, and answers [True]
    exactly when every cell strictly between the two is empty. *)
Theorem path_clear_iff_cells_between_empty s self a1 b1 a2 b2 :
  wf_grid s (field self) = true ->
  in_bounds (a1, b1) = true -> in_bounds (a2, b2) = true ->
  a1 = a2 \/ b1 = b2 \/ Z.abs (a1 - a2) = Z.abs (b1 - b2) ->
  exists r,
    Board.is_path_clear s self a1 b1 a2 b2 = Ok (Some r)
    /\ (r = true <->
        forall k, 0 < k < Z.max (Z.abs (a2 - a1)) (Z.abs (b2 - b1)) ->
          get_cell s self (a1 + k * Z.sgn (a2 - a1), b1 + k * Z.sgn (b2 - b1)) = Ok None).
Proof. apply is_path_clear_spec. Qed.

(** On a well-formed board [is_path_clear] between two cells of the board
    always returns. *)
Lemma is_path_clear_returns s self a1 b1 a2 b2 :
  wf_grid s (field self) = true ->
  in_bounds (a1, b1) = true -> in_bounds (a2, b2) = true ->
  exists r, Board.is_path_clear s self a1 b1 a2 b2 = Ok r.
Proof.
  intros Hwf H1 H2.
  destruct (decide (a1 = a2 \/ b1 = b2 \/ Z.abs (a1 - a2) = Z.abs (b1 - b2))) as [Hl|Hn].
  - destruct (is_path_clear_spec s self a1 b1 a2 b2 Hwf H1 H2 Hl) as (r & -> & _). eauto.
  - exists None. unfold Board.is_path_clear.
    rewrite !bool_decide_eq_false_2 by tauto. reflexivity.
Qed.

(** X6.  On a well-formed board [is_path_clear] does not depend on the order
    of the two cells. *)
Theorem is_path_clear_symmetric s self a1 b1 a2 b2 :
  wf_grid s (field self) = true ->
  in_bounds (a1, b1) = true -> in_bounds (a2, b2) = true ->
  Board.is_path_clear s self a1 b1 a2 b2 = Board.is_path_clear s self a2 b2 a1 b1.
Proof.
  intros Hwf H1 H2.
  destruct (decide (a1 = a2 \/ b1 = b2 \/ Z.abs (a1 - a2) = Z.abs (b1 - b2))) as [Hl|Hn].
  - assert (Hl' : a2 = a1 \/ b2 = b1 \/ Z.abs (a2 - a1) = Z.abs (b2 - b1)) by lia.
    destruct (is_path_clear_spec s self a1 b1 a2 b2 Hwf H1 H2 Hl) as (r & -> & Hr).
    destruct (is_path_clear_spec s self a2 b2 a1 b1 Hwf H2 H1 Hl') as (r' & -> & Hr').
    do 2 f_equal.
    assert (Hback : forall k,
              0 < k < Z.max (Z.abs (a2 - a1)) (Z.abs (b2 - b1)) ->
              (a1 + k * Z.sgn (a2 - a1), b1 + k * Z.sgn (b2 - b1))
              = (a2 + (Z.max (Z.abs (a1 - a2)) (Z.abs (b1 - b2)) - k) * Z.sgn (a1 - a2),
                 b2 + (Z.max (Z.abs (a1 - a2)) (Z.abs (b1 - b2)) - k) * Z.sgn (b1 - b2))).
    { intros k Hk.
      destruct (Z.sgn_spec (a2 - a1)) as [[? Ea]|[[? Ea]|[? Ea]]];
      destruct (Z.sgn_spec (b2 - b1)) as [[? Eb]|[[? Eb]|[? Eb]]];
      destruct (Z.sgn_spec (a1 - a2)) as [[? Ea']|[[? Ea']|[? Ea']]]; try lia;
      destruct (Z.sgn_spec (b1 - b2)) as [[? Eb']|[[? Eb']|[? Eb']]]; try lia;
      rewrite Ea, Eb, Ea', Eb'; f_equal; lia. }
    destruct r, r'; try reflexivity.
    + symmetry. apply Hr'. intros k Hk.
      assert (Hall : forall j, 0 < j < Z.max (Z.abs (a2 - a1)) (Z.abs (b2 - b1)) ->
                get_cell s self (a1 + j * Z.sgn (a2 - a1), b1 + j * Z.sgn (b2 - b1)) = Ok None)
        by (apply Hr; reflexivity).
      specialize (Hall (Z.max (Z.abs (a1 - a2)) (Z.abs (b1 - b2)) - k) ltac:(lia)).
      rewrite Hback in Hall by lia.
      rewrite <- Hall. do 2 f_equal; f_equal; lia.
    + apply Hr. intros k Hk. rewrite Hback by exact Hk.
      apply Hr'; [reflexivity|lia].
  - unfold Board.is_path_clear.
    rewrite !bool_decide_eq_false_2 by lia. reflexivity.
Qed.

(** ** Legality: what needs no look at the board *)

Lemma is_path_clear_near s self a1 b1 a2 b2 :
  Z.abs (a2 - a1) <= 1 -> Z.abs (b2 - b1) <= 1 ->
  Board.is_path_clear s self a1 b1 a2 b2 = Ok (Some true).
Proof.
  intros Ha Hb.
  destruct (decide (a1 = a2)) as [->|Hna]; [|destruct (decide (b1 = b2)) as [->|Hnb]].
  - unfold Board.is_path_clear, py_range.
    rewrite bool_decide_eq_true_2 by reflexivity.
    rewrite seqZ_nil by lia. reflexivity.
  - unfold Board.is_path_clear, py_range.
    rewrite (bool_decide_eq_false_2 (a1 = a2)) by exact Hna.
    rewrite bool_decide_eq_true_2 by reflexivity.
    rewrite seqZ_nil by lia. reflexivity.
  - apply is_path_clear_adjacent; lia.
Qed.

(** X7.  [is_path_clear] between a cell and itself or one of its eight
    neighbours is [True] on every board, without a look at the grid; between
    two cells that share no row, column or diagonal it falls off its end,
    which is [None]. *)
Theorem is_path_clear_without_reading s self a1 b1 a2 b2 :
  (Z.abs (a2 - a1) <= 1 -> Z.abs (b2 - b1) <= 1 ->
     Board.is_path_clear s self a1 b1 a2 b2 = Ok (Some true))
  /\ (a1 ≠ a2 -> b1 ≠ b2 -> Z.abs (a1 - a2) ≠ Z.abs (b1 - b2) ->
      Board.is_path_clear s self a1 b1 a2 b2 = Ok None).
Proof.
  split; [apply is_path_clear_near|].
  intros Ha Hb Hd. unfold Board.is_path_clear.
  rewrite !bool_decide_eq_false_2 by assumption. reflexivity.
Qed.

(** X8.  A king or a snake whose stored position is its cell is never blocked:
    [check_move] accepts exactly its eight neighbours, whatever they hold. *)
Theorem king_is_never_blocked s self from to r fig enemy :
  get_cell s self from = Ok (Some r) ->
  deref s r = Ok fig ->
  cls fig = King \/ cls fig = Snake ->
  position fig = from ->
  get_cell s self to = Ok enemy ->
  Board.check_move s self from to
  = Ok (bool_decide (to ≠ from /\ Z.abs (to.1 - from.1) <= 1 /\ Z.abs (to.2 - from.2) <= 1)).
Proof.
  destruct from as [a1 b1], to as [a2 b2]. cbn [fst snd].
  intros Hfrom Hfig Hk Hpos Hto.
  unfold Board.check_move. rewrite Hfrom, Hto. rsimpl. rewrite Hfig. rsimpl.
  rewrite isinstance_chess_classes, isinstance_leaper.
  rewrite bool_decide_eq_false_2 by (destruct Hk as [-> | ->]; discriminate).
  rewrite bool_decide_eq_false_2 by (destruct Hk as [-> | ->]; intros [?|?]; discriminate).
  cbn [negb]. unfold Board.targets.
  replace (isinstance (Some fig) [Pawn]) with false
    by (unfold isinstance; destruct Hk as [-> | ->]; reflexivity).
  rsimpl.
  assert (Hmoves : get_possible_moves fig = King.get_possible_moves fig)
    by (unfold get_possible_moves; destruct Hk as [-> | ->]; reflexivity).
  rewrite Hmoves. unfold King.get_possible_moves. rewrite Hpos.
  unfold py_in. case_bool_decide as Hin.
  - rewrite is_path_clear_near.
    + rsimpl. cbn [truthy]. symmetry. f_equal. apply bool_decide_eq_true_2.
      apply list_elem_of_In in Hin. cbn in Hin.
      repeat (destruct Hin as [Hin|Hin];
              [injection Hin as <- <-; split; [intros [=]; lia|lia]|]).
      destruct Hin.
    + apply list_elem_of_In in Hin. cbn in Hin.
      repeat (destruct Hin as [Hin|Hin]; [injection Hin as <- <-; lia|]). destruct Hin.
    + apply list_elem_of_In in Hin. cbn in Hin.
      repeat (destruct Hin as [Hin|Hin]; [injection Hin as <- <-; lia|]). destruct Hin.
  - symmetry. f_equal. apply bool_decide_eq_false_2. intros (Hne & Ha & Hb).
    apply Hin. apply list_elem_of_In. cbn.
    assert (Hcases : (a2 = a1 + 1 \/ a2 = a1 \/ a2 = a1 - 1)
                     /\ (b2 = b1 + 1 \/ b2 = b1 \/ b2 = b1 - 1)) by lia.
    destruct Hcases as [[-> | [-> | ->]] [-> | [-> | ->]]]; try (exfalso; apply Hne; reflexivity); tauto.
Qed.

(** X9.  No move from a cell to the same cell is ever accepted, on any board,
    when the figure there stores that cell as its position. *)
Theorem no_move_onto_own_cell s self p r fig :
  get_cell s self p = Ok (Some r) ->
  deref s r = Ok fig ->
  position fig = p ->
  Board.check_move s self p p = Ok false
  /\ CheckersBoard.check_move s self p p = Ok false
  /\ check_move s self p p = Ok false.
Proof.
  destruct p as [a b]. intros Hget Hfig Hpos.
  pose proof (own_position_not_possible fig) as Hown. rewrite Hpos in Hown.
  assert (Hin : py_in (a, b) (get_possible_moves fig) = false)
    by (apply bool_decide_eq_false_2; exact Hown).
  assert (HB : Board.check_move s self (a, b) (a, b) = Ok false).
  { unfold Board.check_move. rewrite Hget. rsimpl. rewrite Hfig. rsimpl.
    destruct (isinstance (Some fig) chess_classes) eqn:Hc; [|reflexivity].
    unfold Board.targets, deref_opt. rewrite Hfig. rsimpl.
    rewrite Hc. rewrite (bool_decide_eq_false_2 (color fig ≠ color fig)) by congruence.
    cbn [andb]. destruct (isinstance (Some fig) [Pawn]); rsimpl; rewrite Hin; reflexivity. }
  assert (HC : CheckersBoard.check_move s self (a, b) (a, b) = Ok false).
  { unfold CheckersBoard.check_move, figure_at, deref_opt. rewrite Hget. rsimpl.
    rewrite Hfig. rsimpl.
    destruct (negb _); [reflexivity|].
    destruct (isinstance (Some fig) [Bishop]); [rewrite Hin; reflexivity|].
    unfold CheckersBoard.is_jump.
    rewrite (bool_decide_eq_false_2 (Z.abs (a - a) = 2)) by lia.
    cbn [andb]. rsimpl. rewrite Hin. reflexivity. }
  split; [exact HB|]. split; [exact HC|].
  unfold check_move. destruct (variant self); assumption.
Qed.

(** X10.  The two-step advance of a pawn from its start row onto an empty cell
    is accepted exactly when the cell it passes over is empty. *)
Theorem pawn_double_step s self c y r fig passed :
  let start := match c with white => 6 | black => 1 end in
  let ahead := match c with white => -1 | black => 1 end in
  0 <= y < 8 ->
  get_cell s self (start, y) = Ok (Some r) ->
  deref s r = Ok fig ->
  cls fig = Pawn -> color fig = c -> position fig = (start, y) ->
  get_cell s self (start + ahead, y) = Ok passed ->
  get_cell s self (start + 2 * ahead, y) = Ok None ->
  Board.check_move s self (start, y) (start + 2 * ahead, y)
  = Ok (bool_decide (passed = None)).
Proof.
  intros start ahead Hy Hfrom Hfig Hpawn Hcol Hpos Hpassed Hto.
  unfold Board.check_move. rewrite Hfrom, Hto. rsimpl. rewrite Hfig. rsimpl.
  rewrite isinstance_chess_classes, isinstance_leaper.
  rewrite bool_decide_eq_false_2 by (rewrite Hpawn; discriminate).
  rewrite bool_decide_eq_false_2 by (rewrite Hpawn; intros [?|?]; discriminate).
  cbn [negb]. unfold Board.targets.
  replace (isinstance (Some fig) [Pawn]) with true
    by (unfold isinstance; rewrite Hpawn; reflexivity).
  cbn [deref_opt]. rsimpl. cbn [isinstance andb]. 
  assert (Hmoves : get_possible_moves fig = [(start + ahead, y); (start + 2 * ahead, y)]).
  { unfold get_possible_moves. rewrite Hpawn, pawn_moves_on_board.
    - rewrite Hpos, Hcol. subst start ahead. destruct c; reflexivity.
    - rewrite Hpos. apply in_bounds_spec. subst start. destruct c; lia. }
  rewrite Hmoves. rsimpl. unfold py_in.
  rewrite (bool_decide_eq_true_2 (_ ∈ _)) by (apply list_elem_of_In; cbn; tauto).
  unfold Board.is_path_clear.
  rewrite (bool_decide_eq_false_2 (start = start + 2 * ahead))
    by (subst start ahead; destruct c; lia).
  rewrite (bool_decide_eq_true_2 (y = y)) by reflexivity.
  replace (py_range (Z.min start (start + 2 * ahead) + 1) (Z.max start (start + 2 * ahead)))
    with [start + ahead] by (subst start ahead; destruct c; reflexivity).
  cbn [fmap list_fmap Board.scan]. rewrite Hpassed. rsimpl.
  destruct passed; reflexivity.
Qed.

Lemma is_path_clear_jump_free s self a1 b1 a2 b2 :
  Z.abs (a2 - a1) = 2 -> Z.abs (b2 - b1) = 2 ->
  get_cell s self ((a1 + a2) `div` 2, (b1 + b2) `div` 2) = Ok None ->
  Board.is_path_clear s self a1 b1 a2 b2 = Ok (Some true).
Proof.
  intros Ha Hb Hmid. unfold Board.is_path_clear.
  rewrite !bool_decide_eq_false_2 by lia.
  rewrite (bool_decide_eq_true_2 (Z.abs (a1 - a2) = Z.abs (b1 - b2))) by lia.
  replace (Z.to_nat (Z.abs (a1 - a2))) with 2%nat by lia.
  cbn [Board.diag_loop].
  set (rs := if bool_decide (a2 > a1) then 1 else -1).
  set (cs := if bool_decide (b2 > b1) then 1 else -1).
  assert (Hr : a1 + rs = (a1 + a2) `div` 2) by (subst rs; case_bool_decide; zdiv).
  assert (Hc : b1 + cs = (b1 + b2) `div` 2) by (subst cs; case_bool_decide; zdiv).
  assert (Hr2 : a1 + rs + rs = a2) by (subst rs; case_bool_decide; lia).
  assert (Hc2 : b1 + cs + cs = b2) by (subst cs; case_bool_decide; lia).
  rewrite Hr2, Hc2, Hr, Hc.
  rewrite (bool_decide_eq_true_2 ((a1 + a2) `div` 2 ≠ a2)) by zdiv.
  cbn [orb]. rewrite Hmid. rsimpl.
  rewrite !bool_decide_eq_false_2 by (intros Hx; apply Hx; reflexivity). reflexivity.
Qed.

(** X11.  On a checkers board a man whose stored position is its cell may jump
    two cells diagonally, in any of the four directions, over any occupied
    cell, and may step onto its two forward diagonals; nothing else is
    accepted, and what the destination holds is never looked at. *)
Theorem man_legality s self a1 b1 a2 b2 r fig :
  wf_grid s (field self) = true ->
  in_bounds (a1, b1) = true -> in_bounds (a2, b2) = true ->
  get_cell s self (a1, b1) = Ok (Some r) ->
  deref s r = Ok fig ->
  cls fig = CheckersFigure ->
  position fig = (a1, b1) ->
  let ahead := match color fig with white => -1 | black => 1 end in
  CheckersBoard.check_move s self (a1, b1) (a2, b2)
  = Ok ((bool_decide (Z.abs (a2 - a1) = 2 /\ Z.abs (b2 - b1) = 2)
         && negb (is_empty s self ((a1 + a2) `div` 2, (b1 + b2) `div` 2)))
        || bool_decide (a2 = a1 + ahead /\ Z.abs (b2 - b1) = 1)).
Proof.
  intros Hwf Hfrom Hto Hget Hfig Hman Hpos ahead.
  pose proof Hfrom as [Ha1 Hb1]%in_bounds_spec.
  pose proof Hto as [Ha2 Hb2]%in_bounds_spec.
  assert (Hin : py_in (a2, b2) (get_possible_moves fig)
                = bool_decide (a2 = a1 + ahead /\ Z.abs (b2 - b1) = 1)).
  { unfold get_possible_moves, CheckersFigure.get_possible_moves, py_in.
    rewrite Hman, Hpos. subst ahead.
    destruct (color fig); apply bool_decide_ext; rewrite list_elem_of_In; cbn;
      split; [intros [[= <- <-]|[[= <- <-]|[]]]; lia | intros [-> Hb];
              assert (b2 = b1 + 1 \/ b2 = b1 - 1) as [-> | ->] by lia; tauto
             |intros [[= <- <-]|[[= <- <-]|[]]]; lia | intros [-> Hb];
              assert (b2 = b1 + 1 \/ b2 = b1 - 1) as [-> | ->] by lia; tauto]. }
  unfold CheckersBoard.check_move, figure_at, deref_opt. rewrite Hget. rsimpl.
  rewrite Hfig. rsimpl.
  replace (isinstance (Some fig) [CheckersFigure; Bishop]) with true
    by (unfold isinstance; rewrite Hman; reflexivity).
  replace (isinstance (Some fig) [Bishop]) with false
    by (unfold isinstance; rewrite Hman; reflexivity).
  cbn [negb]. unfold CheckersBoard.is_jump. rewrite Hin.
  destruct (decide (Z.abs (a2 - a1) = 2 /\ Z.abs (b2 - b1) = 2)) as [[Ha Hb]|Hnj].
  - rewrite (bool_decide_eq_true_2 (Z.abs (a2 - a1) = 2 /\ Z.abs (b2 - b1) = 2))
      by (split; assumption).
    rewrite (bool_decide_eq_true_2 _ Ha), (bool_decide_eq_true_2 _ Hb). cbn [andb].
    rewrite (bool_decide_eq_false_2 (a2 = a1 + ahead /\ _))
      by (subst ahead; destruct (color fig); lia).
    rewrite orb_false_r.
    destruct (get_cell_wf s self ((a1 + a2) `div` 2, (b1 + b2) `div` 2) Hwf) as [m Hm].
    { apply in_bounds_spec. split; zdiv. }
    unfold is_empty. rewrite Hm. destruct m as [m|].
    + rewrite (is_path_clear_jump s self a1 b1 a2 b2 m Ha Hb Hm). reflexivity.
    + assert (Hclear : Board.is_path_clear s self a1 b1 a2 b2 = Ok (Some true))
        by (apply is_path_clear_jump_free; assumption).
      rewrite Hclear. reflexivity.
  - rewrite (bool_decide_eq_false_2 _ Hnj). cbn [andb orb].
    replace (bool_decide (Z.abs (a2 - a1) = 2) && bool_decide (Z.abs (b2 - b1) = 2)) with false.
    2:{ symmetry. apply andb_false_iff.
        destruct (decide (Z.abs (a2 - a1) = 2)); [right|left];
          apply bool_decide_eq_false_2; tauto. }
    rsimpl. case_bool_decide as Hstep; [|reflexivity].
    rewrite is_path_clear_near by (subst ahead; destruct (color fig); lia). reflexivity.
Qed.

(** X12.  On a checkers board a promoted piece whose stored position is its
    cell flies: [check_move] accepts exactly the other cells of the board on
    its two diagonals, whatever stands in between or on the destination. *)
Theorem promoted_piece_flies s self a1 b1 a2 b2 r fig :
  in_bounds (a1, b1) = true ->
  get_cell s self (a1, b1) = Ok (Some r) ->
  deref s r = Ok fig ->
  cls fig = Bishop ->
  position fig = (a1, b1) ->
  CheckersBoard.check_move s self (a1, b1) (a2, b2)
  = Ok (bool_decide (in_bounds (a2, b2) = true
                     /\ Z.abs (a2 - a1) = Z.abs (b2 - b1) /\ a2 ≠ a1)).
Proof.
  intros Hfrom Hget Hfig Hbishop Hpos.
  unfold CheckersBoard.check_move, figure_at, deref_opt. rewrite Hget. rsimpl.
  rewrite Hfig. rsimpl. unfold isinstance. rewrite Hbishop.
  cbn [existsb subclass negb orb andb bool_decide decide_rel].
  unfold get_possible_moves. rewrite Hbishop.
  unfold Bishop.get_possible_moves. rewrite Hpos.
  unfold py_in. f_equal. apply bool_decide_ext.
  apply diagonals_on_board. exact Hfrom.
Qed.

(** X13.  A rook, bishop or queen whose stored position is its cell, between
    two cells of a well-formed board: [check_move] accepts the destination
    exactly when it is another cell of a row or column (rook, queen) or of a
    diagonal (bishop, queen) of the source and every cell strictly between the
    two is empty.  What the destination holds, a figure of the same colour
    included, plays no part. *)
Theorem slider_legality s self a1 b1 a2 b2 r fig :
  wf_grid s (field self) = true ->
  in_bounds (a1, b1) = true -> in_bounds (a2, b2) = true ->
  get_cell s self (a1, b1) = Ok (Some r) ->
  deref s r = Ok fig ->
  cls fig = Rook \/ cls fig = Bishop \/ cls fig = Queen ->
  position fig = (a1, b1) ->
  exists b,
    Board.check_move s self (a1, b1) (a2, b2) = Ok b
    /\ (b = true <->
        (a1, b1) ≠ (a2, b2)
        /\ ((cls fig ≠ Bishop /\ (a1 = a2 \/ b1 = b2))
            \/ (cls fig ≠ Rook /\ Z.abs (a1 - a2) = Z.abs (b1 - b2)))
        /\ forall k, 0 < k < Z.max (Z.abs (a2 - a1)) (Z.abs (b2 - b1)) ->
             get_cell s self (a1 + k * Z.sgn (a2 - a1), b1 + k * Z.sgn (b2 - b1)) = Ok None).
Proof.
  intros Hwf Hfrom Hto Hget Hfig Hcls Hpos.
  pose proof Hfrom as [Ha1 Hb1]%in_bounds_spec.
  pose proof Hto as [Ha2 Hb2]%in_bounds_spec.
  destruct (get_cell_wf s self (a2, b2) Hwf Hto) as [c2 H2].
  set (geometry := (a1, b1) ≠ (a2, b2)
        /\ ((cls fig ≠ Bishop /\ (a1 = a2 \/ b1 = b2))
            \/ (cls fig ≠ Rook /\ Z.abs (a1 - a2) = Z.abs (b1 - b2)))).
  assert (Hin : (a2, b2) ∈ get_possible_moves fig <-> geometry).
  { unfold get_possible_moves, geometry.
    destruct Hcls as [Hc | [Hc | Hc]]; rewrite Hc.
    - unfold Rook.get_possible_moves. rewrite Hpos, lines_elem. split.
      + intros [(? & ? & ->)|(-> & ? & ?)]; (split; [congruence|]); left; (split; [discriminate|]); lia.
      + intros (Hne & [[_ Hl]|[Hx _]]); [|congruence].
        destruct (decide (a1 = a2)) as [->|Hna].
        * right. split; [reflexivity|]. split; [lia|]. intros ->. apply Hne. reflexivity.
        * left. lia.
    - unfold Bishop.get_possible_moves. rewrite Hpos, (diagonals_on_board a1 b1 a2 b2 Hfrom).
      split.
      + intros (_ & Hd & Hne). split; [congruence|]. right. split; [discriminate|lia].
      + intros (Hne & [[Hx _]|[_ Hd]]); [congruence|].
        split; [exact Hto|]. split; [lia|]. intros ->. apply Hne. f_equal. lia.
    - unfold Queen.get_possible_moves. rewrite Hpos, elem_of_app, lines_elem,
        (diagonals_on_board a1 b1 a2 b2 Hfrom). split.
      + intros [[(? & ? & ->)|(-> & ? & ?)]|(_ & Hd & Hne)].
        * split; [congruence|]. left. split; [discriminate|]. lia.
        * split; [congruence|]. left. split; [discriminate|]. lia.
        * split; [congruence|]. right. split; [discriminate|lia].
      + intros (Hne & [[_ Hl]|[_ Hd]]).
        * left. destruct (decide (a1 = a2)) as [->|Hna].
          -- right. split; [reflexivity|]. split; [lia|]. intros ->. apply Hne. reflexivity.
          -- left. lia.
        * right. split; [exact Hto|]. split; [lia|]. intros ->. apply Hne. f_equal. lia. }
  unfold Board.check_move. rewrite Hget, H2. rsimpl. rewrite Hfig. rsimpl.
  rewrite isinstance_chess_classes, isinstance_leaper.
  rewrite bool_decide_eq_false_2 by (destruct Hcls as [-> | [-> | ->]]; discriminate).
  rewrite bool_decide_eq_false_2
    by (destruct Hcls as [-> | [-> | ->]]; intros [?|?]; discriminate).
  cbn [negb]. unfold Board.targets.
  replace (isinstance (Some fig) [Pawn]) with false
    by (unfold isinstance; destruct Hcls as [-> | [-> | ->]]; reflexivity).
  rsimpl. unfold py_in. case_bool_decide as Hmem.
  - apply Hin in Hmem. pose proof Hmem as (Hne & Hline).
    destruct (is_path_clear_spec s self a1 b1 a2 b2 Hwf Hfrom Hto) as (b & -> & Hb);
      [destruct Hline as [[_ [?|?]]|[_ ?]]; tauto|].
    rsimpl. exists b. split; [destruct b; reflexivity|].
    rewrite Hb. fold geometry. tauto.
  - exists false. split; [reflexivity|]. split; [discriminate|].
    intros (Hne & Hline & _). exfalso. apply Hmem, Hin. split; assumption.
Qed.

(** ** Requests inside the board *)

Lemma readable_deref s self p r :
  figures_readable s self = true -> in_bounds p = true ->
  get_cell s self p = Ok (Some r) -> exists fig, deref s r = Ok fig.
Proof.
  intros Hread Hp Hget.
  destruct (figures_readable_spec s self p Hread Hp) as [o Ho].
  unfold figure_at in Ho. rewrite Hget in Ho. cbn [mbind result_bind deref_opt] in Ho.
  destruct (deref s r) as [fig|]; [eauto|discriminate].
Qed.

Lemma readable_deref_opt s self p c :
  figures_readable s self = true -> in_bounds p = true ->
  get_cell s self p = Ok c -> exists o, deref_opt s c = Ok o.
Proof.
  intros Hread Hp Hget.
  destruct (figures_readable_spec s self p Hread Hp) as [o Ho].
  unfold figure_at in Ho. rewrite Hget in Ho. cbn [mbind result_bind] in Ho. eauto.
Qed.

(** X14.  Between two cells of a well-formed board whose cells name figure
    objects, [check_move] of every board class returns a boolean: it raises
    nothing. *)
Theorem check_move_returns_on_the_board s self from to :
  wf_grid s (field self) = true ->
  figures_readable s self = true ->
  in_bounds from = true -> in_bounds to = true ->
  exists b, check_move s self from to = Ok b.
Proof.
  destruct from as [a1 b1], to as [a2 b2]. intros Hwf Hread Hfrom Hto.
  destruct (get_cell_wf s self (a1, b1) Hwf Hfrom) as [c1 H1].
  destruct (get_cell_wf s self (a2, b2) Hwf Hto) as [c2 H2].
  destruct (is_path_clear_returns s self a1 b1 a2 b2 Hwf Hfrom Hto) as [clear Hclear].
  assert (HB : exists b, Board.check_move s self (a1, b1) (a2, b2) = Ok b).
  { unfold Board.check_move. rewrite H1, H2. rsimpl.
    destruct c1 as [r|]; [|eauto].
    destruct (readable_deref s self _ r Hread Hfrom H1) as [fig ->]. rsimpl.
    destruct (isinstance (Some fig) chess_classes); [|eauto].
    assert (Ht : exists ts, Board.targets s fig c2 a1 b1 = Ok ts).
    { unfold Board.targets. destruct (isinstance (Some fig) [Pawn]); [|eauto].
      destruct (readable_deref_opt s self _ c2 Hread Hto H2) as [e ->]. rsimpl.
      destruct (_ && _); eauto. }
    destruct Ht as [ts ->]. rsimpl.
    destruct (py_in (a2, b2) ts); [|eauto].
    destruct (isinstance (Some fig) [Knight; Ghost]); [eauto|].
    rewrite Hclear. rsimpl. destruct (truthy clear); eauto. }
  assert (HC : exists b, CheckersBoard.check_move s self (a1, b1) (a2, b2) = Ok b).
  { unfold CheckersBoard.check_move, figure_at. rewrite H1. rsimpl.
    destruct (readable_deref_opt s self _ c1 Hread Hfrom H1) as [o ->]. rsimpl.
    destruct o as [fig|]; [|eauto].
    destruct (negb _); [eauto|].
    destruct (isinstance (Some fig) [Bishop]); [eauto|].
    unfold CheckersBoard.is_jump. rewrite Hclear.
    destruct (_ && _); rsimpl.
    - destruct (negb (truthy clear)); [eauto|].
      destruct (py_in _ _); rsimpl; eauto.
    - destruct (py_in _ _); rsimpl; eauto. }
  unfold check_move. destruct (variant self); assumption.
Qed.

(** ** Snapshots *)

Lemma omap_cons {A B} (f : A -> option B) (x : A) (l : list A) :
  omap f (x :: l) = match f x with Some y => y :: omap f l | None => omap f l end.
Proof. reflexivity. Qed.

Lemma omap_pointwise {A B} (f g : A -> option B) (l : list A) :
  (forall x, x ∈ l -> f x = g x) -> omap f l = omap g l.
Proof.
  induction l as [|x l IH]; intros H; [reflexivity|].
  rewrite !omap_cons, (H x) by left. rewrite IH; [reflexivity|].
  intros y Hy. apply H. right. exact Hy.
Qed.

(** The copying loop of [save_state]: one fresh row per row of the grid,
    appended to the store in order. *)
Lemma copy_rows_run locs : forall t,
  (forall l, l ∈ locs -> is_Some (rows t !! l)) ->
  mapM (fun l => row ← lift (fun s => row_at s l); alloc_row row) locs t
  = Ok (seq (length (rows t)) (length locs),
        mkStore (figs t) (rows t ++ omap (fun l => rows t !! l) locs) (stdout t)).
Proof.
  induction locs as [|l locs IH]; intros t Hall.
  - cbn. rewrite app_nil_r. destruct t; reflexivity.
  - destruct (Hall l) as [row Hrow]; [left|].
    cbn [mapM].
    erewrite bindM_Ok; cycle 1.
    { erewrite bindM_Ok by (apply lift_Ok; unfold row_at; rewrite Hrow; reflexivity).
      reflexivity. }
    set (t1 := mkStore (figs t) (rows t ++ [row]) (stdout t)).
    assert (Hsame : forall l', l' ∈ locs -> rows t1 !! l' = rows t !! l').
    { intros l' Hl'. destruct (Hall l') as [row' Hrow']; [right; exact Hl'|].
      subst t1. cbn [rows]. rewrite Hrow'. apply lookup_app_l_Some. exact Hrow'. }
    erewrite bindM_Ok; cycle 1.
    { apply IH. intros l' Hl'. rewrite Hsame by exact Hl'. apply Hall. right. exact Hl'. }
    unfold mret, M_ret.
    replace (length (rows t1)) with (S (length (rows t)))
      by (subst t1; cbn [rows]; rewrite length_app; cbn [length]; lia).
    cbn [length seq]. do 2 f_equal.
    subst t1. cbn [figs rows stdout]. f_equal. rewrite <- app_assoc. cbn [app].
    f_equal. rewrite omap_cons, Hrow. f_equal.
    apply omap_pointwise. intros l' Hl'. apply (Hsame l' Hl').
Qed.

Lemma omap_lookup_total {A B} (f : A -> option B) (l : list A) i x :
  (forall y, y ∈ l -> is_Some (f y)) -> l !! i = Some x -> omap f l !! i = f x.
Proof.
  revert i. induction l as [|y l IH]; intros i Hall Hi; [discriminate|].
  rewrite omap_cons. destruct (Hall y) as [z Hz]; [left|]. rewrite Hz.
  destruct i as [|i]; cbn in *.
  - injection Hi as ->. exact (eq_sym Hz).
  - apply IH; [|exact Hi]. intros w Hw. apply Hall. right. exact Hw.
Qed.

Lemma omap_length_total {A B} (f : A -> option B) (l : list A) :
  (forall y, y ∈ l -> is_Some (f y)) -> length (omap f l) = length l.
Proof.
  induction l as [|y l IH]; intros Hall; [reflexivity|].
  rewrite omap_cons. destruct (Hall y) as [z Hz]; [left|]. rewrite Hz. cbn.
  f_equal. apply IH. intros w Hw. apply Hall. right. exact Hw.
Qed.

Lemma grid_get_kept s s' g p c :
  rows_kept s s' -> grid_get s g p = Ok c -> grid_get s' g p = Ok c.
Proof.
  intros Hk. unfold grid_get, row_at. intros H.
  apply bind_Ok_inv in H as (l & -> & H). rsimpl.
  destruct (rows s !! l) as [row|] eqn:Hrow; [|discriminate].
  rewrite (Hk l row Hrow). exact H.
Qed.

Lemma wf_grid_kept s s' g :
  rows_kept s s' -> wf_grid s g = true -> wf_grid s' g = true.
Proof.
  intros Hk (H1 & H2 & H3)%wf_grid_spec. apply wf_grid_spec.
  split; [exact H1|]. split; [exact H2|].
  intros l Hl. destruct (H3 l Hl) as (row & Hrow & Hlen). eauto.
Qed.

Lemma save_state_run self s :
  wf_grid s (field self) = true ->
  exists s',
    Board.save_state self s
    = Ok (mkBoard (variant self) (field self)
                  (history self ++ [seq (length (rows s)) 8]), s')
    /\ figs s' = figs s /\ stdout s' = stdout s
    /\ rows_kept s s'
    /\ wf_grid s' (seq (length (rows s)) 8) = true
    /\ (forall p, in_bounds p = true ->
          grid_get s' (seq (length (rows s)) 8) p = grid_get s (field self) p).
Proof.
  intros Hwf. pose proof Hwf as (Hlen & Hnd & Hrows)%wf_grid_spec.
  assert (Hall : forall l, l ∈ field self -> is_Some (rows s !! l)).
  { intros l Hl. destruct (Hrows l Hl) as (row & -> & _). eauto. }
  set (copies := omap (fun l => rows s !! l) (field self)).
  assert (Hcl : length copies = 8%nat).
  { subst copies. rewrite omap_length_total by exact Hall. exact Hlen. }
  exists (mkStore (figs s) (rows s ++ copies) (stdout s)).
  assert (Hkept : rows_kept s (mkStore (figs s) (rows s ++ copies) (stdout s))).
  { intros l row Hl. cbn [rows]. apply lookup_app_l_Some. exact Hl. }
  assert (Hcopy : forall i l, field self !! i = Some l ->
            (rows s ++ copies) !! (length (rows s) + i)%nat = rows s !! l).
  { intros i l Hi. rewrite lookup_app_r by lia.
    replace (length (rows s) + i - length (rows s))%nat with i by lia.
    subst copies. apply (omap_lookup_total _ _ _ _ Hall Hi). }
  split; [|split; [reflexivity|split; [reflexivity|split; [exact Hkept|split]]]].
  - unfold Board.save_state.
    erewrite bindM_Ok by (apply copy_rows_run; exact Hall).
    rewrite Hlen. reflexivity.
  - apply wf_grid_spec. split; [apply length_seq|]. split; [apply NoDup_seq|].
    intros l Hl. apply elem_of_seq in Hl.
    destruct (lookup_lt_is_Some_2 (field self) (l - length (rows s))) as [l0 Hl0]; [lia|].
    destruct (Hrows l0) as (row & Hrow & Hrl); [eapply list_elem_of_lookup_2; eauto|].
    exists row. split; [|exact Hrl]. cbn [rows].
    replace l with (length (rows s) + (l - length (rows s)))%nat by lia.
    rewrite (Hcopy _ _ Hl0). exact Hrow.
  - intros [a b] Hp. pose proof Hp as [Ha Hb]%in_bounds_spec.
    destruct (grid_get_wf s (field self) a b Hwf Hp)
      as (l & row & c & Hl & Hrow & Hrl & Hc & Hget).
    rewrite Hget. unfold grid_get, row_at, py_getitem. cbn [fst snd rows].
    rewrite length_seq. rewrite py_norm_in_range by lia.
    rewrite lookup_seq_lt by lia. rsimpl.
    rewrite (Hcopy _ _ Hl), Hrow. rsimpl.
    rewrite Hrl. rewrite py_norm_in_range by lia. rewrite Hc. reflexivity.
Qed.

(** ** Applying a move on the chess board *)

Lemma wf_grid_rows s s' g : rows s' = rows s -> wf_grid s' g = wf_grid s g.
Proof. intros H. unfold wf_grid. rewrite H. reflexivity. Qed.

Lemma isinstance_any_class target :
  isinstance target (chess_classes ++ [CheckersFigure])
  = match target with Some _ => true | None => false end.
Proof. destruct target as [f|]; [|reflexivity]. unfold isinstance. destruct (cls f); reflexivity. Qed.

(** The whole run of [Board.make_move] between two different cells of a
    well-formed board. *)
Lemma make_move_run self a1 b1 a2 b2 s r fig target :
  wf_grid s (field self) = true ->
  in_bounds (a1, b1) = true -> in_bounds (a2, b2) = true ->
  (a1, b1) ≠ (a2, b2) ->
  get_cell s self (a1, b1) = Ok (Some r) ->
  deref s r = Ok fig ->
  figure_at s self (a2, b2) = Ok target ->
  let captured := match target with Some _ => true | None => false end in
  let k := kill fig || (captured && bool_decide (cls fig = Snake)) in
  let snap := seq (length (rows s)) 8 in
  exists s',
    Board.make_move self (a1, b1) (a2, b2) s
    = Ok (mkBoard (variant self) (field self) (history self ++ [snap]), s')
    /\ figs s' = <[r := mkFigure (cls fig) (color fig) (a2, b2) k]> (figs s)
    /\ stdout s' = stdout s ++ (if captured then [MsgCapture] else [])
    /\ get_cell s' self (a2, b2) = Ok (Some r)
    /\ get_cell s' self (a1, b1) = Ok None
    /\ (forall q, in_bounds q = true -> q ≠ (a1, b1) -> q ≠ (a2, b2) ->
          get_cell s' self q = get_cell s self q)
    /\ (forall l row, l ∉ field self -> rows s !! l = Some row -> rows s' !! l = Some row)
    /\ wf_grid s' (field self) = true
    /\ wf_grid s' snap = true
    /\ (forall p, in_bounds p = true -> grid_get s' snap p = get_cell s' self p).
Proof.
  intros Hwf Hfrom Hto Hne Hget Hfig Htarget captured k snap.
  apply deref_Some in Hfig.
  assert (Hr : (r < length (figs s))%nat) by (eapply lookup_lt_Some; eauto).
  (* after the report of a capture *)
  set (f1 := mkFigure (cls fig) (color fig) (position fig) k).
  set (s1 := mkStore (<[r := f1]> (figs s)) (rows s)
                     (stdout s ++ (if captured then [MsgCapture] else []))).
  assert (E1 : (if isinstance target (chess_classes ++ [CheckersFigure])
                then print MsgCapture;;
                     fg ← lift (fun s => deref_opt s (Some r));
                     (if isinstance fg [Snake] then set_kill (Some r) true else mret tt)
                else mret tt) s = Ok (tt, s1)).
  { rewrite isinstance_any_class. fold captured. subst s1 f1 k.
    destruct captured.
    - erewrite bindM_Ok by reflexivity.
      erewrite bindM_Ok by (apply lift_Ok; unfold deref_opt, deref; cbn [figs];
                            rewrite Hfig; reflexivity).
      replace (isinstance (Some fig) [Snake]) with (bool_decide (cls fig = Snake))
        by (unfold isinstance; destruct (cls fig); reflexivity).
      cbn [andb]. destruct (bool_decide (cls fig = Snake)).
      + rewrite orb_true_r.
        unfold set_kill. erewrite update_fig_Ok by (cbn [figs]; exact Hfig).
        reflexivity.
      + rewrite orb_false_r. unfold mret, M_ret. do 2 f_equal.
        destruct s as [fs rs os]. cbn [figs rows stdout] in *. f_equal.
        symmetry. apply list_insert_id. rewrite Hfig. destruct fig; reflexivity.
    - cbn [andb]. rewrite orb_false_r, app_nil_r. unfold mret, M_ret. do 2 f_equal.
      destruct s as [fs rs os]. cbn [figs rows stdout] in *. f_equal.
      symmetry. apply list_insert_id. rewrite Hfig. destruct fig; reflexivity. }
  assert (Hwf1 : wf_grid s1 (field self) = true) by (rewrite (wf_grid_rows s); [exact Hwf|reflexivity]).
  destruct (set_cell_wf self (a2, b2) (Some r) s1 Hwf1 Hto)
    as (s2 & E2 & F2 & O2 & L2 & G2 & N2 & R2 & W2).
  set (f3 := mkFigure (cls fig) (color fig) (a2, b2) k).
  set (s3 := mkStore (<[r := f3]> (figs s)) (rows s2) (stdout s2)).
  assert (E3 : set_position (Some r) (a2, b2) s2 = Ok (tt, s3)).
  { unfold set_position. rewrite (update_fig_Ok r _ f1).
    - subst s3 f3. rewrite F2. unfold s1, f1. cbn [figs cls color kill].
      rewrite list_insert_insert_eq. reflexivity.
    - rewrite F2. unfold s1. cbn [figs]. apply list_lookup_insert_eq. exact Hr. }
  assert (Hwf3 : wf_grid s3 (field self) = true)
    by (rewrite (wf_grid_rows s2); [apply W2; exact Hwf1|reflexivity]).
  destruct (set_cell_wf self (a1, b1) None s3 Hwf3 Hfrom)
    as (s4 & E4 & F4 & O4 & L4 & G4 & N4 & R4 & W4).
  assert (Hwf4 : wf_grid s4 (field self) = true) by (apply W4; exact Hwf3).
  destruct (save_state_run self s4 Hwf4) as (s5 & E5 & F5 & O5 & K5 & W5 & C5).
  assert (Hlen : length (rows s4) = length (rows s)).
  { rewrite L4. cbn [rows s3]. rewrite L2. reflexivity. }
  rewrite Hlen in E5, W5, C5. fold snap in E5, W5, C5.
  exists s5.
  assert (Hq : forall q, in_bounds q = true -> get_cell s5 self q = get_cell s4 self q).
  { intros q Hq. destruct (get_cell_wf s4 self q Hwf4 Hq) as [c Hc].
    rewrite Hc. apply (grid_get_kept s4 s5 _ _ _ K5 Hc). }
  split; [|split; [|split; [|split; [|split; [|split; [|split; [|split; [|split]]]]]]]].
  - unfold Board.make_move.
    erewrite bindM_Ok by (apply lift_Ok; exact Hget).
    erewrite bindM_Ok by (apply lift_Ok; exact Htarget).
    erewrite bindM_Ok by exact E1.
    erewrite bindM_Ok by exact E2.
    erewrite bindM_Ok by exact E3.
    erewrite bindM_Ok by exact E4.
    exact E5.
  - rewrite F5, F4. reflexivity.
  - rewrite O5, O4. cbn [stdout s3]. rewrite O2. reflexivity.
  - rewrite Hq by exact Hto. rewrite N4 by (try exact Hto; congruence).
    rewrite (get_cell_rows s2) by reflexivity. exact G2.
  - rewrite Hq by exact Hfrom. exact G4.
  - intros q Hqb Hq1 Hq2. rewrite Hq by exact Hqb. rewrite N4 by assumption.
    rewrite (get_cell_rows s2) by reflexivity. rewrite N2 by assumption.
    apply get_cell_rows. reflexivity.
  - intros l row Hl Hrow. apply K5. rewrite R4 by exact Hl. cbn [rows s3].
    rewrite R2 by exact Hl. exact Hrow.
  - apply (wf_grid_kept s4 s5 _ K5 Hwf4).
  - exact W5.
  - intros p Hp. rewrite C5 by exact Hp. symmetry. apply Hq. exact Hp.
Qed.

Lemma py_getitem_elem {A} (l : list A) i x : py_getitem l i = Ok x -> x ∈ l.
Proof.
  intros (k & _ & Hk)%py_getitem_norm. eapply list_elem_of_lookup_2; eauto.
Qed.

Lemma py_getitem_last {A} (l : list A) x : py_getitem (l ++ [x]) (-1) = Ok x.
Proof.
  apply py_getitem_of_norm with (length l).
  - unfold py_norm. rewrite length_app. cbn [length].
    rewrite bool_decide_eq_false_2 by lia. rewrite bool_decide_eq_true_2 by lia.
    f_equal. lia.
  - rewrite lookup_app_r by lia. rewrite Nat.sub_diag. reflexivity.
Qed.

Lemma grid_get_kept_on s s' g p c :
  (forall l row, l ∈ g -> rows s !! l = Some row -> rows s' !! l = Some row) ->
  grid_get s g p = Ok c -> grid_get s' g p = Ok c.
Proof.
  intros Hk. unfold grid_get, row_at. intros H.
  apply bind_Ok_inv in H as (l & Hl & H). rewrite Hl. rsimpl.
  destruct (rows s !! l) as [row|] eqn:Hrow; [|discriminate].
  rewrite (Hk l row (py_getitem_elem _ _ _ Hl) Hrow). exact H.
Qed.

Lemma same_cells_spec s1 g1 s2 g2 p :
  same_cells s1 g1 s2 g2 = true -> in_bounds p = true ->
  exists c, grid_get s1 g1 p = Ok c /\ grid_get s2 g2 p = Ok c.
Proof.
  unfold same_cells. rewrite forallb_forall. intros H Hp.
  specialize (H p). rewrite <- list_elem_of_In, all_cells_spec in H.
  specialize (H Hp).
  destruct (grid_get s1 g1 p) as [c1|]; [|discriminate].
  destruct (grid_get s2 g2 p) as [c2|]; [|discriminate].
  apply bool_decide_eq_true in H as ->. eauto.
Qed.

Lemma disjoint_grids_spec g1 g2 l :
  disjoint_grids g1 g2 = true -> l ∈ g1 -> l ∉ g2.
Proof.
  unfold disjoint_grids. rewrite forallb_forall. intros H Hl.
  apply list_elem_of_In, H, bool_decide_eq_true in Hl. exact Hl.
Qed.

(** X15.  [Board.make_move] between two different cells of a well-formed
    board, from an occupied cell, returns.  Afterwards the destination holds
    the reference the source held and the source is empty; every other cell is
    as before; the figure object stores the destination and keeps its class
    and colour; no other figure object has changed; and the snapshot that was
    appended to the history reads like the live grid. *)
Theorem chess_move_application self a1 b1 a2 b2 s r fig target :
  wf_grid s (field self) = true ->
  in_bounds (a1, b1) = true -> in_bounds (a2, b2) = true ->
  (a1, b1) ≠ (a2, b2) ->
  get_cell s self (a1, b1) = Ok (Some r) ->
  deref s r = Ok fig ->
  figure_at s self (a2, b2) = Ok target ->
  exists self' s' snap,
    Board.make_move self (a1, b1) (a2, b2) s = Ok (self', s')
    /\ field self' = field self
    /\ history self' = history self ++ [snap]
    /\ get_cell s' self' (a2, b2) = Ok (Some r)
    /\ get_cell s' self' (a1, b1) = Ok None
    /\ (forall q, in_bounds q = true -> q ≠ (a1, b1) -> q ≠ (a2, b2) ->
          get_cell s' self' q = get_cell s self q)
    /\ (exists fig', deref s' r = Ok fig' /\ position fig' = (a2, b2)
                     /\ cls fig' = cls fig /\ color fig' = color fig)
    /\ (forall r', r' ≠ r -> figs s' !! r' = figs s !! r')
    /\ (forall p, in_bounds p = true -> grid_get s' snap p = get_cell s' self' p).
Proof.
  intros Hwf Hfrom Hto Hne Hget Hfig Htarget.
  destruct (make_move_run self a1 b1 a2 b2 s r fig target Hwf Hfrom Hto Hne Hget Hfig Htarget)
    as (s' & E & F & O & G2 & G1 & Gq & K & W1 & W2 & C).
  eexists _, s', _. split; [exact E|]. cbn [field history].
  split; [reflexivity|]. split; [reflexivity|].
  split; [exact G2|]. split; [exact G1|]. split; [exact Gq|].
  split; [|split; [|exact C]].
  - apply deref_Some in Hfig.
    eexists. split; [apply deref_Some; rewrite F; apply list_lookup_insert_eq;
                     eapply lookup_lt_Some; eauto
                    |repeat split; reflexivity].
  - intros r' Hr'. rewrite F. apply list_lookup_insert_ne. congruence.
Qed.

(** X16.  A move followed at once by [undo_move], when the last snapshot
    mirrors the live grid and shares no row with it: every cell reads as
    before the move, but the figure that moved keeps the destination as its
    stored position. *)
Theorem undo_after_move_restores_cells self a1 b1 a2 b2 s r fig target h last :
  wf_grid s (field self) = true ->
  in_bounds (a1, b1) = true -> in_bounds (a2, b2) = true ->
  (a1, b1) ≠ (a2, b2) ->
  get_cell s self (a1, b1) = Ok (Some r) ->
  deref s r = Ok fig ->
  figure_at s self (a2, b2) = Ok target ->
  history self = h ++ [last] ->
  disjoint_grids last (field self) = true ->
  same_cells s last s (field self) = true ->
  exists self' s',
    (Board.make_move self (a1, b1) (a2, b2) ≫= Board.undo_move) s = Ok (self', s')
    /\ field self' = last
    /\ history self' = history self
    /\ (forall q, in_bounds q = true -> get_cell s' self' q = get_cell s self q)
    /\ (exists fig', deref s' r = Ok fig' /\ position fig' = (a2, b2)).
Proof.
  intros Hwf Hfrom Hto Hne Hget Hfig Htarget Hh Hdis Hsame.
  destruct (make_move_run self a1 b1 a2 b2 s r fig target Hwf Hfrom Hto Hne Hget Hfig Htarget)
    as (s1 & E & F & O & G2 & G1 & Gq & K & W1 & W2 & C).
  set (s2 := mkStore (figs s1) (rows s1) (stdout s1 ++ [MsgUndone])).
  exists (mkBoard (variant self) last (h ++ [last])), s2.
  split; [|split; [reflexivity|split; [symmetry; exact Hh|split]]].
  - erewrite bindM_Ok by exact E.
    unfold Board.undo_move. cbn [history variant]. rewrite Hh.
    rewrite bool_decide_eq_true_2 by (rewrite !length_app; cbn [length]; lia).
    rewrite removelast_last.
    erewrite bindM_Ok by (apply lift_Ok, py_getitem_last).
    erewrite bindM_Ok by reflexivity. reflexivity.
  - intros q Hq.
    destruct (same_cells_spec _ _ _ _ q Hsame Hq) as (c & Hlast & Hlive).
    unfold get_cell at 2. rewrite Hlive.
    unfold get_cell. cbn [field].
    apply (grid_get_kept_on s). 2: exact Hlast.
    intros l row Hl Hrow. cbn [rows s2]. apply K; [|exact Hrow].
    eapply disjoint_grids_spec; eauto.
  - apply deref_Some in Hfig.
    eexists. split; [apply deref_Some; cbn [figs s2]; rewrite F;
                     apply list_lookup_insert_eq; eapply lookup_lt_Some; eauto
                    |reflexivity].
Qed.

(** ** Snapshots and the invariant of the board *)

Lemma fresh_rows_are_disjoint s g n :
  wf_grid s g = true -> disjoint_grids (seq (length (rows s)) n) g = true.
Proof.
  intros (_ & _ & Hrows)%wf_grid_spec. unfold disjoint_grids.
  apply forallb_forall. intros l Hl%list_elem_of_In%elem_of_seq.
  apply bool_decide_eq_true_2. intros Hin.
  destruct (Hrows l Hin) as (row & Hrow%lookup_lt_Some & _). lia.
Qed.

Lemma same_cells_intro s1 g1 s2 g2 :
  (forall p, in_bounds p = true ->
     exists c, grid_get s1 g1 p = Ok c /\ grid_get s2 g2 p = Ok c) ->
  same_cells s1 g1 s2 g2 = true.
Proof.
  intros H. unfold same_cells. apply forallb_forall.
  intros p Hp%list_elem_of_In%all_cells_spec.
  destruct (H p Hp) as (c & -> & ->). apply bool_decide_eq_true_2. reflexivity.
Qed.

Lemma figures_readable_intro s self :
  (forall p, in_bounds p = true -> exists o, figure_at s self p = Ok o) ->
  figures_readable s self = true.
Proof.
  intros H. unfold figures_readable. apply forallb_forall.
  intros p Hp%list_elem_of_In%all_cells_spec.
  destruct (H p Hp) as (o & ->). reflexivity.
Qed.

(** X17.  [save_state] appends a snapshot that reads like the live grid, and
    no later write to a cell of the live grid changes what the snapshot holds:
    the rows are copied.  (The figure objects are not.) *)
Theorem snapshot_survives_later_writes self s p v :
  wf_grid s (field self) = true ->
  in_bounds p = true ->
  exists self' s1 snap s2,
    Board.save_state self s = Ok (self', s1)
    /\ field self' = field self
    /\ history self' = history self ++ [snap]
    /\ (forall q, in_bounds q = true -> grid_get s1 snap q = get_cell s self q)
    /\ set_cell self' p v s1 = Ok (tt, s2)
    /\ get_cell s2 self' p = Ok v
    /\ (forall q, in_bounds q = true -> grid_get s2 snap q = get_cell s self q).
Proof.
  intros Hwf Hp.
  destruct (save_state_run self s Hwf) as (s1 & E & F & O & K & W & C).
  set (snap := seq (length (rows s)) 8) in *.
  set (self' := mkBoard (variant self) (field self) (history self ++ [snap])) in *.
  assert (Hwf1 : wf_grid s1 (field self') = true) by (apply (wf_grid_kept s s1 _ K Hwf)).
  destruct (set_cell_wf self' p v s1 Hwf1 Hp) as (s2 & E2 & F2 & O2 & L2 & G2 & N2 & R2 & W2).
  exists self', s1, snap, s2.
  split; [exact E|]. split; [reflexivity|]. split; [reflexivity|].
  split; [exact C|]. split; [exact E2|]. split; [exact G2|].
  intros q Hq.
  destruct (get_cell_wf s self q Hwf Hq) as [c Hc]. rewrite Hc.
  pose proof (C q Hq) as Hs. unfold get_cell in Hc. rewrite Hc in Hs.
  apply (grid_get_kept_on s1); [|exact Hs].
  intros l row Hl Hrow. rewrite R2; [exact Hrow|].
  eapply disjoint_grids_spec; [|exact Hl]. apply fresh_rows_are_disjoint. exact Hwf.
Qed.

(** X18.  The three properties the theorems about moves assume of a board are
    an invariant of [Board.make_move]: after a move from an occupied cell to
    another cell the live grid is well formed, every cell names a figure
    object, and the last snapshot is a grid of its own that mirrors the live
    grid. *)
Theorem make_move_keeps_the_board_sound self a1 b1 a2 b2 s r :
  wf_grid s (field self) = true ->
  figures_readable s self = true ->
  in_bounds (a1, b1) = true -> in_bounds (a2, b2) = true ->
  (a1, b1) ≠ (a2, b2) ->
  get_cell s self (a1, b1) = Ok (Some r) ->
  exists self' s',
    Board.make_move self (a1, b1) (a2, b2) s = Ok (self', s')
    /\ wf_grid s' (field self') = true
    /\ figures_readable s' self' = true
    /\ snapshot_ok s' self' = true.
Proof.
  intros Hwf Hread Hfrom Hto Hne Hget.
  destruct (figures_readable_spec s self (a1, b1) Hread Hfrom) as [o Ho].
  unfold figure_at in Ho. rewrite Hget in Ho. cbn [mbind result_bind] in Ho.
  unfold deref_opt in Ho.
  destruct (deref s r) as [fig|] eqn:Hfig; [|discriminate]. clear o Ho.
  destruct (figures_readable_spec s self (a2, b2) Hread Hto) as [target Htarget].
  destruct (make_move_run self a1 b1 a2 b2 s r fig target Hwf Hfrom Hto Hne Hget Hfig Htarget)
    as (s' & E & F & O & G2 & G1 & Gq & K & W1 & W2 & C).
  eexists _, s'. split; [exact E|]. cbn [field history].
  split; [exact W1|]. split.
  - apply deref_Some in Hfig.
    assert (Hr : (r < length (figs s))%nat) by (eapply lookup_lt_Some; eauto).
    assert (Hderef : forall x f, deref s x = Ok f -> exists f', deref s' x = Ok f').
    { intros x f Hx%deref_Some.
      destruct (lookup_lt_is_Some_2 (figs s') x) as [f' Hf'].
      - rewrite F, length_insert. eapply lookup_lt_Some; eauto.
      - exists f'. apply deref_Some. exact Hf'. }
    apply figures_readable_intro. intros q Hq.
    unfold figure_at, get_cell. cbn [field].
    change (grid_get s' (field self) q) with (get_cell s' self q).
    destruct (decide (q = (a2, b2))) as [->|Hq2].
    + rewrite G2. rsimpl. unfold deref_opt.
      destruct (Hderef r fig) as [f' ->]; [apply deref_Some; exact Hfig|]. rsimpl. eauto.
    + destruct (decide (q = (a1, b1))) as [->|Hq1].
      * rewrite G1. rsimpl. eauto.
      * rewrite Gq by assumption.
        destruct (figures_readable_spec s self q Hread Hq) as [o Ho].
        unfold figure_at in Ho.
        destruct (get_cell s self q) as [[x|]|]; try discriminate; rsimpl; [|eauto].
        cbn [mbind result_bind] in Ho. unfold deref_opt in *.
        destruct (deref s x) as [f|] eqn:Hx; [|discriminate].
        destruct (Hderef x f Hx) as [f' ->]. rsimpl. eauto.
  - unfold snapshot_ok. cbn [history field]. rewrite last_snoc.
    rewrite W2. cbn [andb].
    replace (disjoint_grids (seq (length (rows s)) 8) (field self)) with true
      by (symmetry; apply fresh_rows_are_disjoint; exact Hwf).
    cbn [andb]. apply same_cells_intro. intros p Hp.
    destruct (get_cell_wf s' self p W1 Hp) as [c Hc].
    exists c. split; [rewrite C by exact Hp; exact Hc|exact Hc].
Qed.

(** X19.  [make_move] of every board class from an empty cell raises
    [AttributeError]: the destination is overwritten with [None] and the next
    statement assigns to [figure.position] of [None]. *)
Theorem make_move_from_an_empty_cell_raises s self from to :
  wf_grid s (field self) = true ->
  figures_readable s self = true ->
  in_bounds from = true -> in_bounds to = true ->
  get_cell s self from = Ok None ->
  make_move self from to s = Raise AttributeError.
Proof.
  destruct from as [a1 b1], to as [a2 b2]. intros Hwf Hread Hfrom Hto Hget.
  destruct (figures_readable_spec s self (a2, b2) Hread Hto) as [target Htarget].
  destruct (is_path_clear_returns s self a1 b1 a2 b2 Hwf Hfrom Hto) as [clear Hclear].
  assert (Hset : forall s1, rows s1 = rows s ->
            exists s2, set_cell self (a2, b2) None s1 = Ok (tt, s2)).
  { intros s1 Hrows.
    destruct (set_cell_wf self (a2, b2) None s1) as (s2 & E & _); [|exact Hto|eauto].
    rewrite (wf_grid_rows s) by exact Hrows. exact Hwf. }
  assert (HB : Board.make_move self (a1, b1) (a2, b2) s = Raise AttributeError).
  { unfold Board.make_move.
    erewrite bindM_Ok by (apply lift_Ok; exact Hget).
    erewrite bindM_Ok by (apply lift_Ok; exact Htarget).
    destruct (isinstance target _).
    - destruct (Hset (mkStore (figs s) (rows s) (stdout s ++ [MsgCapture])) eq_refl)
        as [s2 E2].
      erewrite bindM_Ok; cycle 1.
      { erewrite bindM_Ok by reflexivity.
        erewrite bindM_Ok by reflexivity. reflexivity. }
      erewrite bindM_Ok by exact E2. reflexivity.
    - destruct (Hset s eq_refl) as [s2 E2].
      erewrite bindM_Ok by reflexivity.
      erewrite bindM_Ok by exact E2. reflexivity. }
  assert (HC : CheckersBoard.make_move self (a1, b1) (a2, b2) s = Raise AttributeError).
  { unfold CheckersBoard.make_move.
    erewrite bindM_Ok by (apply lift_Ok; exact Hget).
    erewrite bindM_Ok by reflexivity.
    erewrite bindM_Ok by (apply lift_Ok; exact Hclear).
    destruct (Hset s eq_refl) as [s2 E2].
    erewrite bindM_Ok by (destruct (negb (truthy clear)); reflexivity).
    erewrite bindM_Ok by exact E2. reflexivity. }
  unfold make_move. destruct (variant self); [exact HB| |exact HB].
  unfold mbind, M_bind. rewrite HC. reflexivity.
Qed.

(** ** Castling for either colour *)

Lemma is_path_clear_king_rook s self row :
  Board.is_path_clear s self row 4 row 7
  = (c5 ← get_cell s self (row, 5);
     match c5 with
     | Some _ => Ok (Some false)
     | None => c6 ← get_cell s self (row, 6);
               match c6 with Some _ => Ok (Some false) | None => Ok (Some true) end
     end).
Proof.
  unfold Board.is_path_clear. rewrite bool_decide_eq_true_2 by reflexivity.
  change (py_range (Z.min 4 7 + 1) (Z.max 4 7)) with [5; 6].
  cbn [fmap list_fmap Board.scan].
  destruct (get_cell s self (row, 5)) as [[?|]|]; rsimpl; try reflexivity.
  destruct (get_cell s self (row, 6)) as [[?|]|]; reflexivity.
Qed.

(** X20.  [if_rock_possible] answers [True] only with an instance of [King] (a
    king or a snake) of the colour on column 4 of the row the method uses for
    the colour (row 0 for white, row 7 for black), a rook of the colour on
    column 7 of that row, and nothing on its columns 5 and 6. *)
Theorem castling_offer_needs_king_and_rook s self c :
  let row := match c with white => 0 | black => 7 end in
  Board.if_rock_possible s self c = Ok true ->
  exists kf rf,
    figure_at s self (row, 4) = Ok (Some kf)
    /\ (cls kf = King \/ cls kf = Snake) /\ color kf = c
    /\ figure_at s self (row, 7) = Ok (Some rf)
    /\ cls rf = Rook /\ color rf = c
    /\ get_cell s self (row, 5) = Ok None
    /\ get_cell s self (row, 6) = Ok None.
Proof.
  intros row H.
  assert (Hc : Board.rock_condition s self c row = Ok true)
    by (subst row; destruct c; exact H).
  clear H. unfold Board.rock_condition in Hc.
  destruct (figure_at s self (row, 4)) as [[kf|]|] eqn:Hk; cbn [mbind result_bind mret result_ret fst snd] in Hc; try discriminate.
  destruct (isinstance (Some kf) [King]) eqn:Hik; cbn [andb] in Hc; [|discriminate].
  case_bool_decide as Hkc; [|discriminate].
  destruct (figure_at s self (row, 7)) as [[rf|]|] eqn:Hr; cbn [mbind result_bind mret result_ret fst snd] in Hc; try discriminate.
  destruct (isinstance (Some rf) [Rook]) eqn:Hir; cbn [andb] in Hc; [|discriminate].
  case_bool_decide as Hrc; [|discriminate].
  rewrite is_path_clear_king_rook in Hc.
  destruct (get_cell s self (row, 5)) as [[?|]|]; cbn [mbind result_bind mret result_ret fst snd] in Hc; try discriminate.
  destruct (get_cell s self (row, 6)) as [[?|]|]; cbn [mbind result_bind mret result_ret fst snd] in Hc; try discriminate.
  exists kf, rf. repeat split; try assumption; try reflexivity.
  - unfold isinstance in Hik. destruct (cls kf); try discriminate; tauto.
  - unfold isinstance in Hir. destruct (cls rf); try discriminate; reflexivity.
Qed.

(** X21.  With those figures in place, for black on row 7 as for white on row
    0, and with a snake as well as with a king, castling is offered, and
    [rock] moves the two references along the row without touching any figure
    object: the stored positions stay those of columns 4 and 7. *)
Theorem castling_for_either_colour s self c k kf r rf :
  let row := match c with white => 0 | black => 7 end in
  get_cell s self (row, 4) = Ok (Some k) -> deref s k = Ok kf ->
  cls kf = King \/ cls kf = Snake -> color kf = c ->
  get_cell s self (row, 7) = Ok (Some r) -> deref s r = Ok rf ->
  cls rf = Rook -> color rf = c ->
  get_cell s self (row, 5) = Ok None ->
  get_cell s self (row, 6) = Ok None ->
  Board.if_rock_possible s self c = Ok true
  /\ exists s',
       Board.rock self c s = Ok (tt, s')
       /\ figure_at s' self (row, 6) = Ok (Some kf)
       /\ figure_at s' self (row, 5) = Ok (Some rf)
       /\ get_cell s' self (row, 4) = Ok None
       /\ get_cell s' self (row, 7) = Ok None
       /\ figs s' = figs s.
Proof.
  intros row Hk Hkf Hking Hkc Hr Hrf Hrook Hrc H5 H6. split.
  - assert (Hc : Board.rock_condition s self c row = Ok true).
    { unfold Board.rock_condition, figure_at, deref_opt.
      rewrite Hk. rsimpl. rewrite Hkf. rsimpl.
      replace (isinstance (Some kf) [King]) with true
        by (unfold isinstance; destruct Hking as [-> | ->]; reflexivity).
      rewrite (bool_decide_eq_true_2 _ Hkc). cbn [andb].
      rewrite Hr. rsimpl. rewrite Hrf. rsimpl.
      replace (isinstance (Some rf) [Rook]) with true
        by (unfold isinstance; rewrite Hrook; reflexivity).
      rewrite (bool_decide_eq_true_2 _ Hrc). cbn [andb].
      rewrite is_path_clear_king_rook, H5. rsimpl. rewrite H6. reflexivity. }
    subst row. destruct c; exact Hc.
  - destruct (set_cell_Ok self (row, 6) (Some k) s _ H6) as [s1 E1].
    assert (G1 : forall q, 0 <= q.2 -> q.2 ≠ 6 -> get_cell s1 self q = get_cell s self q).
    { intros q ? ?. eapply get_set_cell_other; [exact E1| | |]; simpl; lia. }
    assert (Hk1 : get_cell s1 self (row, 4) = Ok (Some k)) by (rewrite G1; simpl; [done|lia|lia]).
    destruct (set_cell_Ok self (row, 4) None s1 _ Hk1) as [s2 E2].
    assert (G2 : forall q, 0 <= q.2 -> q.2 ≠ 4 -> get_cell s2 self q = get_cell s1 self q).
    { intros q ? ?. eapply get_set_cell_other; [exact E2| | |]; simpl; lia. }
    assert (Hr2 : get_cell s2 self (row, 7) = Ok (Some r))
      by (rewrite G2, G1; simpl; [done|lia..]).
    assert (H52 : get_cell s2 self (row, 5) = Ok None)
      by (rewrite G2, G1; simpl; [done|lia..]).
    destruct (set_cell_Ok self (row, 5) (Some r) s2 _ H52) as [s3 E3].
    assert (G3 : forall q, 0 <= q.2 -> q.2 ≠ 5 -> get_cell s3 self q = get_cell s2 self q).
    { intros q ? ?. eapply get_set_cell_other; [exact E3| | |]; simpl; lia. }
    assert (Hr3 : get_cell s3 self (row, 7) = Ok (Some r)) by (rewrite G3; simpl; [done|lia..]).
    destruct (set_cell_Ok self (row, 7) None s3 _ Hr3) as [s4 E4].
    assert (G4 : forall q, 0 <= q.2 -> q.2 ≠ 7 -> get_cell s4 self q = get_cell s3 self q).
    { intros q ? ?. eapply get_set_cell_other; [exact E4| | |]; simpl; lia. }
    assert (F : figs s4 = figs s).
    { rewrite (set_cell_figs _ _ _ _ _ E4), (set_cell_figs _ _ _ _ _ E3),
        (set_cell_figs _ _ _ _ _ E2), (set_cell_figs _ _ _ _ _ E1). reflexivity. }
    assert (D : forall x, deref s4 x = deref s x) by (intros x; unfold deref; rewrite F; reflexivity).
    exists s4. split; [|split; [|split; [|split; [|split]]]].
    + assert (Hrun : Board.rock self c s
                     = (k' ← lift (fun s => get_cell s self (row, 4));
                        set_cell self (row, 6) k';;
                        set_cell self (row, 4) None;;
                        r' ← lift (fun s => get_cell s self (row, 7));
                        set_cell self (row, 5) r';;
                        set_cell self (row, 7) None) s)
        by (subst row; destruct c; reflexivity).
      rewrite Hrun.
      erewrite bindM_Ok by (apply lift_Ok; exact Hk).
      erewrite bindM_Ok by exact E1.
      erewrite bindM_Ok by exact E2.
      erewrite bindM_Ok by (apply lift_Ok; exact Hr2).
      erewrite bindM_Ok by exact E3.
      exact E4.
    + unfold figure_at. rewrite G4, G3, G2 by (simpl; lia).
      rewrite (get_set_cell_same _ _ _ _ _ E1). rsimpl.
      unfold deref_opt. rewrite D, Hkf. reflexivity.
    + unfold figure_at. rewrite G4 by (simpl; lia).
      rewrite (get_set_cell_same _ _ _ _ _ E3). rsimpl.
      unfold deref_opt. rewrite D, Hrf. reflexivity.
    + rewrite G4, G3 by (simpl; lia). eapply get_set_cell_same, E2.
    + eapply get_set_cell_same, E4.
    + exact F.
Qed.

(** ** Applying a move on the checkers board *)

(** The part of [CheckersBoard.make_move] after the capture: the reference
    goes to the destination, the object gets the new position, the source is
    emptied, and on the far row a fresh [Bishop] takes the destination. *)
Lemma checkers_tail_run self a1 b1 a2 b2 s1 r f1 :
  wf_grid s1 (field self) = true ->
  in_bounds (a1, b1) = true -> in_bounds (a2, b2) = true ->
  (a1, b1) ≠ (a2, b2) ->
  figs s1 !! r = Some f1 ->
  let f2 := mkFigure (cls f1) (color f1) (a2, b2) (kill f1) in
  let promo := promotes f1 a2 in
  exists s',
    (set_cell self (a2, b2) (Some r);;
     set_position (Some r) (a2, b2);;
     set_cell self (a1, b1) None;;
     moved ← lift (fun s => deref_opt s (Some r));
     match moved with
     | None => throw AttributeError
     | Some f =>
         if (bool_decide (color f = white) && bool_decide (a2 = 0))
            || (bool_decide (color f = black) && bool_decide (a2 = 7))
         then
           place self (a2, b2) Bishop (color f) (a2, b2);;
           print (MsgPromoted (color f))
         else mret tt
     end) s1 = Ok (tt, s')
    /\ figs s' = <[r := f2]> (figs s1)
                 ++ (if promo then [mkFigure Bishop (color f1) (a2, b2) false] else [])
    /\ stdout s' = stdout s1 ++ (if promo then [MsgPromoted (color f1)] else [])
    /\ get_cell s' self (a2, b2) = Ok (Some (if promo then length (figs s1) else r))
    /\ get_cell s' self (a1, b1) = Ok None
    /\ (forall q, in_bounds q = true -> q ≠ (a1, b1) -> q ≠ (a2, b2) ->
          get_cell s' self q = get_cell s1 self q)
    /\ wf_grid s' (field self) = true.
Proof.
  intros Hwf Hfrom Hto Hne Hfig f2 promo.
  assert (Hr : (r < length (figs s1))%nat) by (eapply lookup_lt_Some; eauto).
  destruct (set_cell_wf self (a2, b2) (Some r) s1 Hwf Hto)
    as (s2 & E2 & F2 & O2 & L2 & G2 & N2 & R2 & W2).
  set (s3 := mkStore (<[r := f2]> (figs s1)) (rows s2) (stdout s2)).
  assert (E3 : set_position (Some r) (a2, b2) s2 = Ok (tt, s3)).
  { unfold set_position. rewrite (update_fig_Ok r _ f1) by (rewrite F2; exact Hfig).
    subst s3 f2. rewrite F2. reflexivity. }
  assert (Hwf3 : wf_grid s3 (field self) = true)
    by (rewrite (wf_grid_rows s2); [apply W2; exact Hwf|reflexivity]).
  destruct (set_cell_wf self (a1, b1) None s3 Hwf3 Hfrom)
    as (s4 & E4 & F4 & O4 & L4 & G4 & N4 & R4 & W4).
  assert (Hwf4 : wf_grid s4 (field self) = true) by (apply W4; exact Hwf3).
  assert (Hf4 : figs s4 !! r = Some f2).
  { rewrite F4. cbn [figs s3]. apply list_lookup_insert_eq. exact Hr. }
  assert (Hto4 : get_cell s4 self (a2, b2) = Ok (Some r)).
  { rewrite N4 by (try exact Hto; congruence).
    rewrite (get_cell_rows s2) by reflexivity. exact G2. }
  assert (Hq4 : forall q, in_bounds q = true -> q ≠ (a1, b1) -> q ≠ (a2, b2) ->
                          get_cell s4 self q = get_cell s1 self q).
  { intros q Hqb Hq1 Hq2. rewrite N4 by assumption.
    rewrite (get_cell_rows s2) by reflexivity. apply N2; assumption. }
  assert (Hpromo : (bool_decide (color f2 = white) && bool_decide (a2 = 0))
                   || (bool_decide (color f2 = black) && bool_decide (a2 = 7)) = promo)
    by reflexivity.
  assert (Hrun :
    (set_cell self (a2, b2) (Some r);;
     set_position (Some r) (a2, b2);;
     set_cell self (a1, b1) None;;
     moved ← lift (fun s => deref_opt s (Some r));
     match moved with
     | None => throw AttributeError
     | Some f =>
         if (bool_decide (color f = white) && bool_decide (a2 = 0))
            || (bool_decide (color f = black) && bool_decide (a2 = 7))
         then
           place self (a2, b2) Bishop (color f) (a2, b2);;
           print (MsgPromoted (color f))
         else mret tt
     end) s1
    = (if promo
       then place self (a2, b2) Bishop (color f1) (a2, b2);;
            print (MsgPromoted (color f1))
       else mret tt) s4).
  { erewrite bindM_Ok by exact E2.
    erewrite bindM_Ok by exact E3.
    erewrite bindM_Ok by exact E4.
    erewrite bindM_Ok by (apply lift_Ok; unfold deref_opt, deref; rewrite Hf4; reflexivity).
    cbv beta iota. rewrite Hpromo. reflexivity. }
  rewrite Hrun. clear Hrun.
  assert (Hlen4 : length (figs s4) = length (figs s1))
    by (rewrite F4; cbn [figs s3]; apply length_insert).
  destruct promo.
  - set (s5 := mkStore (figs s4 ++ [mkFigure Bishop (color f1) (a2, b2) false])
                       (rows s4) (stdout s4)).
    assert (Hwf5 : wf_grid s5 (field self) = true)
      by (rewrite (wf_grid_rows s4); [exact Hwf4|reflexivity]).
    destruct (set_cell_wf self (a2, b2) (Some (length (figs s4))) s5 Hwf5 Hto)
      as (s6 & E6 & F6 & O6 & L6 & G6 & N6 & R6 & W6).
    exists (mkStore (figs s6) (rows s6) (stdout s6 ++ [MsgPromoted (color f1)])).
    split; [|split; [|split; [|split; [|split; [|split]]]]].
    + erewrite bindM_Ok; cycle 1.
      { unfold place. erewrite bindM_Ok by reflexivity. exact E6. }
      reflexivity.
    + cbn [figs]. rewrite F6. cbn [figs s5]. rewrite F4. reflexivity.
    + cbn [stdout]. rewrite O6. cbn [stdout s5]. rewrite O4. cbn [stdout s3].
      rewrite O2. reflexivity.
    + rewrite (get_cell_rows s6) by reflexivity. rewrite G6, Hlen4. reflexivity.
    + rewrite (get_cell_rows s6) by reflexivity. rewrite N6 by (try exact Hfrom; exact Hne).
      rewrite (get_cell_rows s4) by reflexivity. exact G4.
    + intros q Hqb Hq1 Hq2. rewrite (get_cell_rows s6) by reflexivity.
      rewrite N6 by assumption. rewrite (get_cell_rows s4) by reflexivity.
      apply Hq4; assumption.
    + rewrite (wf_grid_rows s6) by reflexivity. apply W6. exact Hwf5.
  - exists s4. split; [reflexivity|].
    split; [rewrite app_nil_r; exact F4|].
    split; [rewrite app_nil_r, O4; cbn [stdout s3]; exact O2|].
    split; [exact Hto4|]. split; [exact G4|]. split; [exact Hq4|exact Hwf4].
Qed.

Lemma mid_in_bounds a1 b1 a2 b2 :
  in_bounds (a1, b1) = true -> in_bounds (a2, b2) = true ->
  in_bounds ((a1 + a2) `div` 2, (b1 + b2) `div` 2) = true.
Proof.
  intros [? ?]%in_bounds_spec [? ?]%in_bounds_spec. apply in_bounds_spec. split; zdiv.
Qed.

Lemma mid_is_apart s self a1 b1 a2 b2 clear :
  Board.is_path_clear s self a1 b1 a2 b2 = Ok clear ->
  truthy clear = false ->
  ((a1 + a2) `div` 2, (b1 + b2) `div` 2) ≠ (a1, b1)
  /\ ((a1 + a2) `div` 2, (b1 + b2) `div` 2) ≠ (a2, b2).
Proof.
  intros Hclear Hfalse.
  assert (Hfar : ~ (Z.abs (a2 - a1) <= 1 /\ Z.abs (b2 - b1) <= 1)).
  { intros [Ha Hb]. rewrite is_path_clear_near in Hclear by assumption.
    injection Hclear as <-. discriminate. }
  split; intros [= Hx Hy]; apply Hfar; split; zdiv.
Qed.

(** The whole run of [CheckersBoard.make_move] for a man. *)
Lemma checkers_man_run self a1 b1 a2 b2 s r fig clear :
  wf_grid s (field self) = true ->
  in_bounds (a1, b1) = true -> in_bounds (a2, b2) = true ->
  (a1, b1) ≠ (a2, b2) ->
  get_cell s self (a1, b1) = Ok (Some r) ->
  deref s r = Ok fig ->
  cls fig = CheckersFigure ->
  Board.is_path_clear s self a1 b1 a2 b2 = Ok clear ->
  let jump := negb (truthy clear) in
  let mid := ((a1 + a2) `div` 2, (b1 + b2) `div` 2) in
  let promo := promotes fig a2 in
  exists s',
    CheckersBoard.make_move self (a1, b1) (a2, b2) s = Ok (tt, s')
    /\ figs s' = <[r := mkFigure (cls fig) (color fig) (a2, b2) (kill fig || jump)]> (figs s)
                 ++ (if promo then [mkFigure Bishop (color fig) (a2, b2) false] else [])
    /\ stdout s' = stdout s ++ (if jump then [MsgCapture] else [])
                            ++ (if promo then [MsgPromoted (color fig)] else [])
    /\ get_cell s' self (a2, b2) = Ok (Some (if promo then length (figs s) else r))
    /\ get_cell s' self (a1, b1) = Ok None
    /\ (jump = true -> get_cell s' self mid = Ok None)
    /\ (forall q, in_bounds q = true -> q ≠ (a1, b1) -> q ≠ (a2, b2) ->
          (jump = true -> q ≠ mid) -> get_cell s' self q = get_cell s self q)
    /\ wf_grid s' (field self) = true.
Proof.
  intros Hwf Hfrom Hto Hne Hget Hfig Hman Hclear jump mid promo.
  apply deref_Some in Hfig.
  assert (Hr : (r < length (figs s))%nat) by (eapply lookup_lt_Some; eauto).
  assert (Hinst : isinstance (Some fig) [CheckersFigure] = true)
    by (unfold isinstance; rewrite Hman; reflexivity).
  destruct (truthy clear) eqn:Htr; subst jump; cbn [negb].
  - (* the path is clear: no capture *)
    destruct (checkers_tail_run self a1 b1 a2 b2 s r fig Hwf Hfrom Hto Hne Hfig)
      as (s' & E & F & O & G2 & G1 & Gq & W).
    exists s'. split; [|split; [|split; [|split; [|split; [|split; [|split]]]]]].
    + unfold CheckersBoard.make_move.
      erewrite bindM_Ok by (apply lift_Ok; exact Hget).
      erewrite bindM_Ok by (apply lift_Ok; unfold deref_opt, deref; rewrite Hfig; reflexivity).
      erewrite bindM_Ok by (apply lift_Ok; exact Hclear).
      rewrite Htr. cbn [negb].
      erewrite bindM_Ok by reflexivity.
      exact E.
    + rewrite F, orb_false_r. reflexivity.
    + rewrite O. reflexivity.
    + exact G2.
    + exact G1.
    + discriminate.
    + intros q Hq H1 H2 _. apply Gq; assumption.
    + exact W.
  - (* the path is not clear: the man captures *)
    destruct (mid_is_apart s self a1 b1 a2 b2 clear Hclear Htr) as [Hm1 Hm2].
    fold mid in Hm1, Hm2.
    pose proof (mid_in_bounds a1 b1 a2 b2 Hfrom Hto) as Hmid. fold mid in Hmid.
    set (fk := mkFigure (cls fig) (color fig) (position fig) true).
    set (s1 := mkStore (<[r := fk]> (figs s)) (rows s) (stdout s ++ [MsgCapture])).
    assert (Hwf1 : wf_grid s1 (field self) = true)
      by (rewrite (wf_grid_rows s); [exact Hwf|reflexivity]).
    destruct (set_cell_wf self mid None s1 Hwf1 Hmid)
      as (s2 & E2 & F2 & O2 & L2 & G2 & N2 & R2 & W2).
    assert (Hwf2 : wf_grid s2 (field self) = true) by (apply W2; exact Hwf1).
    assert (Hf2 : figs s2 !! r = Some fk).
    { rewrite F2. cbn [figs s1]. apply list_lookup_insert_eq. exact Hr. }
    destruct (checkers_tail_run self a1 b1 a2 b2 s2 r fk Hwf2 Hfrom Hto Hne Hf2)
      as (s' & E & F & O & Gd & Gs & Gq & W).
    assert (Hlen2 : length (figs s2) = length (figs s))
      by (rewrite F2; cbn [figs s1]; apply length_insert).
    exists s'. split; [|split; [|split; [|split; [|split; [|split; [|split]]]]]].
    + unfold CheckersBoard.make_move.
      erewrite bindM_Ok by (apply lift_Ok; exact Hget).
      erewrite bindM_Ok by (apply lift_Ok; unfold deref_opt, deref; rewrite Hfig; reflexivity).
      erewrite bindM_Ok by (apply lift_Ok; exact Hclear).
      rewrite Htr. cbn [negb]. rewrite Hinst.
      erewrite bindM_Ok; cycle 1.
      { erewrite bindM_Ok by reflexivity.
        erewrite bindM_Ok by (unfold set_kill; apply update_fig_Ok; exact Hfig).
        exact E2. }
      exact E.
    + rewrite F, F2. cbn [figs s1 cls color kill fk]. rewrite list_insert_insert_eq.
      rewrite orb_true_r. reflexivity.
    + rewrite O, O2. cbn [stdout s1]. rewrite <- app_assoc. reflexivity.
    + rewrite Gd, Hlen2. reflexivity.
    + exact Gs.
    + intros _. rewrite Gq by assumption. exact G2.
    + intros q Hq H1 H2 H3. rewrite Gq by assumption.
      rewrite N2 by (try assumption; apply H3; reflexivity).
      apply get_cell_rows. reflexivity.
    + exact W.
Qed.

(** *** The capture of a promoted piece *)

(** A loop that empties the cells [g x] of the board, one write each. *)
Lemma clear_cells_run self {A} (f : A -> M unit) (g : A -> cell) (l : list A) : forall s,
  (forall x, f x = set_cell self (g x) None) ->
  wf_grid s (field self) = true ->
  (forall x, x ∈ l -> in_bounds (g x) = true) ->
  exists s',
    forM l f s = Ok (tt, s')
    /\ figs s' = figs s /\ stdout s' = stdout s
    /\ wf_grid s' (field self) = true
    /\ (forall q, in_bounds q = true ->
          get_cell s' self q = if bool_decide (q ∈ g <$> l) then Ok None else get_cell s self q).
Proof.
  induction l as [|x l IH]; intros s Hf Hwf Hin.
  - exists s. split; [reflexivity|]. split; [reflexivity|]. split; [reflexivity|].
    split; [exact Hwf|].
    intros q Hq. rewrite bool_decide_eq_false_2; [reflexivity|]. apply not_elem_of_nil.
  - destruct (set_cell_wf self (g x) None s Hwf) as (s1 & E1 & F1 & O1 & L1 & G1 & N1 & R1 & W1);
      [apply Hin; left|].
    destruct (IH s1 Hf (W1 _ Hwf)) as (s' & E & F & O & W & G);
      [intros y Hy; apply Hin; right; exact Hy|].
    exists s'. split; [|split; [|split; [|split]]].
    + cbn [forM]. erewrite bindM_Ok by (rewrite Hf; exact E1). exact E.
    + rewrite F. exact F1.
    + rewrite O. exact O1.
    + exact W.
    + intros q Hq. rewrite G by exact Hq. cbn [fmap list_fmap].
      destruct (decide (q = g x)) as [->|Hne].
      * rewrite (bool_decide_eq_true_2 (g x ∈ g x :: _)) by left.
        case_bool_decide; [reflexivity|exact G1].
      * rewrite N1 by assumption.
        apply (f_equal (fun b : bool => if b then Ok None else get_cell s self q)).
        apply bool_decide_ext. rewrite elem_of_cons. tauto.
Qed.

Lemma zip_seqZ a b n :
  zip (seqZ a n) (seqZ b n) = (fun k => (a + k, b + k)) <$> seqZ 0 n.
Proof.
  apply list_eq. intros i. rewrite list_lookup_fmap.
  rewrite (lookup_zip_with pair (seqZ a n) (seqZ b n) i).
  destruct (decide (Z.of_nat i < n)) as [Hlt|Hge].
  - rewrite !lookup_seqZ_lt by exact Hlt. reflexivity.
  - rewrite !lookup_seqZ_ge by lia. reflexivity.
Qed.

(** The one loop of the four that runs: the cells strictly between the two
    ends of a diagonal that goes up in rows and in columns. *)
Lemma sweep_down_right self a1 b1 a2 s :
  wf_grid s (field self) = true ->
  (forall k, 0 < k < a2 - a1 -> in_bounds (a1 + k, b1 + k) = true) ->
  exists s',
    CheckersBoard.sweep self (py_range (a1 + 1) a2) (fun col => b1 + 1 * col) s = Ok (tt, s')
    /\ figs s' = figs s /\ stdout s' = stdout s
    /\ wf_grid s' (field self) = true
    /\ (forall q, in_bounds q = true ->
          get_cell s' self q
          = if bool_decide (a1 < q.1 < a2 /\ q.2 - b1 = q.1 - a1)
            then Ok None else get_cell s self q).
Proof.
  intros Hwf Hin. unfold CheckersBoard.sweep, py_range.
  rewrite length_seqZ.
  destruct (decide (a2 - (a1 + 1) <= 0)) as [Hle|Hgt].
  - rewrite seqZ_nil by exact Hle. exists s. cbn [zip zip_with forM].
    split; [reflexivity|]. split; [reflexivity|]. split; [reflexivity|].
    split; [exact Hwf|].
    intros q Hq. rewrite bool_decide_eq_false_2 by lia. reflexivity.
  - rewrite Z2Nat.id by lia. rewrite zip_seqZ.
    destruct (clear_cells_run self
                (fun '(row, col) => set_cell self (row, b1 + 1 * col) None)
                (fun '(row, col) => (row, b1 + 1 * col))
                ((fun k => (a1 + 1 + k, 1 + k)) <$> seqZ 0 (a2 - (a1 + 1))) s)
      as (s' & E & F & O & W & G).
    + intros [row col]. reflexivity.
    + exact Hwf.
    + intros [row col] (k & [= -> ->] & Hk%elem_of_seqZ)%list_elem_of_fmap.
      replace (b1 + 1 * (1 + k)) with (b1 + (1 + k)) by lia.
      replace (a1 + 1 + k) with (a1 + (1 + k)) by lia. apply Hin. lia.
    + exists s'. split; [exact E|]. split; [exact F|]. split; [exact O|]. split; [exact W|].
      intros [qa qb] Hq. rewrite G by exact Hq. cbn [fst snd].
      apply (f_equal (fun b : bool => if b then Ok None else get_cell s self (qa, qb))).
      apply bool_decide_ext. rewrite <- list_fmap_compose. split.
      * intros (k & [= -> ->] & Hk%elem_of_seqZ)%list_elem_of_fmap. lia.
      * intros [Ha Hb]. apply list_elem_of_fmap. exists (qa - a1 - 1). split.
        -- cbn. f_equal; lia.
        -- apply elem_of_seqZ. lia.
Qed.

(** The whole run of [CheckersBoard.make_move] for a promoted piece that
    moves along a diagonal over some figure. *)
Lemma checkers_bishop_capture_run self a1 b1 a2 b2 s r fig clear :
  wf_grid s (field self) = true ->
  in_bounds (a1, b1) = true -> in_bounds (a2, b2) = true ->
  Z.abs (a2 - a1) = Z.abs (b2 - b1) -> a1 ≠ a2 ->
  get_cell s self (a1, b1) = Ok (Some r) ->
  deref s r = Ok fig ->
  cls fig = Bishop ->
  Board.is_path_clear s self a1 b1 a2 b2 = Ok clear ->
  truthy clear = false ->
  let promo := promotes fig a2 in
  exists s',
    CheckersBoard.make_move self (a1, b1) (a2, b2) s = Ok (tt, s')
    /\ figs s' = <[r := mkFigure (cls fig) (color fig) (a2, b2) true]> (figs s)
                 ++ (if promo then [mkFigure Bishop (color fig) (a2, b2) false] else [])
    /\ stdout s' = stdout s ++ [MsgCapture]
                            ++ (if promo then [MsgPromoted (color fig)] else [])
    /\ get_cell s' self (a2, b2) = Ok (Some (if promo then length (figs s) else r))
    /\ get_cell s' self (a1, b1) = Ok None
    /\ (forall q, in_bounds q = true -> q ≠ (a1, b1) -> q ≠ (a2, b2) ->
          get_cell s' self q
          = if bool_decide (a1 < a2 /\ b1 < b2 /\ a1 < q.1 < a2 /\ q.2 - b1 = q.1 - a1)
            then Ok None else get_cell s self q)
    /\ wf_grid s' (field self) = true.
Proof.
  intros Hwf Hfrom Hto Hdiag Hna Hget Hfig Hbishop Hclear Htr promo.
  pose proof Hfrom as [Ha1 Hb1]%in_bounds_spec.
  pose proof Hto as [Ha2 Hb2]%in_bounds_spec.
  apply deref_Some in Hfig.
  assert (Hr : (r < length (figs s))%nat) by (eapply lookup_lt_Some; eauto).
  assert (Hne : (a1, b1) ≠ (a2, b2)) by congruence.
  assert (Hman : isinstance (Some fig) [CheckersFigure] = false)
    by (unfold isinstance; rewrite Hbishop; reflexivity).
  assert (Hinst : isinstance (Some fig) [Bishop] = true)
    by (unfold isinstance; rewrite Hbishop; reflexivity).
  (* the four-way choice of the loop *)
  assert (Hsweep : exists s1,
    (if bool_decide (a1 < a2) && bool_decide (b1 < b2) then
       CheckersBoard.sweep self (py_range (a1 + 1) a2) (fun col => b1 + 1 * col)
     else if bool_decide (a1 > a2) && bool_decide (b1 < b2) then
       CheckersBoard.sweep self (py_range (a1 + 1) a2) (fun col => b1 - 1 * col)
     else if bool_decide (a1 < a2) && bool_decide (b1 > b2) then
       CheckersBoard.sweep self (py_range_down (a1 + 1) a2) (fun col => b1 + 1 * col)
     else if bool_decide (a1 < a2) && bool_decide (b1 < b2) then
       CheckersBoard.sweep self (py_range_down (a1 + 1) a2) (fun col => b1 - 1 * col)
     else mret tt) s = Ok (tt, s1)
    /\ figs s1 = figs s /\ stdout s1 = stdout s
    /\ wf_grid s1 (field self) = true
    /\ (forall q, in_bounds q = true ->
          get_cell s1 self q
          = if bool_decide (a1 < a2 /\ b1 < b2 /\ a1 < q.1 < a2 /\ q.2 - b1 = q.1 - a1)
            then Ok None else get_cell s self q)).
  { destruct (decide (a1 < a2 /\ b1 < b2)) as [[Hlt1 Hlt2]|Hnot].
    - rewrite !bool_decide_eq_true_2 by assumption. cbn [andb].
      destruct (sweep_down_right self a1 b1 a2 s Hwf) as (s1 & E & F & O & W & G).
      { intros k Hk. apply in_bounds_spec. lia. }
      exists s1. split; [exact E|]. split; [exact F|]. split; [exact O|]. split; [exact W|].
      intros q Hq. rewrite G by exact Hq.
      apply (f_equal (fun b : bool => if b then Ok None else get_cell s self q)).
      apply bool_decide_ext. tauto.
    - exists s.
      assert (Hgo : forall q,
                bool_decide (a1 < a2 /\ b1 < b2 /\ a1 < q.1 < a2 /\ q.2 - b1 = q.1 - a1) = false)
        by (intros q; apply bool_decide_eq_false_2; tauto).
      split; [|split; [reflexivity|split; [reflexivity|split; [exact Hwf|]]]].
      + replace (bool_decide (a1 < a2) && bool_decide (b1 < b2)) with false; cycle 1.
        { symmetry. apply andb_false_iff.
          destruct (decide (a1 < a2)); [right|left]; apply bool_decide_eq_false_2; tauto. }
        unfold CheckersBoard.sweep, py_range, py_range_down.
        destruct (bool_decide (a1 > a2)) eqn:Hgt.
        * apply bool_decide_eq_true in Hgt.
          rewrite (seqZ_nil (a1 + 1)) by lia.
          destruct (bool_decide (b1 < b2)); cbn [andb]; [reflexivity|].
          rewrite (bool_decide_eq_false_2 (a1 < a2)) by lia. reflexivity.
        * apply bool_decide_eq_false in Hgt. cbn [andb].
          rewrite (seqZ_nil 0) by lia.
          destruct (bool_decide (a1 < a2) && bool_decide (b1 > b2)); reflexivity.
      + intros q _. rewrite Hgo. reflexivity. }
  destruct Hsweep as (s1 & E1 & F1 & O1 & W1 & G1).
  set (fk := mkFigure (cls fig) (color fig) (position fig) true).
  set (s3 := mkStore (<[r := fk]> (figs s1)) (rows s1) (stdout s1 ++ [MsgCapture])).
  assert (Hwf3 : wf_grid s3 (field self) = true)
    by (rewrite (wf_grid_rows s1); [exact W1|reflexivity]).
  assert (Hf3 : figs s3 !! r = Some fk).
  { cbn [figs s3]. apply list_lookup_insert_eq. rewrite F1. exact Hr. }
  destruct (checkers_tail_run self a1 b1 a2 b2 s3 r fk Hwf3 Hfrom Hto Hne Hf3)
    as (s' & E & F & O & Gd & Gs & Gq & W).
  exists s'. split; [|split; [|split; [|split; [|split; [|split]]]]].
  - unfold CheckersBoard.make_move.
    erewrite bindM_Ok by (apply lift_Ok; exact Hget).
    erewrite bindM_Ok by (apply lift_Ok; unfold deref_opt, deref; rewrite Hfig; reflexivity).
    erewrite bindM_Ok by (apply lift_Ok; exact Hclear).
    rewrite Htr. cbn [negb]. rewrite Hman, Hinst.
    erewrite bindM_Ok; cycle 1.
    { erewrite bindM_Ok by exact E1.
      erewrite bindM_Ok by reflexivity.
      unfold set_kill. apply update_fig_Ok. cbn [figs]. rewrite F1. exact Hfig. }
    exact E.
  - rewrite F. cbn [figs s3 cls color kill fk]. rewrite F1, list_insert_insert_eq. reflexivity.
  - rewrite O. cbn [stdout s3]. rewrite O1, <- app_assoc. reflexivity.
  - rewrite Gd. cbn [figs s3]. rewrite length_insert, F1. reflexivity.
  - exact Gs.
  - intros q Hq H1 H2. rewrite Gq by assumption.
    rewrite (get_cell_rows s1) by reflexivity. apply G1. exact Hq.
  - exact W.
Qed.

(** X22.  [CheckersBoard.make_move] for a man, between two different cells of
    a well-formed board.  When [is_path_clear] does not answer [True] the man
    captures: the cell halfway is emptied and the flag [kill] is set on the
    man.  The man goes to the destination and leaves its cell; on the far row
    of its colour a fresh [Bishop] with [kill] unset takes the destination
    instead.  No other cell changes. *)
Theorem checkers_man_move_application self a1 b1 a2 b2 s r fig clear :
  wf_grid s (field self) = true ->
  in_bounds (a1, b1) = true -> in_bounds (a2, b2) = true ->
  (a1, b1) ≠ (a2, b2) ->
  get_cell s self (a1, b1) = Ok (Some r) ->
  deref s r = Ok fig ->
  cls fig = CheckersFigure ->
  Board.is_path_clear s self a1 b1 a2 b2 = Ok clear ->
  let jump := negb (truthy clear) in
  let mid := ((a1 + a2) `div` 2, (b1 + b2) `div` 2) in
  exists s' r' fig',
    CheckersBoard.make_move self (a1, b1) (a2, b2) s = Ok (tt, s')
    /\ get_cell s' self (a2, b2) = Ok (Some r')
    /\ deref s' r' = Ok fig'
    /\ fig' = (if promotes fig a2
               then mkFigure Bishop (color fig) (a2, b2) false
               else mkFigure CheckersFigure (color fig) (a2, b2) (kill fig || jump))
    /\ (r' = r <-> promotes fig a2 = false)
    /\ get_cell s' self (a1, b1) = Ok None
    /\ (jump = true -> get_cell s' self mid = Ok None)
    /\ (forall q, in_bounds q = true -> q ≠ (a1, b1) -> q ≠ (a2, b2) ->
          (jump = true -> q ≠ mid) -> get_cell s' self q = get_cell s self q)
    /\ stdout s' = stdout s ++ (if jump then [MsgCapture] else [])
                            ++ (if promotes fig a2 then [MsgPromoted (color fig)] else []).
Proof.
  intros Hwf Hfrom Hto Hne Hget Hfig Hman Hclear jump mid.
  destruct (checkers_man_run self a1 b1 a2 b2 s r fig clear
              Hwf Hfrom Hto Hne Hget Hfig Hman Hclear)
    as (s' & E & F & O & Gd & Gs & Gm & Gq & W).
  apply deref_Some in Hfig.
  assert (Hr : (r < length (figs s))%nat) by (eapply lookup_lt_Some; eauto).
  exists s', (if promotes fig a2 then length (figs s) else r),
    (if promotes fig a2
     then mkFigure Bishop (color fig) (a2, b2) false
     else mkFigure CheckersFigure (color fig) (a2, b2) (kill fig || jump)).
  split; [exact E|]. split; [exact Gd|].
  split; [|split; [reflexivity|split; [|split; [exact Gs|split; [exact Gm|split; [exact Gq|exact O]]]]]].
  - apply deref_Some. rewrite F. destruct (promotes fig a2).
    + rewrite lookup_app_r by (rewrite length_insert; lia).
      rewrite length_insert, Nat.sub_diag. reflexivity.
    + rewrite app_nil_r, Hman. apply list_lookup_insert_eq. exact Hr.
  - destruct (promotes fig a2); split; intros; try reflexivity; try discriminate; lia.
Qed.

(** X23.  [CheckersBoard.make_move] for a promoted piece that moves along a
    diagonal over some figure: the capture is announced and the flag [kill] is
    set in every direction, but the figures passed over are removed only when
    the move goes towards higher rows and higher columns; in the other three
    directions every cell between the two ends keeps what it held. *)
Theorem flying_capture_clears_one_direction_only self a1 b1 a2 b2 s r fig :
  wf_grid s (field self) = true ->
  in_bounds (a1, b1) = true -> in_bounds (a2, b2) = true ->
  Z.abs (a2 - a1) = Z.abs (b2 - b1) -> a1 ≠ a2 ->
  get_cell s self (a1, b1) = Ok (Some r) ->
  deref s r = Ok fig ->
  cls fig = Bishop ->
  Board.is_path_clear s self a1 b1 a2 b2 = Ok (Some false) ->
  exists s',
    CheckersBoard.make_move self (a1, b1) (a2, b2) s = Ok (tt, s')
    /\ (exists fig', deref s' r = Ok fig' /\ kill fig' = true /\ position fig' = (a2, b2))
    /\ stdout s' = stdout s ++ [MsgCapture]
                            ++ (if promotes fig a2 then [MsgPromoted (color fig)] else [])
    /\ (forall k, 0 < k < Z.abs (a2 - a1) ->
          get_cell s' self (a1 + k * Z.sgn (a2 - a1), b1 + k * Z.sgn (b2 - b1))
          = if bool_decide (a1 < a2 /\ b1 < b2) then Ok None
            else get_cell s self (a1 + k * Z.sgn (a2 - a1), b1 + k * Z.sgn (b2 - b1)))
    /\ (forall q, in_bounds q = true -> q ≠ (a1, b1) -> q ≠ (a2, b2) ->
          ~ (a1 < q.1 < a2 /\ q.2 - b1 = q.1 - a1) ->
          get_cell s' self q = get_cell s self q).
Proof.
  intros Hwf Hfrom Hto Hdiag Hna Hget Hfig Hbishop Hclear.
  destruct (checkers_bishop_capture_run self a1 b1 a2 b2 s r fig (Some false)
              Hwf Hfrom Hto Hdiag Hna Hget Hfig Hbishop Hclear eq_refl)
    as (s' & E & F & O & Gd & Gs & Gq & W).
  pose proof Hfrom as [Ha1 Hb1]%in_bounds_spec.
  pose proof Hto as [Ha2 Hb2]%in_bounds_spec.
  apply deref_Some in Hfig.
  assert (Hr : (r < length (figs s))%nat) by (eapply lookup_lt_Some; eauto).
  exists s'. split; [exact E|]. split; [|split; [exact O|split]].
  - exists (mkFigure (cls fig) (color fig) (a2, b2) true). split; [|split; reflexivity].
    apply deref_Some. rewrite F. apply lookup_app_l_Some, list_lookup_insert_eq. exact Hr.
  - intros k Hk.
    rewrite Gq; cbn [fst snd].
    + apply (f_equal (fun b : bool => if b then Ok None else
               get_cell s self (a1 + k * Z.sgn (a2 - a1), b1 + k * Z.sgn (b2 - b1)))).
      apply bool_decide_ext. split; [tauto|]. intros [H1 H2].
      rewrite !Z.sgn_pos by lia. lia.
    + apply in_bounds_spec. lia.
    + intros [= H1 H2]. lia.
    + intros [= H1 H2]. lia.
  - intros q Hq H1 H2 Hnot. rewrite Gq by assumption.
    rewrite bool_decide_eq_false_2 by tauto. reflexivity.
Qed.

(** ** The end of the game *)

Lemma isinstance_man f : isinstance (Some f) [CheckersFigure] = bool_decide (cls f = CheckersFigure).
Proof. unfold isinstance. destruct (cls f); reflexivity. Qed.

(** *** Checkers *)

Lemma scan_board_no_man s self cells : forall black_seen white_seen,
  (forall p, p ∈ cells -> in_bounds p = true) ->
  figures_readable s self = true -> men_in_place s self = true ->
  CheckersBoard.scan_board s self cells black_seen white_seen
  = Ok (forallb (fun p => negb (man_at s self p)) cells && negb (black_seen && white_seen)).
Proof.
  induction cells as [|p cells IH]; intros black_seen white_seen Hin Hread Hplace.
  - reflexivity.
  - assert (Hp : in_bounds p = true) by (apply Hin; left).
    assert (Hrest : forall q, q ∈ cells -> in_bounds q = true)
      by (intros q Hq; apply Hin; right; exact Hq).
    destruct (figures_readable_spec s self p Hread Hp) as [o Ho].
    cbn [CheckersBoard.scan_board forallb]. unfold man_at at 1. rewrite Ho. rsimpl.
    destruct o as [f|]; [|cbn [isinstance negb andb]; apply IH; assumption].
    destruct (isinstance (Some f) [CheckersFigure]) eqn:Hman.
    + assert (Hpos : position f = p).
      { unfold men_in_place in Hplace. rewrite forallb_forall in Hplace.
        specialize (Hplace p). rewrite <- list_elem_of_In, all_cells_spec in Hplace.
        specialize (Hplace Hp). rewrite Ho, Hman in Hplace.
        apply bool_decide_eq_true in Hplace. exact Hplace. }
      rewrite isinstance_man in Hman. apply bool_decide_eq_true in Hman.
      rewrite (man_always_has_a_move s self p f Ho Hman Hpos). reflexivity.
    + cbn [negb andb]. apply IH; assumption.
Qed.

(** X24.  When every man stores the cell it stands on, a checkers game is over
    exactly when no man of either colour is left on the board: promoted pieces
    do not count, and one colour without men does not end it. *)
Theorem checkers_game_over_iff_no_man s self :
  figures_readable s self = true ->
  men_in_place s self = true ->
  CheckersBoard.is_game_over s self
  = Ok (forallb (fun p => negb (man_at s self p)) all_cells).
Proof.
  intros Hread Hplace. unfold CheckersBoard.is_game_over.
  rewrite scan_board_no_man; try assumption.
  - rewrite andb_true_r. reflexivity.
  - intros p. apply all_cells_spec.
Qed.

(** *** Chess *)

Lemma locate_kings_run s self cells : forall acc,
  (forall p, p ∈ cells -> in_bounds p = true) ->
  figures_readable s self = true ->
  exists bk wk,
    foldM (fun (acc : option cell * option cell) (p : cell) =>
             piece ← figure_at s self p;
             if isinstance piece [King] then
               match piece with
               | Some f =>
                   match color f with
                   | black => Ok (Some p, acc.2)
                   | white => Ok (acc.1, Some p)
                   end
               | None => Ok acc
               end
             else Ok acc) cells acc = Ok (bk, wk)
    /\ ((bk = acc.1 /\ forallb (fun p => negb (king_at s self black p)) cells = true)
        \/ exists pre p post,
             cells = pre ++ p :: post /\ bk = Some p /\ king_at s self black p = true
             /\ forallb (fun q => negb (king_at s self black q)) post = true)
    /\ ((wk = acc.2 /\ forallb (fun p => negb (king_at s self white p)) cells = true)
        \/ exists pre p post,
             cells = pre ++ p :: post /\ wk = Some p /\ king_at s self white p = true
             /\ forallb (fun q => negb (king_at s self white q)) post = true).
Proof.
  induction cells as [|p cells IH]; intros acc Hin Hread.
  - exists acc.1, acc.2. destruct acc. cbn. split; [reflexivity|]. split; left; auto.
  - assert (Hp : in_bounds p = true) by (apply Hin; left).
    assert (Hrest : forall q, q ∈ cells -> in_bounds q = true)
      by (intros q Hq; apply Hin; right; exact Hq).
    destruct (figures_readable_spec s self p Hread Hp) as [o Ho].
    cbn [foldM]. rewrite Ho. rsimpl.
    assert (Hkb : king_at s self black p
                  = isinstance o [King]
                    && match o with Some f => bool_decide (color f = black) | None => false end)
      by (unfold king_at; rewrite Ho; destruct o; reflexivity).
    assert (Hkw : king_at s self white p
                  = isinstance o [King]
                    && match o with Some f => bool_decide (color f = white) | None => false end)
      by (unfold king_at; rewrite Ho; destruct o; reflexivity).
    destruct (isinstance o [King]) eqn:Hk; cbn [andb] in Hkb, Hkw.
    + destruct o as [f|]; [|discriminate].
      destruct (color f) eqn:Hc.
      * (* a white king *)
        destruct (IH (acc.1, Some p) Hrest Hread) as (bk & wk & E & Hb & Hw).
        exists bk, wk. split; [exact E|]. cbn [fst snd] in Hb, Hw. split.
        -- destruct Hb as [[-> Hnone]|(pre & q & post & -> & -> & Hq & Hpost)].
           ++ left. split; [reflexivity|]. cbn [forallb]. rewrite Hkb, Hnone. reflexivity.
           ++ right. exists (p :: pre), q, post. auto.
        -- destruct Hw as [[-> Hnone]|(pre & q & post & -> & -> & Hq & Hpost)].
           ++ right. exists [], p, cells. split; [reflexivity|]. split; [reflexivity|].
              split; [rewrite Hkw; reflexivity|exact Hnone].
           ++ right. exists (p :: pre), q, post. auto.
      * (* a black king *)
        destruct (IH (Some p, acc.2) Hrest Hread) as (bk & wk & E & Hb & Hw).
        exists bk, wk. split; [exact E|]. cbn [fst snd] in Hb, Hw. split.
        -- destruct Hb as [[-> Hnone]|(pre & q & post & -> & -> & Hq & Hpost)].
           ++ right. exists [], p, cells. split; [reflexivity|]. split; [reflexivity|].
              split; [rewrite Hkb; reflexivity|exact Hnone].
           ++ right. exists (p :: pre), q, post. auto.
        -- destruct Hw as [[-> Hnone]|(pre & q & post & -> & -> & Hq & Hpost)].
           ++ left. split; [reflexivity|]. cbn [forallb]. rewrite Hkw, Hnone. reflexivity.
           ++ right. exists (p :: pre), q, post. auto.
    + destruct (IH acc Hrest Hread) as (bk & wk & E & Hb & Hw).
      exists bk, wk. split; [exact E|]. split.
      * destruct Hb as [[-> Hnone]|(pre & q & post & -> & -> & Hq & Hpost)].
        -- left. split; [reflexivity|]. cbn [forallb]. rewrite Hkb, Hnone. reflexivity.
        -- right. exists (p :: pre), q, post. auto.
      * destruct Hw as [[-> Hnone]|(pre & q & post & -> & -> & Hq & Hpost)].
        -- left. split; [reflexivity|]. cbn [forallb]. rewrite Hkw, Hnone. reflexivity.
        -- right. exists (p :: pre), q, post. auto.
Qed.

Lemma two_splits {A} (pre pre' post post' : list A) (p p' : A) :
  pre ++ p :: post = pre' ++ p' :: post' ->
  p = p' \/ p ∈ post' \/ p' ∈ post.
Proof.
  revert pre'. induction pre as [|x pre IH]; intros [|x' pre'] H; cbn in H.
  - injection H as -> _. left. reflexivity.
  - injection H as -> ->. right. right. apply list_elem_of_In, in_or_app. right. left. reflexivity.
  - injection H as -> <-. right. left. apply list_elem_of_In, in_or_app. right. left. reflexivity.
  - injection H as _ H. eapply IH, H.
Qed.

Lemma forallb_neg_elem {A} (f : A -> bool) (l : list A) x :
  forallb (fun y => negb (f y)) l = true -> x ∈ l -> f x = false.
Proof.
  rewrite forallb_forall. intros H Hx%list_elem_of_In. apply H in Hx.
  destruct (f x); [discriminate|reflexivity].
Qed.

(** X25.  The first pass of [Board.is_game_over] takes, for each colour, the
    last instance of [King] in the order of the rows, snakes included. *)
Theorem locate_kings_takes_last_instance s self c pre p post :
  figures_readable s self = true ->
  all_cells = pre ++ p :: post ->
  king_at s self c p = true ->
  forallb (fun q => negb (king_at s self c q)) post = true ->
  exists kings,
    Board.locate_kings s self = Ok kings
    /\ match c with black => kings.1 | white => kings.2 end = Some p.
Proof.
  intros Hread Hcells Hking Hpost.
  destruct (locate_kings_run s self all_cells (None, None)) as (bk & wk & E & Hb & Hw);
    [intros q; apply all_cells_spec|exact Hread|].
  exists (bk, wk). split; [exact E|].
  assert (Hpin : p ∈ all_cells)
    by (rewrite Hcells; apply list_elem_of_In, in_or_app; right; left; reflexivity).
  assert (Hlast : forall k,
            ((k = None /\ forallb (fun q => negb (king_at s self c q)) all_cells = true)
             \/ exists pre' p' post',
                  all_cells = pre' ++ p' :: post' /\ k = Some p' /\ king_at s self c p' = true
                  /\ forallb (fun q => negb (king_at s self c q)) post' = true) ->
            k = Some p).
  { intros k [[_ Hnone]|(pre' & p' & post' & Hcells' & -> & Hking' & Hpost')].
    - rewrite (forallb_neg_elem _ _ p Hnone Hpin) in Hking. discriminate.
    - rewrite Hcells in Hcells'.
      destruct (two_splits _ _ _ _ _ _ Hcells') as [-> | [Hin | Hin]]; [reflexivity| |].
      + rewrite (forallb_neg_elem _ _ p Hpost' Hin) in Hking. discriminate.
      + rewrite (forallb_neg_elem _ _ p' Hpost Hin) in Hking'. discriminate. }
  destruct c; cbn [fst snd]; apply Hlast; assumption.
Qed.

Lemma collect_risks_returns s self bk wk cells : forall acc,
  wf_grid s (field self) = true ->
  figures_readable s self = true ->
  (forall p, p ∈ cells -> in_bounds p = true) ->
  in_bounds bk = true -> in_bounds wk = true ->
  exists risks,
    foldM (fun (acc : list cell * list cell) (p : cell) =>
             piece ← figure_at s self p;
             if isinstance piece [Pawn; Rook; Bishop; Knight; King; Queen] then
               match piece with
               | Some f =>
                   match color f with
                   | white =>
                       k ← Board.subscript (Some bk);
                       clear ← Board.is_path_clear s self p.1 p.2 k.1 k.2;
                       if truthy clear
                       then Ok (acc.1 ++ get_possible_moves f, acc.2)
                       else Ok acc
                   | black =>
                       k ← Board.subscript (Some wk);
                       clear ← Board.is_path_clear s self p.1 p.2 k.1 k.2;
                       if truthy clear
                       then Ok (acc.1, acc.2 ++ get_possible_moves f)
                       else Ok acc
                   end
               | None => Ok acc
               end
             else Ok acc) cells acc = Ok risks.
Proof.
  induction cells as [|p cells IH]; intros acc Hwf Hread Hin Hbk Hwk.
  - exists acc. reflexivity.
  - assert (Hp : in_bounds p = true) by (apply Hin; left).
    assert (Hrest : forall q, q ∈ cells -> in_bounds q = true)
      by (intros q Hq; apply Hin; right; exact Hq).
    destruct (figures_readable_spec s self p Hread Hp) as [o Ho].
    cbn [foldM]. rewrite Ho. rsimpl.
    destruct (isinstance o _); [|apply IH; assumption].
    destruct o as [f|]; [|apply IH; assumption].
    destruct p as [a b], bk as [ba bb], wk as [wa wb]. cbn [Board.subscript fst snd]. rsimpl.
    destruct (color f).
    + destruct (is_path_clear_returns s self a b ba bb Hwf Hp Hbk) as [r ->]. rsimpl.
      destruct (truthy r); apply IH; assumption.
    + destruct (is_path_clear_returns s self a b wa wb Hwf Hp Hwk) as [r ->]. rsimpl.
      destruct (truthy r); apply IH; assumption.
Qed.

Lemma collect_risks_raises s self missing bk wk cells : forall acc,
  wf_grid s (field self) = true ->
  figures_readable s self = true ->
  (forall p, p ∈ cells -> in_bounds p = true) ->
  match missing with black => bk | white => wk end = None ->
  (forall k, match missing with black => wk | white => bk end = Some k -> in_bounds k = true) ->
  existsb (attacker_at s self (opposite missing)) cells = true ->
  foldM (fun (acc : list cell * list cell) (p : cell) =>
           piece ← figure_at s self p;
           if isinstance piece [Pawn; Rook; Bishop; Knight; King; Queen] then
             match piece with
             | Some f =>
                 match color f with
                 | white =>
                     k ← Board.subscript bk;
                     clear ← Board.is_path_clear s self p.1 p.2 k.1 k.2;
                     if truthy clear
                     then Ok (acc.1 ++ get_possible_moves f, acc.2)
                     else Ok acc
                 | black =>
                     k ← Board.subscript wk;
                     clear ← Board.is_path_clear s self p.1 p.2 k.1 k.2;
                     if truthy clear
                     then Ok (acc.1, acc.2 ++ get_possible_moves f)
                     else Ok acc
                 end
             | None => Ok acc
             end
           else Ok acc) cells acc = Raise TypeError.
Proof.
  induction cells as [|p cells IH]; intros acc Hwf Hread Hin Hmiss Hother Hatt.
  - discriminate.
  - assert (Hp : in_bounds p = true) by (apply Hin; left).
    assert (Hrest : forall q, q ∈ cells -> in_bounds q = true)
      by (intros q Hq; apply Hin; right; exact Hq).
    destruct (figures_readable_spec s self p Hread Hp) as [o Ho].
    cbn [foldM]. cbn [existsb] in Hatt. unfold attacker_at at 1 in Hatt.
    rewrite Ho in Hatt. rewrite Ho. rsimpl.
    destruct o as [f|]; [|cbn [isinstance]; cbn [orb] in Hatt; apply IH; assumption].
    destruct (isinstance (Some f) _); cbn [andb orb] in Hatt; [|apply IH; assumption].
    destruct p as [a b]. cbn [fst snd].
    destruct (color f) eqn:Hc, missing; cbn [opposite] in Hatt.
    + (* a white figure, the white king is missing: go on *)
      rewrite (bool_decide_eq_false_2 (white = black)) in Hatt by discriminate.
      cbn [orb] in Hatt.
      destruct bk as [[ba bb]|]; [|reflexivity]. cbn [Board.subscript fst snd]. rsimpl.
      destruct (is_path_clear_returns s self a b ba bb Hwf Hp (Hother _ eq_refl)) as [r ->].
      rsimpl. destruct (truthy r); apply IH; assumption.
    + (* a white figure, the black king is missing *)
      cbn in Hmiss. subst bk. reflexivity.
    + (* a black figure, the white king is missing *)
      cbn in Hmiss. subst wk. reflexivity.
    + rewrite (bool_decide_eq_false_2 (black = white)) in Hatt by discriminate.
      cbn [orb] in Hatt.
      destruct wk as [[wa wb]|]; [|reflexivity]. cbn [Board.subscript fst snd]. rsimpl.
      destruct (is_path_clear_returns s self a b wa wb Hwf Hp (Hother _ eq_refl)) as [r ->].
      rsimpl. destruct (truthy r); apply IH; assumption.
Qed.

Lemma split_in_bounds pre (p : cell) post : all_cells = pre ++ p :: post -> in_bounds p = true.
Proof.
  intros H. apply all_cells_spec. rewrite H.
  apply list_elem_of_In, in_or_app. right. left. reflexivity.
Qed.

Lemma existsb_forallb_neg {A} (f : A -> bool) (l : list A) :
  existsb f l = false -> forallb (fun x => negb (f x)) l = true.
Proof.
  induction l as [|x l IH]; [reflexivity|]. cbn.
  destruct (f x); [discriminate|]. exact IH.
Qed.

(** X26.  When no instance of [King] of one colour is on the board while a
    pawn, rook, bishop, knight, king, queen or snake of the other colour is,
    [Board.is_game_over] raises [TypeError]: the second pass subscripts the
    missing king's position. *)
Theorem is_game_over_raises_without_a_king s self missing :
  wf_grid s (field self) = true ->
  figures_readable s self = true ->
  existsb (king_at s self missing) all_cells = false ->
  existsb (attacker_at s self (opposite missing)) all_cells = true ->
  Board.is_game_over self s = Raise TypeError.
Proof.
  intros Hwf Hread Hnone Hatt.
  destruct (locate_kings_run s self all_cells (None, None)) as (bk & wk & E & Hb & Hw);
    [intros q; apply all_cells_spec|exact Hread|].
  cbn [fst snd] in Hb, Hw.
  assert (Hbk : forall k, bk = Some k -> in_bounds k = true).
  { intros k ->. destruct Hb as [[? _]|(pre & p & post & Hc & [= <-] & _)]; [discriminate|].
    eapply split_in_bounds, Hc. }
  assert (Hwk : forall k, wk = Some k -> in_bounds k = true).
  { intros k ->. destruct Hw as [[? _]|(pre & p & post & Hc & [= <-] & _)]; [discriminate|].
    eapply split_in_bounds, Hc. }
  assert (Hmiss : match missing with black => bk | white => wk end = None).
  { apply existsb_forallb_neg in Hnone.
    destruct missing.
    - destruct Hw as [[-> _]|(pre & p & post & Hc & _ & Hk & _)]; [reflexivity|].
      rewrite (forallb_neg_elem _ _ p Hnone) in Hk; [discriminate|].
      apply all_cells_spec. eapply split_in_bounds, Hc.
    - destruct Hb as [[-> _]|(pre & p & post & Hc & _ & Hk & _)]; [reflexivity|].
      rewrite (forallb_neg_elem _ _ p Hnone) in Hk; [discriminate|].
      apply all_cells_spec. eapply split_in_bounds, Hc. }
  unfold Board.is_game_over.
  erewrite bindM_Ok by (apply lift_Ok; exact E). cbn [fst snd].
  unfold mbind, M_bind, lift, Board.collect_risks.
  rewrite (collect_risks_raises s self missing bk wk all_cells); try assumption.
  - reflexivity.
  - intros q. apply all_cells_spec.
  - destruct missing; assumption.
Qed.

(** X27.  With an instance of [King] of either colour on a well-formed board,
    [Board.is_game_over] returns a boolean; it changes no figure and no row
    and prints at most the one warning of a check. *)
Theorem is_game_over_returns_with_both_kings s self :
  wf_grid s (field self) = true ->
  figures_readable s self = true ->
  existsb (king_at s self black) all_cells = true ->
  existsb (king_at s self white) all_cells = true ->
  exists over msgs,
    Board.is_game_over self s
    = Ok (over, mkStore (figs s) (rows s) (stdout s ++ msgs))
    /\ (msgs = [] \/ exists c, msgs = [MsgCheck c]).
Proof.
  intros Hwf Hread Hblack Hwhite.
  destruct (locate_kings_run s self all_cells (None, None)) as (bk & wk & E & Hb & Hw);
    [intros q; apply all_cells_spec|exact Hread|].
  cbn [fst snd] in Hb, Hw.
  destruct Hb as [[_ Hnone]|(preb & kb & postb & Hcb & -> & Hkb & _)].
  { apply existsb_exists in Hblack as (q & Hq%list_elem_of_In & Hk).
    rewrite (forallb_neg_elem _ _ q Hnone Hq) in Hk. discriminate. }
  destruct Hw as [[_ Hnone]|(prew & kw & postw & Hcw & -> & Hkw & _)].
  { apply existsb_exists in Hwhite as (q & Hq%list_elem_of_In & Hk).
    rewrite (forallb_neg_elem _ _ q Hnone Hq) in Hk. discriminate. }
  pose proof (split_in_bounds _ _ _ Hcb) as Hinb.
  pose proof (split_in_bounds _ _ _ Hcw) as Hinw.
  destruct (collect_risks_returns s self kb kw all_cells ([], []) Hwf Hread) as [risks R];
    [intros q; apply all_cells_spec|assumption|assumption|].
  assert (Hboxed : forall c k rs, king_at s self c k = true ->
            exists b, Board.king_is_boxed s self k rs = Ok b).
  { intros c k rs Hk. unfold king_at in Hk. unfold Board.king_is_boxed.
    destruct (figure_at s self k) as [[f|]|]; try discriminate. rsimpl. eauto. }
  unfold Board.is_game_over.
  erewrite bindM_Ok by (apply lift_Ok; exact E). cbn [fst snd].
  erewrite bindM_Ok by (apply lift_Ok; exact R).
  unfold Board.in_check.
  destruct (py_in kb risks.1).
  - destruct (Hboxed black kb risks.1 Hkb) as [b Eb].
    erewrite bindM_Ok by reflexivity.
    exists b, [MsgCheck black]. split; [|right; eauto].
    unfold lift, print.
    change (Board.king_is_boxed (mkStore (figs s) (rows s) (stdout s ++ [MsgCheck black])) self kb risks.1)
      with (Board.king_is_boxed s self kb risks.1).
    rewrite Eb. reflexivity.
  - destruct (py_in kw risks.2).
    + destruct (Hboxed white kw risks.2 Hkw) as [b Eb].
      erewrite bindM_Ok by reflexivity.
      exists b, [MsgCheck white]. split; [|right; eauto].
      unfold lift, print.
      change (Board.king_is_boxed (mkStore (figs s) (rows s) (stdout s ++ [MsgCheck white])) self kw risks.2)
        with (Board.king_is_boxed s self kw risks.2).
      rewrite Eb. reflexivity.
    + exists false, []. split; [|left; reflexivity].
      rewrite app_nil_r. destruct s; reflexivity.
Qed.

(** ** Whose turn it is after a request *)

(** X28.  An accepted request on a chess or extended board.  The move is
    applied and the turn passes to the other player, unless a snake has
    captured: then the same player moves again.  Either way the flag [kill] of
    the figure is unset afterwards.  The colour of the figure is never
    compared with the player whose turn it is. *)
Theorem chess_turn_after_accepted_move g s a1 b1 a2 b2 rest r fig target :
  variant (board g) ≠ CheckersBoard ->
  moves g = (a1, b1) :: (a2, b2) :: rest ->
  wf_grid s (field (board g)) = true ->
  in_bounds (a1, b1) = true -> in_bounds (a2, b2) = true ->
  (a1, b1) ≠ (a2, b2) ->
  get_cell s (board g) (a1, b1) = Ok (Some r) ->
  deref s r = Ok fig ->
  kill fig = false ->
  figure_at s (board g) (a2, b2) = Ok target ->
  check_move s (board g) (a1, b1) (a2, b2) = Ok true ->
  let again := match target with Some _ => bool_decide (cls fig = Snake) | None => false end in
  exists g' s',
    Game.move_request g s = Ok (g', s')
    /\ current_player g' = (if again then current_player g else opposite (current_player g))
    /\ moves g' = []
    /\ field (board g') = field (board g)
    /\ length (history (board g')) = S (length (history (board g)))
    /\ get_cell s' (board g') (a2, b2) = Ok (Some r)
    /\ get_cell s' (board g') (a1, b1) = Ok None
    /\ deref s' r = Ok (mkFigure (cls fig) (color fig) (a2, b2) false).
Proof.
  intros Hv Hmoves Hwf Hfrom Hto Hne Hget Hfig Hkill Htarget Hok again.
  destruct (make_move_run (board g) a1 b1 a2 b2 s r fig target
              Hwf Hfrom Hto Hne Hget Hfig Htarget)
    as (s1 & E & F & O & G2 & G1 & Gq & K & W1 & W2 & C).
  rewrite Hkill in F. cbn [orb] in F.
  assert (Hagain : (match target with Some _ => true | None => false end
                    && bool_decide (cls fig = Snake)) = again)
    by (subst again; destruct target; reflexivity).
  rewrite Hagain in F.
  apply deref_Some in Hfig.
  assert (Hr : (r < length (figs s))%nat) by (eapply lookup_lt_Some; eauto).
  set (b' := mkBoard (variant (board g)) (field (board g))
                     (history (board g) ++ [seq (length (rows s)) 8])) in *.
  set (f1 := mkFigure (cls fig) (color fig) (a2, b2) again) in *.
  set (f2 := mkFigure (cls fig) (color fig) (a2, b2) false).
  assert (Hf1 : figs s1 !! r = Some f1) by (rewrite F; apply list_lookup_insert_eq; exact Hr).
  assert (Hprefix : forall k : Board -> M Game,
            (b ← make_move (board g) (a1, b1) (a2, b2); k b) s = k b' s1).
  { intros k. unfold make_move.
    destruct (variant (board g)) eqn:Hvar; [|congruence|];
      erewrite bindM_Ok by exact E; reflexivity. }
  set (s2 := mkStore (<[r := f2]> (figs s1)) (rows s1) (stdout s1)).
  assert (Hset : set_kill (Some r) false s1 = Ok (tt, s2)).
  { unfold set_kill. rewrite (update_fig_Ok r _ f1) by exact Hf1. reflexivity. }
  assert (Hcont : forall m, set_kill (Some r) false
                              (mkStore (figs s1) (rows s1) (stdout s1 ++ [m]))
                            = Ok (tt, mkStore (<[r := f2]> (figs s1)) (rows s1)
                                              (stdout s1 ++ [m]))).
  { intros m. unfold set_kill. rewrite (update_fig_Ok r _ f1) by exact Hf1. reflexivity. }
  assert (Hd2 : forall out, deref (mkStore (<[r := f2]> (figs s1)) (rows s1) out) r = Ok f2).
  { intros out. apply deref_Some. cbn [figs]. apply list_lookup_insert_eq.
    rewrite F, length_insert. exact Hr. }
  destruct again eqn:Hag.
  - exists (mkGame b' (current_player g) (game_over g) [] (is_rock g) (is_chess g)),
      (mkStore (<[r := f2]> (figs s1)) (rows s1)
               (stdout s1 ++ [MsgContinues (current_player g)])).
    split; [|split; [reflexivity|split; [reflexivity|split; [reflexivity|split; [|split; [|split]]]]]].
    + unfold Game.move_request. rewrite Hmoves.
      erewrite bindM_Ok by (apply lift_Ok, py_getitem_0).
      erewrite bindM_Ok by (apply lift_Ok, py_getitem_1).
      erewrite bindM_Ok by (apply lift_Ok; exact Hok).
      cbv beta iota. rewrite Hprefix.
      erewrite bindM_Ok by (apply lift_Ok; exact G2).
      erewrite bindM_Ok by (apply lift_Ok; unfold deref_opt, deref; rewrite Hf1; reflexivity).
      cbn [kill f1 negb].
      erewrite bindM_Ok by reflexivity.
      erewrite bindM_Ok by apply Hcont.
      reflexivity.
    + subst b'. cbn [board history]. rewrite length_app. cbn [length]. lia.
    + rewrite (get_cell_rows s1) by reflexivity. exact G2.
    + rewrite (get_cell_rows s1) by reflexivity. exact G1.
    + apply Hd2.
  - exists (mkGame b' (opposite (current_player g)) (game_over g) [] (is_rock g) (is_chess g)), s2.
    split; [|split; [reflexivity|split; [reflexivity|split; [reflexivity|split; [|split; [|split]]]]]].
    + unfold Game.move_request. rewrite Hmoves.
      erewrite bindM_Ok by (apply lift_Ok, py_getitem_0).
      erewrite bindM_Ok by (apply lift_Ok, py_getitem_1).
      erewrite bindM_Ok by (apply lift_Ok; exact Hok).
      cbv beta iota. rewrite Hprefix.
      erewrite bindM_Ok by (apply lift_Ok; exact G2).
      erewrite bindM_Ok by (apply lift_Ok; unfold deref_opt, deref; rewrite Hf1; reflexivity).
      cbn [kill f1 negb].
      erewrite bindM_Ok by exact Hset.
      reflexivity.
    + subst b'. cbn [board history]. rewrite length_app. cbn [length]. lia.
    + rewrite (get_cell_rows s1) by reflexivity. exact G2.
    + rewrite (get_cell_rows s1) by reflexivity. exact G1.
    + apply Hd2.
Qed.

(** For the moves of a man that [CheckersBoard.check_move] accepts, the
    capture branch of [make_move] is taken exactly for the jumps over an
    occupied cell. *)
Lemma accepted_man_move_captures s self a1 b1 a2 b2 r fig clear :
  wf_grid s (field self) = true ->
  in_bounds (a1, b1) = true -> in_bounds (a2, b2) = true ->
  get_cell s self (a1, b1) = Ok (Some r) ->
  deref s r = Ok fig ->
  cls fig = CheckersFigure ->
  CheckersBoard.check_move s self (a1, b1) (a2, b2) = Ok true ->
  Board.is_path_clear s self a1 b1 a2 b2 = Ok clear ->
  negb (truthy clear)
  = bool_decide (Z.abs (a2 - a1) = 2 /\ Z.abs (b2 - b1) = 2)
    && negb (is_empty s self ((a1 + a2) `div` 2, (b1 + b2) `div` 2)).
Proof.
  intros Hwf Hfrom Hto Hget Hfig Hman Hok Hclear.
  destruct (decide (Z.abs (a2 - a1) = 2 /\ Z.abs (b2 - b1) = 2)) as [[Ha Hb]|Hnj].
  - rewrite (bool_decide_eq_true_2 (Z.abs (a2 - a1) = 2 /\ Z.abs (b2 - b1) = 2))
      by (split; assumption).
    cbn [andb].
    destruct (get_cell_wf s self ((a1 + a2) `div` 2, (b1 + b2) `div` 2) Hwf) as [m Hm].
    { apply mid_in_bounds; assumption. }
    unfold is_empty. rewrite Hm. destruct m as [m|].
    + rewrite (is_path_clear_jump s self a1 b1 a2 b2 m Ha Hb Hm) in Hclear.
      injection Hclear as <-. reflexivity.
    + rewrite (is_path_clear_jump_free s self a1 b1 a2 b2 Ha Hb Hm) in Hclear.
      injection Hclear as <-. reflexivity.
  - rewrite (bool_decide_eq_false_2 _ Hnj). cbn [andb].
    unfold CheckersBoard.check_move, figure_at, deref_opt in Hok.
    rewrite Hget in Hok. cbn [mbind result_bind mret result_ret fst snd] in Hok.
    rewrite Hfig in Hok. cbn [mbind result_bind mret result_ret fst snd] in Hok.
    replace (isinstance (Some fig) [CheckersFigure; Bishop]) with true in Hok
      by (unfold isinstance; rewrite Hman; reflexivity).
    replace (isinstance (Some fig) [Bishop]) with false in Hok
      by (unfold isinstance; rewrite Hman; reflexivity).
    cbn [negb] in Hok. unfold CheckersBoard.is_jump in Hok.
    replace (bool_decide (Z.abs (a2 - a1) = 2) && bool_decide (Z.abs (b2 - b1) = 2))
      with false in Hok.
    2:{ symmetry. apply andb_false_iff.
        destruct (decide (Z.abs (a2 - a1) = 2)); [right|left];
          apply bool_decide_eq_false_2; tauto. }
    cbn [mbind result_bind mret result_ret fst snd] in Hok.
    destruct (py_in (a2, b2) (get_possible_moves fig)); [|discriminate].
    rewrite Hclear in Hok. cbn [mbind result_bind mret result_ret fst snd] in Hok.
    injection Hok as ->. reflexivity.
Qed.

(** X29.  An accepted request for a man on a checkers board.  After a jump
    over an occupied cell the same player moves again, except when the jump
    ends on the far row: the fresh [Bishop] put there has no [kill] flag, so
    the turn passes as after a plain step.  The figure on the destination has
    the flag unset afterwards and stores the destination. *)
Theorem checkers_turn_after_accepted_move g s a1 b1 a2 b2 rest r fig :
  variant (board g) = CheckersBoard ->
  moves g = (a1, b1) :: (a2, b2) :: rest ->
  wf_grid s (field (board g)) = true ->
  in_bounds (a1, b1) = true -> in_bounds (a2, b2) = true ->
  (a1, b1) ≠ (a2, b2) ->
  get_cell s (board g) (a1, b1) = Ok (Some r) ->
  deref s r = Ok fig ->
  cls fig = CheckersFigure ->
  kill fig = false ->
  check_move s (board g) (a1, b1) (a2, b2) = Ok true ->
  let mid := ((a1 + a2) `div` 2, (b1 + b2) `div` 2) in
  let jump := bool_decide (Z.abs (a2 - a1) = 2 /\ Z.abs (b2 - b1) = 2)
              && negb (is_empty s (board g) mid) in
  exists g' s' r',
    Game.move_request g s = Ok (g', s')
    /\ current_player g'
       = (if jump && negb (promotes fig a2)
          then current_player g else opposite (current_player g))
    /\ moves g' = []
    /\ board g' = board g
    /\ (jump = true -> get_cell s' (board g) mid = Ok None)
    /\ get_cell s' (board g) (a1, b1) = Ok None
    /\ get_cell s' (board g) (a2, b2) = Ok (Some r')
    /\ deref s' r'
       = Ok (mkFigure (if promotes fig a2 then Bishop else CheckersFigure)
                      (color fig) (a2, b2) false).
Proof.
  intros Hv Hmoves Hwf Hfrom Hto Hne Hget Hfig Hman Hkill Hok mid jump.
  assert (Hok' : CheckersBoard.check_move s (board g) (a1, b1) (a2, b2) = Ok true)
    by (unfold check_move in Hok; rewrite Hv in Hok; exact Hok).
  destruct (is_path_clear_returns s (board g) a1 b1 a2 b2 Hwf Hfrom Hto) as [clear Hclear].
  pose proof (accepted_man_move_captures s (board g) a1 b1 a2 b2 r fig clear
                Hwf Hfrom Hto Hget Hfig Hman Hok' Hclear) as Hjump.
  fold mid in Hjump. fold jump in Hjump.
  destruct (checkers_man_run (board g) a1 b1 a2 b2 s r fig clear
              Hwf Hfrom Hto Hne Hget Hfig Hman Hclear)
    as (s1 & E & F & O & Gd & Gs & Gm & Gq & W).
  rewrite Hjump, Hkill in F. cbn [orb] in F. rewrite Hjump in Gm. fold mid in Gm.
  apply deref_Some in Hfig.
  assert (Hr : (r < length (figs s))%nat) by (eapply lookup_lt_Some; eauto).
  set (r' := if promotes fig a2 then length (figs s) else r) in *.
  set (f1 := if promotes fig a2
             then mkFigure Bishop (color fig) (a2, b2) false
             else mkFigure CheckersFigure (color fig) (a2, b2) jump).
  set (f2 := mkFigure (if promotes fig a2 then Bishop else CheckersFigure)
                      (color fig) (a2, b2) false).
  assert (Hf1 : figs s1 !! r' = Some f1).
  { rewrite F. subst r' f1. destruct (promotes fig a2).
    - rewrite lookup_app_r by (rewrite length_insert; lia).
      rewrite length_insert, Nat.sub_diag. reflexivity.
    - rewrite app_nil_r, Hman. apply list_lookup_insert_eq. exact Hr. }
  assert (Hk1 : kill f1 = jump && negb (promotes fig a2))
    by (subst f1; destruct (promotes fig a2); cbn [kill negb];
        [rewrite andb_false_r|rewrite andb_true_r]; reflexivity).
  assert (Hupd : mkFigure (cls f1) (color f1) (position f1) false = f2)
    by (subst f1 f2; destruct (promotes fig a2); reflexivity).
  assert (Hprefix : forall k : Board -> M Game,
            (b ← make_move (board g) (a1, b1) (a2, b2); k b) s = k (board g) s1).
  { intros k. unfold make_move. rewrite Hv.
    erewrite bindM_Ok; cycle 1.
    { erewrite bindM_Ok by exact E. reflexivity. }
    reflexivity. }
  assert (Hcont : forall out, set_kill (Some r') false (mkStore (figs s1) (rows s1) out)
                              = Ok (tt, mkStore (<[r' := f2]> (figs s1)) (rows s1) out)).
  { intros out. unfold set_kill. rewrite (update_fig_Ok r' _ f1) by exact Hf1.
    rewrite Hupd. reflexivity. }
  assert (Hd2 : forall out, deref (mkStore (<[r' := f2]> (figs s1)) (rows s1) out) r' = Ok f2).
  { intros out. apply deref_Some. cbn [figs]. apply list_lookup_insert_eq.
    eapply lookup_lt_Some; eauto. }
  assert (Hstart :
    Game.move_request g s
    = (if negb (kill f1) then
         set_kill (Some r') false;;
         mret (mkGame (board g) (opposite (current_player g)) (game_over g) []
                      (is_rock g) (is_chess g))
       else
         print (MsgContinues (current_player g));;
         set_kill (Some r') false;;
         mret (mkGame (board g) (current_player g) (game_over g) []
                      (is_rock g) (is_chess g))) s1).
  { unfold Game.move_request. rewrite Hmoves.
    erewrite bindM_Ok by (apply lift_Ok, py_getitem_0).
    erewrite bindM_Ok by (apply lift_Ok, py_getitem_1).
    erewrite bindM_Ok by (apply lift_Ok; exact Hok).
    cbv beta iota. rewrite Hprefix.
    erewrite bindM_Ok by (apply lift_Ok; exact Gd).
    erewrite bindM_Ok by (apply lift_Ok; unfold deref_opt, deref; rewrite Hf1; reflexivity).
    reflexivity. }
  rewrite Hstart, Hk1. clear Hstart.
  destruct (jump && negb (promotes fig a2)) eqn:Hag; cbn [negb].
  - exists (mkGame (board g) (current_player g) (game_over g) [] (is_rock g) (is_chess g)),
      (mkStore (<[r' := f2]> (figs s1)) (rows s1)
               (stdout s1 ++ [MsgContinues (current_player g)])), r'.
    split; [|split; [reflexivity|split; [reflexivity|split; [reflexivity|split; [|split; [|split]]]]]].
    + erewrite bindM_Ok by reflexivity.
      erewrite bindM_Ok by apply Hcont.
      reflexivity.
    + intros Hj. rewrite (get_cell_rows s1) by reflexivity. apply Gm, Hj.
    + rewrite (get_cell_rows s1) by reflexivity. exact Gs.
    + rewrite (get_cell_rows s1) by reflexivity. exact Gd.
    + apply Hd2.
  - exists (mkGame (board g) (opposite (current_player g)) (game_over g) []
                   (is_rock g) (is_chess g)),
      (mkStore (<[r' := f2]> (figs s1)) (rows s1) (stdout s1)), r'.
    split; [|split; [reflexivity|split; [reflexivity|split; [reflexivity|split; [|split; [|split]]]]]].
    + erewrite bindM_Ok; cycle 1.
      { replace s1 with (mkStore (figs s1) (rows s1) (stdout s1)) at 1 by (destruct s1; reflexivity).
        apply Hcont. }
      reflexivity.
    + intros Hj. rewrite (get_cell_rows s1) by reflexivity. apply Gm, Hj.
    + rewrite (get_cell_rows s1) by reflexivity. exact Gs.
    + rewrite (get_cell_rows s1) by reflexivity. exact Gd.
    + apply Hd2.
Qed.

(** X30.  Accepting the undo when at most one snapshot is stored: [undo_move]
    only prints that there is nothing to undo and leaves the board as it is,
    and the loop of [play] passes the turn to the other player all the
    same. *)
Theorem undo_with_nothing_to_undo_passes_the_turn inp g s s1 can :
  is_game_over (board g) s = Ok (false, s1) ->
  Board.if_rock_possible s1 (board g) (current_player g) = Ok can ->
  can && castle_answer inp = false ->
  is_rock g = false ->
  is_chess g = true ->
  undo_answer inp = true ->
  (length (history (board g)) <= 1)%nat ->
  Game.play_step inp g s
  = Ok (mkGame (board g) (opposite (current_player g)) (game_over g) (moves g) false
               (is_chess g),
        mkStore (figs s) (rows s) (stdout s1 ++ [MsgNothingToUndo])).
Proof.
  intros Hover Hcan Hcastle Hrock Hchess Hundo Hlen.
  destruct (is_game_over_only_prints _ _ _ _ Hover) as [Hf Hr].
  unfold Game.play_step.
  erewrite bindM_Ok by exact Hover. cbv beta iota.
  erewrite bindM_Ok by (apply lift_Ok; exact Hcan).
  rewrite Hcastle.
  erewrite bindM_Ok by reflexivity.
  rewrite Hrock. cbn [negb]. rewrite Hchess, Hundo. cbn [andb].
  unfold Board.undo_move. rewrite bool_decide_eq_false_2 by lia.
  erewrite bindM_Ok; cycle 1.
  { erewrite bindM_Ok by reflexivity. reflexivity. }
  unfold mret, M_ret. cbn [figs rows stdout]. rewrite Hf, Hr. reflexivity.
Qed.

(** ** The further theorems at concrete positions *)

Ltac run := vm_compute; reflexivity.

Lemma more_positions_are_built :
  built (board_with CheckersBoard
           [((2, 2), Bishop, white); ((3, 3), CheckersFigure, black)]) = flying_position
  /\ built (board_with ExtendedBoard [((7, 4), Snake, black); ((7, 7), Rook, black)])
     = black_castling_position
  /\ built (board_with ChessBoard [((7, 4), King, white)]) = lone_white_king.
Proof. repeat split; vm_compute; reflexivity. Qed.

Lemma rook_geometry_witness :
  (3, 0) ∈ get_possible_moves (mkFigure Rook white (7, 0) false).
Proof.
  apply (rook_geometry (mkFigure Rook white (7, 0) false) 3 0 eq_refl).
  left. cbn. lia.
Defined.

Lemma bishop_geometry_witness :
  (5, 0) ∈ get_possible_moves (mkFigure Bishop white (7, 2) false).
Proof.
  apply (bishop_geometry (mkFigure Bishop white (7, 2) false) 5 0 eq_refl eq_refl).
  split; [reflexivity|]. cbn. lia.
Defined.

Lemma ghost_geometry_witness :
  (5, 6) ∈ get_possible_moves (mkFigure Ghost white (5, 1) false).
Proof.
  apply (ghost_geometry (mkFigure Ghost white (5, 1) false) 5 6 eq_refl eq_refl).
  split; [reflexivity|]. cbn. split; [congruence|lia].
Defined.

Lemma pawn_geometry_witness :
  get_possible_moves (mkFigure Pawn white (6, 4) false) = [(5, 4); (4, 4)].
Proof. exact (pawn_geometry (mkFigure Pawn white (6, 4) false) eq_refl eq_refl). Defined.

Lemma path_clear_witness :
  exists r,
    Board.is_path_clear chess_start.2 chess_start.1 7 0 4 0 = Ok (Some r)
    /\ (r = true <->
        forall k, 0 < k < Z.max (Z.abs (4 - 7)) (Z.abs (0 - 0)) ->
          get_cell chess_start.2 chess_start.1 (7 + k * Z.sgn (4 - 7), 0 + k * Z.sgn (0 - 0))
          = Ok None).
Proof.
  apply (path_clear_iff_cells_between_empty chess_start.2 chess_start.1 7 0 4 0);
    [run | run | run | right; left; reflexivity].
Defined.

Lemma is_path_clear_without_reading_witness :
  Board.is_path_clear chess_start.2 chess_start.1 7 4 6 4 = Ok (Some true)
  /\ Board.is_path_clear chess_start.2 chess_start.1 7 1 5 2 = Ok None.
Proof.
  split.
  - apply (proj1 (is_path_clear_without_reading chess_start.2 chess_start.1 7 4 6 4)); lia.
  - apply (proj2 (is_path_clear_without_reading chess_start.2 chess_start.1 7 1 5 2)); lia.
Defined.

Lemma is_path_clear_symmetric_witness :
  Board.is_path_clear chess_start.2 chess_start.1 7 0 4 0
  = Board.is_path_clear chess_start.2 chess_start.1 4 0 7 0.
Proof.
  apply (is_path_clear_symmetric chess_start.2 chess_start.1 7 0 4 0); run.
Defined.

Lemma king_is_never_blocked_witness :
  Board.check_move chess_start.2 chess_start.1 (7, 4) (6, 4) = Ok true.
Proof.
  etransitivity.
  - apply (king_is_never_blocked chess_start.2 chess_start.1 (7, 4) (6, 4) 25%nat
             (mkFigure King white (7, 4) false) (Some 9%nat));
      [run | run | left; reflexivity | reflexivity | run].
  - run.
Defined.

Lemma no_move_onto_own_cell_witness :
  check_move chess_start.2 chess_start.1 (6, 4) (6, 4) = Ok false.
Proof.
  apply (no_move_onto_own_cell chess_start.2 chess_start.1 (6, 4) 9%nat
           (mkFigure Pawn white (6, 4) false)); [run | run | reflexivity].
Defined.

Lemma pawn_double_step_witness :
  Board.check_move chess_start.2 chess_start.1 (6, 4) (4, 4) = Ok true.
Proof.
  etransitivity.
  - apply (pawn_double_step chess_start.2 chess_start.1 white 4 9%nat
             (mkFigure Pawn white (6, 4) false) None);
      [lia | run | run | reflexivity | reflexivity | reflexivity | run | run].
  - run.
Defined.

Lemma slider_legality_witness :
  exists b,
    Board.check_move chess_start.2 chess_start.1 (7, 0) (5, 0) = Ok b
    /\ (b = true <->
        (7, 0) ≠ (5, 0)
        /\ ((Rook ≠ Bishop /\ (7 = 5 \/ 0 = 0))
            \/ (Rook ≠ Rook /\ Z.abs (7 - 5) = Z.abs (0 - 0)))
        /\ forall k, 0 < k < Z.max (Z.abs (5 - 7)) (Z.abs (0 - 0)) ->
             get_cell chess_start.2 chess_start.1 (7 + k * Z.sgn (5 - 7), 0 + k * Z.sgn (0 - 0))
             = Ok None).
Proof.
  apply (slider_legality chess_start.2 chess_start.1 7 0 5 0 17%nat
           (mkFigure Rook white (7, 0) false));
    [run | run | run | run | run | left; reflexivity | reflexivity].
Defined.

Lemma man_legality_witness :
  CheckersBoard.check_move jump_position.2 jump_position.1 (2, 3) (4, 5) = Ok true.
Proof.
  etransitivity.
  - apply (man_legality jump_position.2 jump_position.1 2 3 4 5 0%nat
             (mkFigure CheckersFigure white (2, 3) false));
      [run | run | run | run | run | reflexivity | reflexivity].
  - run.
Defined.

Lemma promoted_piece_flies_witness :
  CheckersBoard.check_move flying_position.2 flying_position.1 (2, 2) (4, 4) = Ok true.
Proof.
  etransitivity.
  - apply (promoted_piece_flies flying_position.2 flying_position.1 2 2 4 4 0%nat
             (mkFigure Bishop white (2, 2) false)); [run | run | run | reflexivity | reflexivity].
  - run.
Defined.

Lemma check_move_returns_witness :
  exists b, check_move chess_start.2 chess_start.1 (6, 4) (4, 4) = Ok b.
Proof.
  apply (check_move_returns_on_the_board chess_start.2 chess_start.1 (6, 4) (4, 4)); run.
Defined.

Lemma chess_move_application_witness :
  exists self' s',
    Board.make_move chess_start.1 (6, 4) (4, 4) chess_start.2 = Ok (self', s')
    /\ get_cell s' self' (4, 4) = Ok (Some 9%nat)
    /\ get_cell s' self' (6, 4) = Ok None.
Proof.
  destruct (chess_move_application chess_start.1 6 4 4 4 chess_start.2 9%nat
              (mkFigure Pawn white (6, 4) false) None)
    as (self' & s' & snap & E & _ & _ & G2 & G1 & _); try run.
  - discriminate.
  - exists self', s'. split; [exact E|]. split; [exact G2|exact G1].
Defined.

Lemma make_move_keeps_the_board_sound_witness :
  exists self' s',
    Board.make_move chess_start.1 (6, 4) (4, 4) chess_start.2 = Ok (self', s')
    /\ wf_grid s' (field self') = true
    /\ figures_readable s' self' = true
    /\ snapshot_ok s' self' = true.
Proof.
  apply (make_move_keeps_the_board_sound chess_start.1 6 4 4 4 chess_start.2 9%nat);
    try run. discriminate.
Defined.

Lemma make_move_from_an_empty_cell_witness :
  make_move chess_start.1 (4, 4) (3, 4) chess_start.2 = Raise AttributeError.
Proof.
  apply (make_move_from_an_empty_cell_raises chess_start.2 chess_start.1 (4, 4) (3, 4)); run.
Defined.

Lemma snapshot_survives_witness :
  exists self' s1 snap s2,
    Board.save_state chess_start.1 chess_start.2 = Ok (self', s1)
    /\ set_cell self' (6, 4) None s1 = Ok (tt, s2)
    /\ get_cell s2 self' (6, 4) = Ok None
    /\ grid_get s2 snap (6, 4) = get_cell chess_start.2 chess_start.1 (6, 4).
Proof.
  destruct (snapshot_survives_later_writes chess_start.1 chess_start.2 (6, 4) None)
    as (self' & s1 & snap & s2 & E & _ & _ & _ & E2 & G & K); try run.
  exists self', s1, snap, s2. split; [exact E|]. split; [exact E2|]. split; [exact G|].
  apply K. reflexivity.
Defined.

Lemma undo_after_move_witness :
  exists self' s',
    (Board.make_move chess_start.1 (6, 4) (4, 4) ≫= Board.undo_move) chess_start.2
    = Ok (self', s')
    /\ get_cell s' self' (6, 4) = get_cell chess_start.2 chess_start.1 (6, 4)
    /\ exists fig', deref s' 9%nat = Ok fig' /\ position fig' = (4, 4).
Proof.
  destruct (undo_after_move_restores_cells chess_start.1 6 4 4 4 chess_start.2 9%nat
              (mkFigure Pawn white (6, 4) false) None []
              [8%nat; 9%nat; 10%nat; 11%nat; 12%nat; 13%nat; 14%nat; 15%nat])
    as (self' & s' & E & _ & _ & G & P); try run.
  - discriminate.
  - exists self', s'. split; [exact E|]. split; [apply G; reflexivity|exact P].
Defined.

Lemma castling_offer_witness :
  exists kf rf,
    figure_at castling_position.2 castling_position.1 (0, 4) = Ok (Some kf)
    /\ (cls kf = King \/ cls kf = Snake) /\ color kf = white
    /\ figure_at castling_position.2 castling_position.1 (0, 7) = Ok (Some rf)
    /\ cls rf = Rook /\ color rf = white
    /\ get_cell castling_position.2 castling_position.1 (0, 5) = Ok None
    /\ get_cell castling_position.2 castling_position.1 (0, 6) = Ok None.
Proof.
  apply (castling_offer_needs_king_and_rook castling_position.2 castling_position.1 white).
  run.
Defined.

Lemma castling_for_either_colour_witness :
  Board.if_rock_possible black_castling_position.2 black_castling_position.1 black = Ok true
  /\ exists s',
       Board.rock black_castling_position.1 black black_castling_position.2 = Ok (tt, s')
       /\ figure_at s' black_castling_position.1 (7, 6)
          = Ok (Some (mkFigure Snake black (7, 4) false))
       /\ figure_at s' black_castling_position.1 (7, 5)
          = Ok (Some (mkFigure Rook black (7, 7) false))
       /\ get_cell s' black_castling_position.1 (7, 4) = Ok None
       /\ get_cell s' black_castling_position.1 (7, 7) = Ok None
       /\ figs s' = figs black_castling_position.2.
Proof.
  apply (castling_for_either_colour black_castling_position.2 black_castling_position.1 black
           0%nat (mkFigure Snake black (7, 4) false)
           1%nat (mkFigure Rook black (7, 7) false));
    try run. right; reflexivity.
Defined.

Lemma checkers_man_move_witness :
  exists s' r' fig',
    CheckersBoard.make_move jump_position.1 (2, 3) (4, 5) jump_position.2 = Ok (tt, s')
    /\ get_cell s' jump_position.1 (4, 5) = Ok (Some r')
    /\ deref s' r' = Ok fig'
    /\ fig' = mkFigure CheckersFigure white (4, 5) true
    /\ get_cell s' jump_position.1 (2, 3) = Ok None
    /\ get_cell s' jump_position.1 (3, 4) = Ok None.
Proof.
  destruct (checkers_man_move_application jump_position.1 2 3 4 5 jump_position.2 0%nat
              (mkFigure CheckersFigure white (2, 3) false) (Some false))
    as (s' & r' & fig' & E & G & D & Hf & _ & G1 & Gm & _); try run.
  - discriminate.
  - exists s', r', fig'. split; [exact E|]. split; [exact G|]. split; [exact D|].
    split; [exact Hf|]. split; [exact G1|]. apply Gm. reflexivity.
Defined.

Lemma flying_capture_witness :
  exists s',
    CheckersBoard.make_move flying_position.1 (2, 2) (4, 4) flying_position.2 = Ok (tt, s')
    /\ get_cell s' flying_position.1 (3, 3) = Ok None.
Proof.
  destruct (flying_capture_clears_one_direction_only flying_position.1 2 2 4 4
              flying_position.2 0%nat (mkFigure Bishop white (2, 2) false))
    as (s' & E & _ & _ & Gk & _); try run.
  - lia.
  - exists s'. split; [exact E|]. apply (Gk 1). lia.
Defined.

Lemma checkers_game_over_witness :
  CheckersBoard.is_game_over lone_white_man.2 lone_white_man.1
  = Ok (forallb (fun p => negb (man_at lone_white_man.2 lone_white_man.1 p)) all_cells).
Proof.
  apply (checkers_game_over_iff_no_man lone_white_man.2 lone_white_man.1); run.
Defined.

Lemma locate_kings_witness :
  figure_at extended_start.2 extended_start.1 (2, 7)
  = Ok (Some (mkFigure Snake black (2, 7) false))
  /\ exists kings,
       Board.locate_kings extended_start.2 extended_start.1 = Ok kings
       /\ kings.1 = Some (2, 7).
Proof.
  split; [run|].
  apply (locate_kings_takes_last_instance extended_start.2 extended_start.1 black
           (take 23 all_cells) (2, 7) (drop 24 all_cells)); run.
Defined.

Lemma is_game_over_raises_witness :
  Board.is_game_over lone_white_king.1 lone_white_king.2 = Raise TypeError.
Proof.
  apply (is_game_over_raises_without_a_king lone_white_king.2 lone_white_king.1 black); run.
Defined.

Lemma is_game_over_returns_witness :
  exists over msgs,
    Board.is_game_over chess_start.1 chess_start.2
    = Ok (over, mkStore (figs chess_start.2) (rows chess_start.2)
                        (stdout chess_start.2 ++ msgs))
    /\ (msgs = [] \/ exists c, msgs = [MsgCheck c]).
Proof.
  apply (is_game_over_returns_with_both_kings chess_start.2 chess_start.1); run.
Defined.

Lemma chess_turn_witness :
  exists g' s',
    Game.move_request opening_request chess_start.2 = Ok (g', s')
    /\ current_player g' = black
    /\ get_cell s' (board g') (4, 4) = Ok (Some 9%nat)
    /\ deref s' 9%nat = Ok (mkFigure Pawn white (4, 4) false).
Proof.
  destruct (chess_turn_after_accepted_move opening_request chess_start.2 6 4 4 4 [] 9%nat
              (mkFigure Pawn white (6, 4) false) None)
    as (g' & s' & E & P & _ & _ & _ & G & _ & D); try run.
  - discriminate.
  - discriminate.
  - exists g', s'. split; [exact E|]. split; [exact P|]. split; [exact G|exact D].
Defined.

Lemma checkers_turn_witness :
  exists g' s' r',
    Game.move_request jump_request jump_position.2 = Ok (g', s')
    /\ current_player g' = white
    /\ get_cell s' jump_position.1 (3, 4) = Ok None
    /\ get_cell s' jump_position.1 (4, 5) = Ok (Some r')
    /\ deref s' r' = Ok (mkFigure CheckersFigure white (4, 5) false).
Proof.
  destruct (checkers_turn_after_accepted_move jump_request jump_position.2 2 3 4 5 [] 0%nat
              (mkFigure CheckersFigure white (2, 3) false))
    as (g' & s' & r' & E & P & _ & _ & Gm & _ & G & D); try run.
  - discriminate.
  - exists g', s', r'. split; [exact E|]. split; [exact P|].
    split; [apply Gm; run|]. split; [exact G|exact D].
Defined.

Lemma undo_with_nothing_to_undo_witness :
  Game.play_step undo_request (mkGame chess_start.1 white false [] false true) chess_start.2
  = Ok (mkGame chess_start.1 black false [] false true,
        mkStore (figs chess_start.2) (rows chess_start.2)
                (stdout chess_start.2 ++ [MsgNothingToUndo])).
Proof.
  apply (undo_with_nothing_to_undo_passes_the_turn undo_request
           (mkGame chess_start.1 white false [] false true) chess_start.2 chess_start.2 false);
    run.
Defined.
